(** * The VFD SWMR "bigset" writer and the H5G group API

    A shallow embedding of [test/vfd_swmr_bigset_writer.c] and of the
    public entry points of [src/H5G.c], with the properties the
    specification states about them.

    Conventions.  The C integer types are modelled on [Z] with their
    wrap-around written out: [hsize_t] and [unsigned long] are 64 bits wide,
    [unsigned] and [uint32_t] are 32 bits wide (the LP64 data model).  Loop
    counters that the source bounds by a small constant are [nat].  A call
    to [errx]/[err]/[usage] ends the process with [EXIT_FAILURE]; a failed
    [assert] ends it with [abort]. *)

From Stdlib Require Import ZArith Lia List Bool Ascii String.
From stdpp Require Import base option numbers list gmap strings pretty.

Local Open Scope Z_scope.

(** ** Machine integers *)

Definition wrap64 (z : Z) : Z := z mod 2 ^ 64.
Definition wrap32 (z : Z) : Z := z mod 2 ^ 32.

Definition add64 (a b : Z) : Z := wrap64 (a + b).
Definition sub64 (a b : Z) : Z := wrap64 (a - b).
Definition mul64 (a b : Z) : Z := wrap64 (a * b).
Definition add32 (a b : Z) : Z := wrap32 (a + b).

Definition UINT32_MAX : Z := 4294967295.
Definition UINT_MAX : Z := 4294967295.
Definition ULONG_MAX : Z := 18446744073709551615.
Definition H5S_UNLIMITED : Z := 18446744073709551615.

Definition is_hsize (z : Z) : Prop := 0 <= z < 2 ^ 64.
Definition is_unsigned (z : Z) : Prop := 0 <= z < 2 ^ 32.

(** ** Constants of the writer *)

Definition ROWS : nat := 256.
Definition COLS : nat := 512.
Definition RANK : nat := 2.
Definition NSETS : nat := 5.

Definition original_dims : list Z := [Z.of_nat ROWS; Z.of_nat COLS].
Definition one_dee_max_dims : list Z := [H5S_UNLIMITED; Z.of_nat COLS].
Definition two_dee_max_dims : list Z := [H5S_UNLIMITED; H5S_UNLIMITED].
Definition chunk_dims : list Z := original_dims.

Module base.
Record t : Type := mk { row : Z; col : Z }.
End base.
Abbreviation base_t := base.t.

(** The in-memory chunk [uint32_t mat[ROWS][COLS]], addressed by
    [(row, col)]; a cell that was never stored to has no entry. *)
Abbreviation matrix := (gmap (nat * nat) Z).

(** ** Bounded loops that may stop the program *)

(** [for_up n i body s] runs [body i], [body (i+1)], ... [n] times, threading
    the state; [None] is a failed assertion inside the body. *)
Fixpoint for_up {S : Type} (n : nat) (i : nat)
    (body : nat -> S -> option S) (s : S) : option S :=
  match n with
  | O => Some s
  | Datatypes.S n' =>
      match body i s with
      | Some s' => for_up n' (Datatypes.S i) body s'
      | None => None
      end
  end.

(** ** [init_matrix] *)

(** The value [u] computed for in-chunk position [(row, col)]. *)
Definition init_u (b : base_t) (row col : nat) : Z :=
  let i := add64 (base.row b) (Z.of_nat row) in
  let j := add64 (base.col b) (Z.of_nat col) in
  if j <=? i
  then sub64 (sub64 (mul64 (add64 i 1) (add64 i 1)) 1) j
  else add64 (mul64 j j) i.

(** [assert(UINT32_MAX - u >= which)]: the subtraction is done at the width
    of [hsize_t]. *)
Definition init_assert (which : Z) (u : Z) : bool :=
  which <=? sub64 UINT32_MAX u.

(** One iteration of the inner loop: the value stored in [mat[row][col]], or
    [None] when the assertion fails. *)
Definition init_cell (which : Z) (b : base_t) (row col : nat) : option Z :=
  let u := init_u b row col in
  if init_assert which u then Some (wrap32 (add64 u which)) else None.

Definition init_matrix (mat : matrix) (which : Z) (b : base_t)
    : option matrix :=
  for_up ROWS 0
    (fun row mat =>
       for_up COLS 0
         (fun col mat =>
            match init_cell which b row col with
            | Some v => Some (<[(row, col) := v]> mat)
            | None => None
            end) mat) mat.

(** The value the specification gives for global coordinates [(i, j)],
    over the mathematical integers. *)
Definition spec_value (i j : Z) : Z :=
  if j <=? i then (i + 1) * (i + 1) - 1 - j else j * j + i.

(** ** The process and the library it calls

    The HDF5 library and the helpers of [vfd_swmr_common] are outside the
    writer; every call to them is recorded with its arguments and its return
    value, and the return value is chosen by the environment from the history
    of earlier calls.  The writer is then a function from an environment and
    a history to an outcome and a longer history. *)

Abbreviation hid_t := Z (only parsing).
Definition H5I_INVALID_HID : hid_t := -1.
Definition badhid : hid_t := H5I_INVALID_HID.
Definition EXIT_SUCCESS : Z := 0.
Definition EXIT_FAILURE : Z := 1.
Definition PATH_MAX : nat := 4096.

Inductive plist_class : Type := H5P_DATASET_CREATE | H5P_FILE_CREATE.

Inductive call : Type :=
  | esnprintf_call (bufsz : nat) (text : string)
  | H5Screate_simple (rank : nat) (dims : list Z) (maxdims : option (list Z))
  | H5Pcreate (cls : plist_class)
  | H5Pset_chunk (dcpl : hid_t) (rank : nat) (dims : list Z)
  | H5Dcreate2 (file : hid_t) (name : string) (filespace dcpl : hid_t)
  | H5Sclose (space : hid_t)
  | H5Sselect_hyperslab (filespace : hid_t) (start count : list Z)
  | H5Dwrite (ds memspace filespace : hid_t) (mat : matrix)
  | H5Dset_extent (ds : hid_t) (size : list Z)
  | H5Dget_space (ds : hid_t)
  | malloc_call
  | vfd_swmr_create_fapl (writer only_meta_pages use_vfd_swmr : bool)
  | H5Pset_file_space_strategy (fcpl : hid_t)
  | H5Fcreate (name : string) (fcpl fapl : hid_t)
  | block_signals
  | nanosleep (tv_sec tv_nsec : Z)
  | await_signal (file : hid_t)
  | restore_signals
  | H5Pclose (plist : hid_t)
  | H5Fclose (file : hid_t)
  | free_call.

Definition event : Type := call * Z.
Definition trace : Type := list event.
Definition env_t : Type := trace -> call -> Z.

Inductive outcome (A : Type) : Type :=
  | Ret (a : A)          (* the function returned *)
  | Exit (status : Z)    (* exit(3), through errx, err or usage *)
  | Abort                (* a failed assert *)
  | OutOfFuel.           (* the loop bound of the model was too small *)
Arguments Ret {A} a.
Arguments Exit {A} status.
Arguments Abort {A}.
Arguments OutOfFuel {A}.

Definition M (A : Type) : Type := env_t -> trace -> outcome A * trace.

Definition ret {A : Type} (a : A) : M A := fun _ t => (Ret a, t).

Definition bind {A B : Type} (m : M A) (k : A -> M B) : M B :=
  fun e t =>
    match m e t with
    | (Ret a, t') => k a e t'
    | (Exit c, t') => (Exit c, t')
    | (Abort, t') => (Abort, t')
    | (OutOfFuel, t') => (OutOfFuel, t')
    end.

#[global] Instance M_ret : MRet M := @ret.
#[global] Instance M_bind : MBind M := fun A B k m => bind m k.

Definition do_call (c : call) : M Z :=
  fun e t => let r := e t c in (Ret r, t ++ [(c, r)]).

Definition lift {A : Type} (o : outcome A) : M A := fun _ t => (o, t).
Definition errx {A : Type} (status : Z) : M A := lift (Exit status).
Definition assert (b : bool) : M unit :=
  lift (if b then Ret tt else Abort).
Definition assert_some {A : Type} (o : option A) : M A :=
  lift (match o with Some a => Ret a | None => Abort end).

(** [esnprintf(buf, bufsz, fmt, ...)] of [vfd_swmr_common]: on return the
    buffer holds the formatted text; the environment decides whether the
    helper returns or ends the process. *)
Definition esnprintf (bufsz : nat) (text : string) : M string :=
  r ← do_call (esnprintf_call bufsz text);
  if r <? 0 then errx EXIT_FAILURE else mret text.

(** [for (i = 0; i < n; i++) body], the counter not touched by the body. *)
Fixpoint for_range {S : Type} (n : nat) (i : Z)
    (body : Z -> S -> M S) (s : S) : M S :=
  match n with
  | O => mret s
  | Datatypes.S n' => s' ← body i s; for_range n' (i + 1) body s'
  end.

(** [for (x = x0; cond x; x = next x) body] over [hsize_t]. *)
Fixpoint for_loop {S : Type} (fuel : nat) (x : Z) (cond : Z -> bool)
    (next : Z -> Z) (body : Z -> S -> M S) (s : S) : M S :=
  match fuel with
  | O => fun _ t => (OutOfFuel, t)
  | Datatypes.S fuel' =>
      if cond x
      then s' ← body x s; for_loop fuel' (next x) cond next body s'
      else mret s
  end.

(** ** The writer's state *)

Record timespec : Type := mk_timespec { tv_sec : Z; tv_nsec : Z }.

Record state_t : Type := mk_state {
  max_elapsed_ns : Z;
  min_elapsed_ns : Z;
  total_elapsed_ns : Z;
  total_loops : Z;
  dataset : list hid_t;
  memspace : hid_t;
  file : hid_t;
  output_file : string;
  progname : string;
  update_interval : timespec;
  fuzz : bool;
  constantrate : bool;
  nsteps : Z;
  two_dee : bool;
  wait_for_signal : bool;
  use_vfd_swmr : bool
}.

Definition ALL_HID_INITIALIZER : state_t := {|
  total_elapsed_ns := 0;
  total_loops := 0;
  min_elapsed_ns := 18446744073709551615;
  max_elapsed_ns := 0;
  dataset := replicate NSETS 0;
  memspace := H5I_INVALID_HID;
  file := H5I_INVALID_HID;
  constantrate := false;
  nsteps := 100;
  output_file := "";
  progname := "";
  fuzz := false;
  two_dee := false;
  wait_for_signal := true;
  use_vfd_swmr := true;
  update_interval := {| tv_sec := 0; tv_nsec := 1000000000 / 30 |}
|}.

Definition set_dataset (v : list hid_t) (s : state_t) : state_t :=
  mk_state (max_elapsed_ns s) (min_elapsed_ns s) (total_elapsed_ns s)
    (total_loops s) v (memspace s) (file s) (output_file s) (progname s)
    (update_interval s) (fuzz s) (constantrate s) (nsteps s) (two_dee s)
    (wait_for_signal s) (use_vfd_swmr s).
Definition set_memspace (v : hid_t) (s : state_t) : state_t :=
  mk_state (max_elapsed_ns s) (min_elapsed_ns s) (total_elapsed_ns s)
    (total_loops s) (dataset s) v (file s) (output_file s) (progname s)
    (update_interval s) (fuzz s) (constantrate s) (nsteps s) (two_dee s)
    (wait_for_signal s) (use_vfd_swmr s).
Definition set_file (v : hid_t) (s : state_t) : state_t :=
  mk_state (max_elapsed_ns s) (min_elapsed_ns s) (total_elapsed_ns s)
    (total_loops s) (dataset s) (memspace s) v (output_file s) (progname s)
    (update_interval s) (fuzz s) (constantrate s) (nsteps s) (two_dee s)
    (wait_for_signal s) (use_vfd_swmr s).
Definition set_output_file (v : string) (s : state_t) : state_t :=
  mk_state (max_elapsed_ns s) (min_elapsed_ns s) (total_elapsed_ns s)
    (total_loops s) (dataset s) (memspace s) (file s) v (progname s)
    (update_interval s) (fuzz s) (constantrate s) (nsteps s) (two_dee s)
    (wait_for_signal s) (use_vfd_swmr s).
Definition set_progname (v : string) (s : state_t) : state_t :=
  mk_state (max_elapsed_ns s) (min_elapsed_ns s) (total_elapsed_ns s)
    (total_loops s) (dataset s) (memspace s) (file s) (output_file s) v
    (update_interval s) (fuzz s) (constantrate s) (nsteps s) (two_dee s)
    (wait_for_signal s) (use_vfd_swmr s).
Definition set_update_interval (v : timespec) (s : state_t) : state_t :=
  mk_state (max_elapsed_ns s) (min_elapsed_ns s) (total_elapsed_ns s)
    (total_loops s) (dataset s) (memspace s) (file s) (output_file s)
    (progname s) v (fuzz s) (constantrate s) (nsteps s) (two_dee s)
    (wait_for_signal s) (use_vfd_swmr s).
Definition set_constantrate (v : bool) (s : state_t) : state_t :=
  mk_state (max_elapsed_ns s) (min_elapsed_ns s) (total_elapsed_ns s)
    (total_loops s) (dataset s) (memspace s) (file s) (output_file s)
    (progname s) (update_interval s) (fuzz s) v (nsteps s) (two_dee s)
    (wait_for_signal s) (use_vfd_swmr s).
Definition set_nsteps (v : Z) (s : state_t) : state_t :=
  mk_state (max_elapsed_ns s) (min_elapsed_ns s) (total_elapsed_ns s)
    (total_loops s) (dataset s) (memspace s) (file s) (output_file s)
    (progname s) (update_interval s) (fuzz s) (constantrate s) v (two_dee s)
    (wait_for_signal s) (use_vfd_swmr s).
Definition set_two_dee (v : bool) (s : state_t) : state_t :=
  mk_state (max_elapsed_ns s) (min_elapsed_ns s) (total_elapsed_ns s)
    (total_loops s) (dataset s) (memspace s) (file s) (output_file s)
    (progname s) (update_interval s) (fuzz s) (constantrate s) (nsteps s) v
    (wait_for_signal s) (use_vfd_swmr s).
Definition set_wait_for_signal (v : bool) (s : state_t) : state_t :=
  mk_state (max_elapsed_ns s) (min_elapsed_ns s) (total_elapsed_ns s)
    (total_loops s) (dataset s) (memspace s) (file s) (output_file s)
    (progname s) (update_interval s) (fuzz s) (constantrate s) (nsteps s)
    (two_dee s) v (use_vfd_swmr s).
Definition set_use_vfd_swmr (v : bool) (s : state_t) : state_t :=
  mk_state (max_elapsed_ns s) (min_elapsed_ns s) (total_elapsed_ns s)
    (total_loops s) (dataset s) (memspace s) (file s) (output_file s)
    (progname s) (update_interval s) (fuzz s) (constantrate s) (nsteps s)
    (two_dee s) (wait_for_signal s) v.

(** ** [create_extensible_dset] *)

Definition create_extensible_dset (s : state_t) (which : Z) : M state_t :=
  assert (which <=? 99);;
  assert (which <? Z.of_nat NSETS);;
  dname ← esnprintf 12 ("/dataset-" +:+ pretty which);
  assert (dataset s !!! Z.to_nat which =? badhid);;
  filespace ← do_call (H5Screate_simple RANK original_dims
                  (Some (if two_dee s then two_dee_max_dims
                         else one_dee_max_dims)));
  if filespace <? 0 then errx EXIT_FAILURE else
  dcpl ← do_call (H5Pcreate H5P_DATASET_CREATE);
  if dcpl <? 0 then errx EXIT_FAILURE else
  r ← do_call (H5Pset_chunk dcpl RANK chunk_dims);
  if r <? 0 then errx EXIT_FAILURE else
  ds ← do_call (H5Dcreate2 (file s) dname filespace dcpl);
  r ← do_call (H5Sclose filespace);
  if r <? 0 then errx EXIT_FAILURE else
  if ds <? 0 then errx EXIT_FAILURE else
  mret (set_dataset (<[Z.to_nat which := ds]> (dataset s)) s).

(** ** [init_and_write_chunk] and [write_extensible_dset] *)

Definition init_and_write_chunk (ds filespace memspace : hid_t)
    (mat : matrix) (which : Z) (b : base_t) : M matrix :=
  mat ← assert_some (init_matrix mat which b);
  status ← do_call (H5Sselect_hyperslab filespace
                      [base.row b; base.col b] chunk_dims);
  if status <? 0 then errx EXIT_FAILURE else
  status ← do_call (H5Dwrite ds memspace filespace mat);
  if status <? 0 then errx EXIT_FAILURE else
  mret mat.

(** The loops of [write_extensible_dset] advance an [hsize_t] by a chunk
    dimension until it passes [last]; [step + 2] passes are enough. *)
Definition write_extensible_dset (s : state_t) (which step : Z)
    (mat : matrix) : M matrix :=
  assert (which <? Z.of_nat NSETS);;
  let ds := dataset s !!! Z.to_nat which in
  let size0 := mul64 (original_dims !!! 0%nat) (wrap32 (1 + step)) in
  let last_row := mul64 (original_dims !!! 0%nat) step in
  let size1 :=
    if two_dee s then mul64 (original_dims !!! 1%nat) (wrap32 (1 + step))
    else original_dims !!! 1%nat in
  let last_col :=
    if two_dee s then mul64 (original_dims !!! 1%nat) step else 0 in
  r ← do_call (H5Dset_extent ds [size0; size1]);
  if r <? 0 then errx EXIT_FAILURE else
  filespace ← do_call (H5Dget_space ds);
  if filespace =? badhid then errx EXIT_FAILURE else
  mat ← (if two_dee s then
           mat ← for_loop (Z.to_nat step + 2) 0
                   (fun row => row <=? last_row)
                   (fun row => add64 row (original_dims !!! 0%nat))
                   (fun row mat =>
                      init_and_write_chunk ds filespace (memspace s) mat
                        which (base.mk row last_col)) mat;
           for_loop (Z.to_nat step + 2) 0
             (fun col => col <? last_col)
             (fun col => add64 col (original_dims !!! 1%nat))
             (fun col mat =>
                init_and_write_chunk ds filespace (memspace s) mat
                  which (base.mk last_row col)) mat
         else
           init_and_write_chunk ds filespace (memspace s) mat which
             (base.mk last_row last_col));
  r ← do_call (H5Sclose filespace);
  if r <? 0 then errx EXIT_FAILURE else
  mret mat.

(** ** The C library: [getopt], [strtoul], [basename] *)

(** What one call of [getopt] hands back: an option character with its
    argument, or ['?']. *)
Inductive getopt_ret : Type :=
  | GOpt (ch : ascii) (optarg : option string)
  | GErr.

(** Whether [c] is an option character of [optstring], and whether it takes
    an argument. *)
Fixpoint opt_lookup (optstring : list ascii) (c : ascii) : option bool :=
  match optstring with
  | [] => None
  | o :: rest =>
      if Ascii.eqb o c && negb (Ascii.eqb c ":")
      then Some match rest with
                | x :: _ => Ascii.eqb x ":"
                | [] => false
                end
      else opt_lookup rest c
  end.

(** The calls of [getopt] that walk through one argument ["-abc"], given
    its characters after the dash and the argument that follows it; the
    flag says whether that following argument was taken as an [optarg]. *)
Fixpoint getopt_cluster (optstring : list ascii) (cs : list ascii)
    (next : option string) : list getopt_ret * bool :=
  match cs with
  | [] => ([], false)
  | c :: cs' =>
      match opt_lookup optstring c with
      | None =>
          let '(rs, used) := getopt_cluster optstring cs' next in
          (GErr :: rs, used)
      | Some false =>
          let '(rs, used) := getopt_cluster optstring cs' next in
          (GOpt c None :: rs, used)
      | Some true =>
          match cs', next with
          | _ :: _, _ => ([GOpt c (Some (string_of_list_ascii cs'))], false)
          | [], Some a => ([GOpt c (Some a)], true)
          | [], None => ([GErr], false)
          end
      end
  end.

(** The successive results of [getopt(argc, argv, optstring)] up to its
    [-1], over the arguments after [argv[0]], and the operands left from
    [optind] on.  Scanning stops at ["--"] and at the first argument that
    is not an option. *)
Fixpoint getopt_all (optstring : list ascii) (args : list string)
    : list getopt_ret * list string :=
  match args with
  | [] => ([], [])
  | a :: rest =>
      match list_ascii_of_string a with
      | "-"%char :: c :: cs =>
          if String.eqb a "--" then ([], rest)
          else
            let '(rs, used) := getopt_cluster optstring (c :: cs) (head rest) in
            let '(rs', operands) :=
              match rest with
              | [] => ([], [])
              | _ :: rest' =>
                  if used then getopt_all optstring rest'
                  else getopt_all optstring rest
              end in
            (rs ++ rs', operands)
      | _ => ([], args)
      end
  end.

Definition isspace (c : ascii) : bool :=
  let n := Z.of_N (N_of_ascii c) in (n =? 32) || ((9 <=? n) && (n <=? 13)).

Definition digit_val (c : ascii) : option Z :=
  let n := Z.of_N (N_of_ascii c) in
  if (48 <=? n) && (n <=? 57) then Some (n - 48)
  else if (97 <=? n) && (n <=? 122) then Some (n - 87)
  else if (65 <=? n) && (n <=? 90) then Some (n - 55)
  else None.

Definition is_digit_in (base : Z) (c : ascii) : bool :=
  match digit_val c with Some d => d <? base | None => false end.

Fixpoint skip_space (cs : list ascii) : nat :=
  match cs with
  | c :: cs' => if isspace c then Datatypes.S (skip_space cs') else O
  | [] => O
  end.

(** The longest run of digits of [base] at the head of [cs]: its value on
    top of [acc], and its length on top of [n]. *)
Fixpoint strtoul_digits (base : Z) (cs : list ascii) (acc : Z) (n : nat)
    : Z * nat :=
  match cs with
  | c :: cs' =>
      match digit_val c with
      | Some d =>
          if d <? base
          then strtoul_digits base cs' (acc * base + d) (Datatypes.S n)
          else (acc, n)
      | None => (acc, n)
      end
  | [] => (acc, n)
  end.

Definition ERANGE : Z := 34.

(** [strtoul(nptr, &end, 0)] with [errno] cleared before: the value, the
    offset of [end] from [nptr], and [errno] afterwards. *)
Definition strtoul (nptr : string) : Z * nat * Z :=
  let cs := list_ascii_of_string nptr in
  let ws := skip_space cs in
  let cs1 := drop ws cs in
  let '(neg, sg) :=
    match cs1 with
    | "-"%char :: _ => (true, 1%nat)
    | "+"%char :: _ => (false, 1%nat)
    | _ => (false, 0%nat)
    end in
  let cs2 := drop sg cs1 in
  let '(base, pf) :=
    match cs2 with
    | "0"%char :: x :: h :: _ =>
        if (Ascii.eqb x "x" || Ascii.eqb x "X") && is_digit_in 16 h
        then (16, 2%nat) else (8, 0%nat)
    | "0"%char :: _ => (8, 0%nat)
    | _ => (10, 0%nat)
    end in
  let '(acc, n) := strtoul_digits base (drop pf cs2) 0 0%nat in
  match n with
  | O => (0, 0%nat, 0)
  | _ =>
      if ULONG_MAX <? acc then (ULONG_MAX, (ws + sg + pf + n)%nat, ERANGE)
      else (if neg then wrap64 (- acc) else acc, (ws + sg + pf + n)%nat, 0)
  end.

Definition is_slash (c : ascii) : bool := Ascii.eqb c "/".

Fixpoint drop_slashes (cs : list ascii) : list ascii :=
  match cs with
  | c :: cs' => if is_slash c then drop_slashes cs' else cs
  | [] => []
  end.

Fixpoint take_component (cs : list ascii) : list ascii :=
  match cs with
  | c :: cs' => if is_slash c then [] else c :: take_component cs'
  | [] => []
  end.

(** [basename(3)]: the last component of a path, trailing slashes aside. *)
Definition basename (path : string) : string :=
  match list_ascii_of_string path with
  | [] => "."
  | cs =>
      match drop_slashes (rev cs) with
      | [] => "/"
      | rs => string_of_list_ascii (rev (take_component rs))
      end
  end.

(** ** [state_init] *)

Definition optstring : list ascii := list_ascii_of_string "SWcd:n:qu:".

(** The body of the [switch] for one result of [getopt]; it calls nothing,
    so its outcome is a value.  [verbosity] is the global of
    [vfd_swmr_common], threaded next to the state. *)
Definition state_opt (sv : state_t * Z) (g : getopt_ret)
    : outcome (state_t * Z) :=
  let '(s, verbosity) := sv in
  match g with
  | GErr => Exit EXIT_FAILURE
  | GOpt ch arg =>
      let optarg := default "" arg in
      if Ascii.eqb ch "S" then Ret (set_use_vfd_swmr false s, verbosity)
      else if Ascii.eqb ch "W" then
        Ret (set_wait_for_signal false s, verbosity)
      else if Ascii.eqb ch "c" then Ret (set_constantrate true s, verbosity)
      else if Ascii.eqb ch "d" then
        if String.eqb optarg "1" || String.eqb optarg "one"
        then Ret (set_two_dee false s, verbosity)
        else if String.eqb optarg "2" || String.eqb optarg "two"
                || String.eqb optarg "both"
        then Ret (set_two_dee true s, verbosity)
        else Exit EXIT_FAILURE
      else if Ascii.eqb ch "n" then
        let '(tmp, end_, errno) := strtoul optarg in
        if (end_ =? 0)%nat || negb (end_ =? String.length optarg)%nat
        then Exit EXIT_FAILURE
        else if negb (errno =? 0) then Exit EXIT_FAILURE
        else if UINT_MAX <? tmp then Exit EXIT_FAILURE
        else Ret (set_nsteps (wrap32 tmp) s, verbosity)
      else if Ascii.eqb ch "q" then Ret (s, 1)
      else if Ascii.eqb ch "u" then
        let '(millis, end_, errno) := strtoul optarg in
        if (millis =? ULONG_MAX) && (errno =? ERANGE) then Exit EXIT_FAILURE
        else if negb (end_ =? String.length optarg)%nat
        then Exit EXIT_FAILURE
        else
          Ret (set_update_interval
                 {| tv_sec := millis / 1000;
                    tv_nsec := mul64 millis 1000000 mod 1000000000 |} s,
               verbosity)
      else Exit EXIT_FAILURE
  end.

(** The [while ((ch = getopt(...)) != -1)] loop. *)
Fixpoint state_opts (gs : list getopt_ret) (sv : state_t * Z)
    : outcome (state_t * Z) :=
  match gs with
  | [] => Ret sv
  | g :: gs' =>
      match state_opt sv g with
      | Ret sv' => state_opts gs' sv'
      | o => o
      end
  end.

(** [argv0] is [argv[0]], [args] the arguments after it. *)
Definition state_init (verbosity : Z) (argv0 : string) (args : list string)
    : M (state_t * Z) :=
  let s := ALL_HID_INITIALIZER in
  tfile ← esnprintf PATH_MAX argv0;
  pn ← esnprintf PATH_MAX (basename tfile);
  let s := set_progname pn s in
  let '(gs, operands) := getopt_all optstring args in
  '(s, verbosity) ← lift (state_opts gs (s, verbosity));
  if (0 <? length operands)%nat then errx EXIT_FAILURE else
  let s := set_dataset (replicate NSETS badhid) s in
  ms ← do_call (H5Screate_simple RANK chunk_dims None);
  let s := set_memspace ms s in
  if ms <? 0 then errx EXIT_FAILURE else
  out ← esnprintf PATH_MAX (progname s +:+ ".h5");
  mret (set_output_file out s, verbosity).

(** ** [main] *)

(** The two nested loops over the write epochs and the datasets. *)
Definition write_epochs (s : state_t) (mat : matrix) : M matrix :=
  for_range (Z.to_nat (nsteps s)) 0
    (fun step mat =>
       for_range NSETS 0
         (fun which mat =>
            mat ← write_extensible_dset s which step mat;
            _ ← do_call (nanosleep (tv_sec (update_interval s))
                           (tv_nsec (update_interval s)));
            mret mat) mat) mat.

Definition main (verbosity : Z) (argv0 : string) (args : list string)
    : M Z :=
  '(s, _) ← state_init verbosity argv0 args;
  onheap ← do_call malloc_call;
  if onheap =? 0 then errx EXIT_FAILURE else
  fapl ← do_call (vfd_swmr_create_fapl true true (use_vfd_swmr s));
  if fapl <? 0 then errx EXIT_FAILURE else
  fcpl ← do_call (H5Pcreate H5P_FILE_CREATE);
  if fcpl <? 0 then errx EXIT_FAILURE else
  r ← do_call (H5Pset_file_space_strategy fcpl);
  if r <? 0 then errx EXIT_FAILURE else
  f ← do_call (H5Fcreate (output_file s) fcpl fapl);
  let s := set_file f s in
  if f =? badhid then errx EXIT_FAILURE else
  _ ← do_call block_signals;
  s ← for_range NSETS 0 (fun which s => create_extensible_dset s which) s;
  _ ← write_epochs s ∅;
  _ ← (if use_vfd_swmr s && wait_for_signal s
       then do_call (await_signal (file s))
       else mret 0);
  _ ← do_call restore_signals;
  r ← do_call (H5Pclose fapl);
  if r <? 0 then errx EXIT_FAILURE else
  r ← do_call (H5Pclose fcpl);
  if r <? 0 then errx EXIT_FAILURE else
  r ← do_call (H5Fclose (file s));
  if r <? 0 then errx EXIT_FAILURE else
  _ ← do_call free_call;
  mret EXIT_SUCCESS.

(** A library that never fails and returns the least values the writer
    takes for a success: 0, and a pointer that is not null from [malloc]. *)
Definition env_succeed : env_t :=
  fun _ c => match c with malloc_call => 1 | _ => 0 end.

(** What [main] does from the epoch loops on, as in the body of [main]:
    [main_reaches_epochs] below shows that this is how [main] goes on once
    the datasets are created. *)
Definition main_from_epochs (s : state_t) (fapl fcpl : hid_t) : M Z :=
  _ ← write_epochs s ∅;
  _ ← (if use_vfd_swmr s && wait_for_signal s
       then do_call (await_signal (file s))
       else mret 0);
  _ ← do_call restore_signals;
  r ← do_call (H5Pclose fapl);
  if r <? 0 then errx EXIT_FAILURE else
  r ← do_call (H5Pclose fcpl);
  if r <? 0 then errx EXIT_FAILURE else
  r ← do_call (H5Fclose (file s));
  if r <? 0 then errx EXIT_FAILURE else
  _ ← do_call free_call;
  mret EXIT_SUCCESS.

(** ** Reading a history *)

(** [foldM body xs s] runs [body] over the elements of [xs] in order; the
    loops of the writer are shown below to be such iterations. *)
Fixpoint foldM {X S : Type} (body : X -> S -> M S) (xs : list X) (s : S)
    : M S :=
  match xs with
  | [] => mret s
  | x :: xs' => s' ← body x s; foldM body xs' s'
  end.

Definition is_Ret {A : Type} (o : outcome A) : Prop :=
  match o with Ret _ => True | _ => False end.

(** A library in which every call returns a positive value: neither a
    negative status, nor [H5I_INVALID_HID], nor [NULL]. *)
Definition env_ok (e : env_t) : Prop :=
  forall (t : trace) (c : call), 0 < e t c.

(** Whether the writer takes the value [r] that the call [c] returned for a
    failure: a null pointer from [malloc], [H5I_INVALID_HID] from [H5Fcreate]
    and [H5Dget_space], a negative value from the other calls whose result it
    tests.  It does not look at what [block_signals], [nanosleep],
    [await_signal], [restore_signals] and [free] return. *)
Definition failed (c : call) (r : Z) : bool :=
  match c with
  | malloc_call => r =? 0
  | H5Fcreate _ _ _ | H5Dget_space _ => r =? badhid
  | block_signals | nanosleep _ _ | await_signal _ | restore_signals
  | free_call => false
  | _ => r <? 0
  end.

(** No call recorded in [d] failed; the library never fails. *)
Definition no_failure (d : trace) : Prop :=
  Forall (fun ev : event => failed ev.1 ev.2 = false) d.

Definition never_fails (e : env_t) : Prop :=
  forall (t : trace) (c : call), failed c (e t c) = false.

(** The extents that the calls of [H5Dset_extent] in [d] gave to datasets. *)
Fixpoint extents (d : trace) : list (hid_t * list Z) :=
  match d with
  | [] => []
  | (H5Dset_extent ds size, r) :: d' =>
      if 0 <=? r then (ds, size) :: extents d' else extents d'
  | _ :: d' => extents d'
  end.

(** The chunks that the calls of [H5Dwrite] in [d] wrote: the dataset and
    the start of the hyperslab selected in the file dataspace at the time
    ([None]: nothing selected yet on that dataspace).  [sel] is the start
    selected so far on each dataspace. *)
Fixpoint chunk_writes (sel : gmap Z (list Z)) (d : trace)
    : list (hid_t * option (list Z)) :=
  match d with
  | [] => []
  | (H5Sselect_hyperslab fs start _, r) :: d' =>
      chunk_writes (if 0 <=? r then <[fs := start]> sel else sel) d'
  | (H5Dwrite ds _ fs _, r) :: d' =>
      if 0 <=? r then (ds, sel !! fs) :: chunk_writes sel d'
      else chunk_writes sel d'
  | _ :: d' => chunk_writes sel d'
  end.

(** The chunk bases of epoch [k], as the specification lists them. *)
Definition epoch_bases (two_dee : bool) (k : Z) : list base_t :=
  if two_dee then
    map (fun i : nat => base.mk (256 * Z.of_nat i) (512 * k))
        (seq 0 (Z.to_nat k + 1))
    ++ map (fun j : nat => base.mk (256 * k) (512 * Z.of_nat j))
         (seq 0 (Z.to_nat k))
  else [base.mk (256 * k) 0].

Definition epoch_extent (two_dee : bool) (k : Z) : list Z :=
  if two_dee then [256 * (k + 1); 512 * (k + 1)] else [256 * (k + 1); 512].

(** No assertion of [init_matrix] fails on the chunk at [b]. *)
Definition chunk_ok (which : Z) (b : base_t) : Prop :=
  forall row col : nat,
    (row < ROWS)%nat -> (col < COLS)%nat ->
    init_assert which (init_u b row col) = true.

(** What a run of [write_extensible_dset] for dataset handle [ds] and epoch
    [k], started at history [t], did: [d] is what it added to the history and
    [written] the chunk bases it wrote, in order.  It sets no extent but that
    of the epoch and writes no chunk outside the list of the epoch.  When no
    call fails and no assertion of [init_matrix] fails on a chunk of the
    epoch, it returns, having set the extent and written every chunk of the
    list.  It ends the process only after a call failed, and it is stopped
    by an assertion only when one fails on a chunk of the epoch. *)
Definition epoch_post (ds : hid_t) (two_dee : bool) (which k : Z) (t : trace)
    (run : outcome matrix * trace) : Prop :=
  exists (d : trace) (written : list base_t),
    run.2 = t ++ d /\
    extents d `prefix_of` [(ds, epoch_extent two_dee k)] /\
    written `prefix_of` epoch_bases two_dee k /\
    (forall sel, chunk_writes sel d =
       map (fun b => (ds, Some [base.row b; base.col b])) written) /\
    (no_failure d -> Forall (chunk_ok which) (epoch_bases two_dee k) ->
     is_Ret run.1 /\
     extents d = [(ds, epoch_extent two_dee k)] /\
     written = epoch_bases two_dee k) /\
    match run.1 with
    | Ret _ =>
        no_failure d /\
        extents d = [(ds, epoch_extent two_dee k)] /\
        written = epoch_bases two_dee k
    | Exit c => c = EXIT_FAILURE /\ ~ no_failure d
    | Abort => ~ Forall (chunk_ok which) (epoch_bases two_dee k)
    | OutOfFuel => False
    end.

(** ** The phases of [main]

    [main] goes through six phases; [in_phase p c] says that the call [c]
    is one the source makes in phase [p].  Some library functions are
    called in more than one phase. *)

Inductive phase : Type :=
  | PInit      (* state_init *)
  | PSetup     (* from malloc to block_signals *)
  | PCreate    (* the loop of create_extensible_dset *)
  | PEpochs    (* the loops of write_extensible_dset and nanosleep *)
  | PAwait     (* await_signal *)
  | PClose.    (* from restore_signals to free *)

Definition in_phase (p : phase) (c : call) : bool :=
  match p, c with
  | PInit, (esnprintf_call _ _ | H5Screate_simple _ _ _) => true
  | PSetup, (malloc_call | vfd_swmr_create_fapl _ _ _ | H5Pcreate _
             | H5Pset_file_space_strategy _ | H5Fcreate _ _ _
             | block_signals) => true
  | PCreate, (esnprintf_call _ _ | H5Screate_simple _ _ _ | H5Pcreate _
              | H5Pset_chunk _ _ _ | H5Dcreate2 _ _ _ _ | H5Sclose _) => true
  | PEpochs, (H5Dset_extent _ _ | H5Dget_space _ | H5Sselect_hyperslab _ _ _
              | H5Dwrite _ _ _ _ | H5Sclose _ | nanosleep _ _) => true
  | PAwait, await_signal _ => true
  | PClose, (restore_signals | H5Pclose _ | H5Fclose _ | free_call) => true
  | _, _ => false
  end.

(** Every call recorded in [d] satisfies [P]; is one of phase [p]. *)
Definition all_calls (P : call -> bool) (d : trace) : Prop :=
  Forall (fun ev : event => P ev.1 = true) d.
Definition all_in (p : phase) (d : trace) : Prop := all_calls (in_phase p) d.

Definition is_nanosleep (c : call) : bool :=
  match c with nanosleep _ _ => true | _ => false end.
Definition is_H5Dcreate2 (c : call) : bool :=
  match c with H5Dcreate2 _ _ _ _ => true | _ => false end.
Definition is_H5Fclose (c : call) : bool :=
  match c with H5Fclose _ => true | _ => false end.

(** [m], started at any history, adds [d] to it and ends with an outcome
    [o] such that [Q o d]. *)
Definition hoare {A : Type} (m : M A) (Q : outcome A -> trace -> Prop)
    : Prop :=
  forall (e : env_t) (t : trace),
    exists d : trace, (m e t).2 = t ++ d /\ Q (m e t).1 d.

(** [m] makes only calls that satisfy [P]. *)
Definition emits {A : Type} (P : call -> bool) (m : M A) : Prop :=
  hoare m (fun _ d => all_calls P d).

(** The outcome of a sequence whose first part ended with [o], not a
    return. *)
Definition fail_as {A B : Type} (o : outcome A) : outcome B :=
  match o with
  | Ret _ => Abort
  | Exit c => Exit c
  | Abort => Abort
  | OutOfFuel => OutOfFuel
  end.

(** ** Reading the datasets a history created *)

Record dset_info : Type := mk_dset_info {
  ds_name : string;
  ds_dims : option (list Z * option (list Z));
  ds_chunk : option (list Z)
}.

(** The datasets that the calls of [H5Dcreate2] in [d] created, each with
    the dimensions and maximum dimensions of the dataspace and the chunk
    dimensions of the creation property list it was given.  [spaces] and
    [chunks] are what is known so far of the dataspaces and property
    lists. *)
Fixpoint created (spaces : gmap Z (list Z * option (list Z)))
    (chunks : gmap Z (list Z)) (d : trace) : list dset_info :=
  match d with
  | [] => []
  | (H5Screate_simple _ dims maxdims, r) :: d' =>
      created (if 0 <=? r then <[r := (dims, maxdims)]> spaces else spaces)
        chunks d'
  | (H5Pcreate _, r) :: d' =>
      created spaces (if 0 <=? r then delete r chunks else chunks) d'
  | (H5Pset_chunk dcpl _ dims, r) :: d' =>
      created spaces (if 0 <=? r then <[dcpl := dims]> chunks else chunks) d'
  | (H5Dcreate2 _ name fs dcpl, r) :: d' =>
      if 0 <=? r
      then mk_dset_info name (spaces !! fs) (chunks !! dcpl)
             :: created spaces chunks d'
      else created spaces chunks d'
  | _ :: d' => created spaces chunks d'
  end.

(** The arguments of the calls of [nanosleep] in [d]. *)
Fixpoint sleeps (d : trace) : list (Z * Z) :=
  match d with
  | [] => []
  | (nanosleep sec nsec, _) :: d' => (sec, nsec) :: sleeps d'
  | _ :: d' => sleeps d'
  end.

(** The option characters that [getopt] handed back. *)
Definition has_opt (ch : ascii) (gs : list getopt_ret) : bool :=
  existsb (fun g => match g with
                    | GOpt c _ => Ascii.eqb c ch
                    | GErr => false
                    end) gs.

(** The argument of the last option [ch] among [gs]. *)
Fixpoint last_optarg (ch : ascii) (gs : list getopt_ret) : option string :=
  match gs with
  | [] => None
  | g :: gs' =>
      match last_optarg ch gs' with
      | Some a => Some a
      | None =>
          match g with
          | GOpt c a => if Ascii.eqb c ch then Some (default "" a) else None
          | GErr => None
          end
      end
  end.

(** The interval that [-u millis] configures. *)
Definition interval_of_millis (millis : Z) : timespec :=
  {| tv_sec := millis / 1000;
     tv_nsec := mul64 millis 1000000 mod 1000000000 |}.

(** The option character of a result of [getopt], [None] for ['?']. *)
Definition opt_char (g : getopt_ret) : option ascii :=
  match g with GOpt ch _ => Some ch | GErr => None end.

Definition opt_arg (g : getopt_ret) : string :=
  match g with GOpt _ a => default "" a | GErr => "" end.

(** The dataset that [create_extensible_dset] is to create for index
    [which]. *)
Definition dataset_info (two_dee : bool) (which : Z) : dset_info :=
  mk_dset_info ("/dataset-" +:+ pretty which)
    (Some ([256; 512],
           Some (if two_dee then [H5S_UNLIMITED; H5S_UNLIMITED]
                 else [H5S_UNLIMITED; 512])))
    (Some [256; 512]).

(** The five datasets the specification lists. *)
Definition expected_datasets (two_dee : bool) : list dset_info :=
  map (dataset_info two_dee) [0; 1; 2; 3; 4].

(** [s'] has the configuration and the file of [s]. *)
Definition same_config (s s' : state_t) : Prop :=
  two_dee s' = two_dee s /\ nsteps s' = nsteps s /\
  update_interval s' = update_interval s /\
  use_vfd_swmr s' = use_vfd_swmr s /\
  wait_for_signal s' = wait_for_signal s /\
  file s' = file s /\ memspace s' = memspace s.

(** What a part of the epoch loops did: only calls of the epoch phase, every
    sleep of the configured interval [x], and [n] sleeps when it returned. *)
Definition sleeps_post {A : Type} (x : Z * Z) (n : nat) (o : outcome A)
    (d : trace) : Prop :=
  all_in PEpochs d /\ Forall (fun y => y = x) (sleeps d) /\
  (is_Ret o -> length (sleeps d) = n).

(** What [main] did after [state_init] returned the state [s]: [d], the
    calls it made from then on, falls into the five remaining phases, in
    order.  The segment of a phase that was not reached is empty. *)
Definition main_post (s : state_t) (o : outcome Z) (d : trace) : Prop :=
  exists d_setup d_create d_epochs d_await d_close : trace,
    d = d_setup ++ d_create ++ d_epochs ++ d_await ++ d_close /\
    all_in PSetup d_setup /\ all_in PCreate d_create /\
    all_in PEpochs d_epochs /\ all_in PAwait d_await /\
    all_in PClose d_close /\
    (* the datasets *)
    (forall sp ch,
        created sp ch d_create `prefix_of` expected_datasets (two_dee s)) /\
    (d_epochs ++ d_await ++ d_close <> [] ->
     forall sp ch, created sp ch d_create = expected_datasets (two_dee s)) /\
    (* the sleeps *)
    Forall (fun y => y = (tv_sec (update_interval s),
                          tv_nsec (update_interval s))) (sleeps d_epochs) /\
    (d_await ++ d_close <> [] ->
     length (sleeps d_epochs) = (Z.to_nat (nsteps s) * NSETS)%nat) /\
    (* the wait *)
    (length d_await <= 1)%nat /\
    (d_await <> [] -> use_vfd_swmr s && wait_for_signal s = true) /\
    (d_close <> [] -> use_vfd_swmr s && wait_for_signal s = true ->
     d_await <> []) /\
    (* the end *)
    (is_Ret o ->
     o = Ret EXIT_SUCCESS /\
     Exists (fun ev : event => is_H5Fclose ev.1 = true /\ 0 <= ev.2) d_close).

(** Decimal numerals: a string of the digits ['0'] ... ['9'] and the number
    it denotes. *)
Definition is_dec_digit (c : ascii) : bool :=
  let n := Z.of_N (N_of_ascii c) in (48 <=? n) && (n <=? 57).

Fixpoint dec_value_from (acc : Z) (cs : list ascii) : Z :=
  match cs with
  | [] => acc
  | c :: cs' => dec_value_from (acc * 10 + (Z.of_N (N_of_ascii c) - 48)) cs'
  end.

Definition dec_value (cs : list ascii) : Z := dec_value_from 0 cs.

(** A numeral without a leading zero. *)
Definition is_numeral (cs : list ascii) : bool :=
  match cs with
  | [] => false
  | c :: cs' =>
      is_dec_digit c && negb (Ascii.eqb c "0") && forallb is_dec_digit cs'
  end.

(** * The group API of [H5G.c]

    The entry points of [H5G.c] check their arguments and hand the work to
    functions of other files of the library ([H5G_loc], [H5I_register],
    [H5G__create_named], ...).  Those are outside [H5G.c]: a call to one of
    them is recorded, and its result is chosen by the environment from the
    calls recorded so far, which stand for the state of the library. *)

Abbreviation herr_t := Z.
Definition SUCCEED : herr_t := 0.
Definition FAIL : Z := -1.
Definition TRUE : Z := 1.
Definition H5P_DEFAULT : hid_t := 0.

(** The identifier types of [H5Ipublic.h]. *)
Inductive H5I_type_t : Type :=
  | H5I_UNINIT | H5I_BADID | H5I_FILE | H5I_GROUP | H5I_DATATYPE
  | H5I_DATASPACE | H5I_DATASET | H5I_ATTR | H5I_REFERENCE | H5I_VFL
  | H5I_GENPROP_CLS | H5I_GENPROP_LST | H5I_ERROR_CLASS | H5I_ERROR_MSG
  | H5I_ERROR_STACK | H5I_NTYPES.

(** The property list classes that [H5G.c] names. *)
Inductive H5P_class : Type := H5P_LINK_CREATE | H5P_GROUP_CREATE | H5P_CLS_GACC.

(** [H5G_info_t] of [H5Gpublic.h]. *)
Record H5G_info_t : Type := mk_H5G_info {
  storage_type : Z; nlinks : Z; max_corder : Z; mounted : bool
}.

(** A location ([H5G_loc_t]) and an open group ([H5G_t *]) are opaque to
    [H5G.c]. *)
Definition H5G_loc_t := Z.
Definition H5G_t := Z.

Inductive gcall : Type :=
  | FUNC_ENTER_API
  | H5G_loc (loc_id : hid_t)
  | H5P_isa_class (id : hid_t) (cls : H5P_class)
  | H5P_verify_apl_and_dxpl (apl_id : hid_t) (cls : H5P_class)
      (dxpl_id loc_id : hid_t) (is_collective : bool)
  | H5G__create_named (loc : H5G_loc_t) (name : string)
      (lcpl_id gcpl_id gapl_id dxpl_id : hid_t)
  | H5G__open_name (loc : H5G_loc_t) (name : string) (gapl_id dxpl_id : hid_t)
  | H5I_register (type : H5I_type_t) (grp : H5G_t) (app_ref : bool)
  | H5G_close (grp : H5G_t)
  | H5I_get_type (id : hid_t)
  | H5G__obj_info (loc : H5G_loc_t) (dxpl_id : hid_t)
  | HERROR (msg : string).   (* HGOTO_ERROR, HDONE_ERROR: the error stack *)

Definition gtrace : Type := list gcall.

(** The rest of the library: what each call returns after the calls [h]. *)
Record genv : Type := mk_genv {
  H5P_LINK_CREATE_DEFAULT : hid_t;
  H5P_GROUP_CREATE_DEFAULT : hid_t;
  H5AC_ind_read_dxpl_id : hid_t;
  (* whether FUNC_ENTER_API finds or gets the library initialised *)
  enter_api : gtrace -> bool;
  (* [H5G_loc]: the location, [None] for a negative return *)
  loc_of : gtrace -> hid_t -> option H5G_loc_t;
  isa_class : gtrace -> hid_t -> H5P_class -> Z;
  (* [H5P_verify_apl_and_dxpl]: the access property list and the transfer
     property list it leaves, [None] for a negative return *)
  verify_apl : gtrace -> hid_t -> H5P_class -> hid_t -> hid_t -> bool
               -> option (hid_t * hid_t);
  create_named : gtrace -> H5G_loc_t -> string -> hid_t -> hid_t -> hid_t
                 -> hid_t -> option H5G_t;
  open_name : gtrace -> H5G_loc_t -> string -> hid_t -> hid_t -> option H5G_t;
  register : gtrace -> H5I_type_t -> H5G_t -> bool -> hid_t;
  close_group : gtrace -> H5G_t -> herr_t;
  get_type : gtrace -> hid_t -> H5I_type_t;
  (* [H5G__obj_info]: its return value and what it leaves in [*grp_info] *)
  obj_info : gtrace -> H5G_loc_t -> hid_t -> herr_t * H5G_info_t
}.

Definition GM (A : Type) : Type := genv -> gtrace -> A * gtrace.

#[global] Instance GM_ret : MRet GM := fun A a _ t => (a, t).
#[global] Instance GM_bind : MBind GM :=
  fun A B k m g t => let '(a, t') := m g t in k a g t'.

(** Record the call [c] and return what [answer] says the environment
    answers to it. *)
Definition gdo {A : Type} (c : gcall) (answer : genv -> gtrace -> A) : GM A :=
  fun g t => (answer g t, t ++ [c]).

(** [HGOTO_ERROR(maj, min, ret, msg)]: push the error, leave with [ret]. *)
Definition herror {A : Type} (msg : string) (ret_value : A) : GM A :=
  fun _ t => (ret_value, t ++ [HERROR msg]).

Definition the_env : GM genv := fun g t => (g, t).

(** [!name || !*name] *)
Definition no_name (name : option string) : bool :=
  match name with
  | None => true
  | Some EmptyString => true
  | Some (String _ _) => false
  end.

(** The [done:] block of [H5Gcreate2], [H5Gopen2]: on failure, release the
    group if there is one. *)
Definition release_on_failure (grp : option H5G_t) (ret_value : hid_t)
    : GM hid_t :=
  if ret_value <? 0 then
    match grp with
    | Some grp =>
        r ← gdo (H5G_close grp) (fun g t => close_group g t grp);
        if r <? 0 then herror "unable to release group" FAIL
        else mret ret_value
    | None => mret ret_value
    end
  else mret ret_value.

(** A property list argument: the default of its class for [H5P_DEFAULT],
    itself when it is of the class, [None] otherwise. *)
Definition plist_arg (id : hid_t) (cls : H5P_class) (dflt : hid_t)
    : GM (option hid_t) :=
  if H5P_DEFAULT =? id then mret (Some dflt)
  else
    r ← gdo (H5P_isa_class id cls) (fun g t => isa_class g t id cls);
    if negb (TRUE =? r) then mret None else mret (Some id).

Definition H5Gcreate2 (loc_id : hid_t) (name : option string)
    (lcpl_id gcpl_id gapl_id : hid_t) : GM hid_t :=
  g ← the_env;
  let dxpl_id := H5AC_ind_read_dxpl_id g in
  ok ← gdo FUNC_ENTER_API enter_api;
  if negb ok then herror "library initialization failed" FAIL else
  loc ← gdo (H5G_loc loc_id) (fun g t => loc_of g t loc_id);
  match loc with
  | None => herror "not a location" FAIL
  | Some loc =>
  if no_name name then herror "no name" FAIL else
  let name := default "" name in
  lcpl ← plist_arg lcpl_id H5P_LINK_CREATE (H5P_LINK_CREATE_DEFAULT g);
  match lcpl with
  | None => herror "not link creation property list" FAIL
  | Some lcpl_id =>
  gcpl ← plist_arg gcpl_id H5P_GROUP_CREATE (H5P_GROUP_CREATE_DEFAULT g);
  match gcpl with
  | None => herror "not group create property list" FAIL
  | Some gcpl_id =>
  apl ← gdo (H5P_verify_apl_and_dxpl gapl_id H5P_CLS_GACC dxpl_id loc_id true)
          (fun g t => verify_apl g t gapl_id H5P_CLS_GACC dxpl_id loc_id true);
  match apl with
  | None => herror "can't set access and transfer property lists" FAIL
  | Some (gapl_id, dxpl_id) =>
  grp ← gdo (H5G__create_named loc name lcpl_id gcpl_id gapl_id dxpl_id)
          (fun g t => create_named g t loc name lcpl_id gcpl_id gapl_id
                        dxpl_id);
  match grp with
  | None => herror "unable to create group" FAIL
  | Some grp =>
  ret_value ← gdo (H5I_register H5I_GROUP grp true)
                (fun g t => register g t H5I_GROUP grp true);
  ret_value ← (if ret_value <? 0
               then herror "unable to register group" FAIL
               else mret ret_value);
  release_on_failure (Some grp) ret_value
  end end end end end.

Definition H5Gopen2 (loc_id : hid_t) (name : option string) (gapl_id : hid_t)
    : GM hid_t :=
  g ← the_env;
  let dxpl_id := H5AC_ind_read_dxpl_id g in
  ok ← gdo FUNC_ENTER_API enter_api;
  if negb ok then herror "library initialization failed" FAIL else
  loc ← gdo (H5G_loc loc_id) (fun g t => loc_of g t loc_id);
  match loc with
  | None => herror "not a location" FAIL
  | Some loc =>
  if no_name name then herror "no name" FAIL else
  let name := default "" name in
  apl ← gdo (H5P_verify_apl_and_dxpl gapl_id H5P_CLS_GACC dxpl_id loc_id false)
          (fun g t => verify_apl g t gapl_id H5P_CLS_GACC dxpl_id loc_id false);
  match apl with
  | None => herror "can't set access and transfer property lists" FAIL
  | Some (gapl_id, dxpl_id) =>
  grp ← gdo (H5G__open_name loc name gapl_id dxpl_id)
          (fun g t => open_name g t loc name gapl_id dxpl_id);
  match grp with
  | None => herror "unable to open group" FAIL
  | Some grp =>
  ret_value ← gdo (H5I_register H5I_GROUP grp true)
                (fun g t => register g t H5I_GROUP grp true);
  ret_value ← (if ret_value <? 0
               then herror "unable to register group" FAIL
               else mret ret_value);
  release_on_failure (Some grp) ret_value
  end end end.

(** [H5Gget_info(grp_id, grp_info)].  [grp_info] is [None] for a null
    pointer and otherwise what the structure pointed to holds; the result is
    the return value and what the structure holds afterwards. *)
Definition H5Gget_info (grp_id : hid_t) (grp_info : option H5G_info_t)
    : GM (herr_t * option H5G_info_t) :=
  g ← the_env;
  ok ← gdo FUNC_ENTER_API enter_api;
  if negb ok then herror "library initialization failed" (FAIL, grp_info) else
  id_type ← gdo (H5I_get_type grp_id) (fun g t => get_type g t grp_id);
  if negb (match id_type with H5I_GROUP | H5I_FILE => true | _ => false end)
  then herror "invalid argument" (FAIL, grp_info) else
  match grp_info with
  | None => herror "no info struct" (FAIL, grp_info)
  | Some _ =>
  loc ← gdo (H5G_loc grp_id) (fun g t => loc_of g t grp_id);
  match loc with
  | None => herror "not a location" (FAIL, grp_info)
  | Some loc =>
  r ← gdo (H5G__obj_info loc (H5AC_ind_read_dxpl_id g))
        (fun g t => obj_info g t loc (H5AC_ind_read_dxpl_id g));
  if r.1 <? 0 then herror "can't retrieve group info" (FAIL, Some r.2)
  else mret (SUCCEED, Some r.2)
  end end.

(** The calls that create, open or register a group. *)
Definition makes_group (c : gcall) : bool :=
  match c with
  | H5G__create_named _ _ _ _ _ _ | H5G__open_name _ _ _ _
  | H5I_register _ _ _ => true
  | _ => false
  end.

Definition is_obj_info (c : gcall) : bool :=
  match c with H5G__obj_info _ _ => true | _ => false end.

(** A library in which every call succeeds, identifier 1 is a file, 2 a
    group and any other a dataset. *)
Definition genv_example : genv := {|
  H5P_LINK_CREATE_DEFAULT := 101;
  H5P_GROUP_CREATE_DEFAULT := 102;
  H5AC_ind_read_dxpl_id := 103;
  enter_api := fun _ => true;
  loc_of := fun _ id => Some (1000 + id);
  isa_class := fun _ _ _ => TRUE;
  verify_apl := fun _ apl _ dxpl _ _ => Some (apl, dxpl);
  create_named := fun _ _ _ _ _ _ _ => Some 7;
  open_name := fun _ _ _ _ _ => Some 8;
  register := fun _ _ grp _ => 50 + grp;
  close_group := fun _ _ => SUCCEED;
  get_type := fun _ id =>
    if id =? 1 then H5I_FILE else if id =? 2 then H5I_GROUP else H5I_DATASET;
  obj_info := fun _ loc _ => (SUCCEED, mk_H5G_info 0 loc 0 false)
|}.

(** * Refreshing a group

    [H5Grefresh] checks its argument and calls [H5O_refresh_metadata], which
    is not in [H5G.c].  What a refresh does to a reader is taken from the
    specification of the reader refresh agent. *)

(** An index: the tick it was published at, and for each retained page
    address the tick and the shadow-log offset of its latest generation. *)
Record index_t : Type := mk_index {
  ix_tick : N;
  ix_pages : gmap N (N * N)
}.

(** What the writer has published: the current index, the shadow log (page
    content by offset) and the number of ticks a reader may lag. *)
Record published : Type := mk_published {
  pub_index : index_t;
  pub_log : gmap N (list Z);
  pub_window : N
}.

(** A reader snapshot: the last observed tick, the index adopted at it, and
    the cached pages, each with the generation it was fetched at. *)
Record reader_snapshot : Type := mk_reader {
  rd_tick : N;
  rd_index : index_t;
  rd_cache : gmap N (N * list Z)
}.

Inductive refresh_result : Type :=
  | Refreshed (rd : reader_snapshot)
  | EvictedGeneration.

(** Modelled from the spec: [refresh()] of the reader refresh agent, which
    stands for [H5O_refresh_metadata] (not among the sources).  It reads the
    current published index; if its tick is newer than the reader's last
    observed tick it adopts it and updates the last observed tick, without
    fetching any page; a reader that has fallen more than the retained
    window behind reports [EvictedGeneration]. *)
Definition refresh (pub : published) (rd : reader_snapshot)
    : refresh_result :=
  let cur := pub_index pub in
  if (rd_tick rd <? ix_tick cur)%N then
    if (pub_window pub <? ix_tick cur - rd_tick rd)%N then EvictedGeneration
    else Refreshed (mk_reader (ix_tick cur) cur (rd_cache rd))
  else Refreshed rd.

(** Modelled from the spec: [fetch(address)] for a reader, which resolves the
    page through the reader's current index; a cached page of an older
    generation is remapped to the new generation on this fetch.  [None] is
    [PageNotFound]. *)
Definition fetch (pub : published) (rd : reader_snapshot) (addr : N)
    : option (list Z) * reader_snapshot :=
  match ix_pages (rd_index rd) !! addr with
  | None => (None, rd)
  | Some (tick, off) =>
      let reload :=
        match pub_log pub !! off with
        | Some content =>
            (Some content,
             mk_reader (rd_tick rd) (rd_index rd)
               (<[addr := (tick, content)]> (rd_cache rd)))
        | None => (None, rd)
        end in
      match rd_cache rd !! addr with
      | Some (gen, content) =>
          if (gen <? tick)%N then reload else (Some content, rd)
      | None => reload
      end
  end.

(** The identifier registry and the state of the library, as [H5Grefresh]
    meets them: [H5I_object_verify] and [FUNC_ENTER_API] are not in
    [H5G.c]. *)
Record reader_env : Type := mk_reader_env {
  library_ok : bool;
  object_verify : hid_t -> H5I_type_t -> option H5G_t
}.

(** Modelled from the spec: [H5O_refresh_metadata] as the refresh of the
    reader's snapshot. *)
Definition H5O_refresh_metadata (pub : published) (rd : reader_snapshot)
    : herr_t * reader_snapshot :=
  match refresh pub rd with
  | Refreshed rd' => (SUCCEED, rd')
  | EvictedGeneration => (FAIL, rd)
  end.

Definition H5Grefresh (env : reader_env) (group_id : hid_t) (pub : published)
    (rd : reader_snapshot) : herr_t * reader_snapshot :=
  if negb (library_ok env) then (FAIL, rd) else
  match object_verify env group_id H5I_GROUP with
  | None => (FAIL, rd)
  | Some grp =>
      let '(r, rd') := H5O_refresh_metadata pub rd in
      if r <? 0 then (FAIL, rd') else (SUCCEED, rd')
  end.

(** ** What the epochs add up to *)


(** ** What a complete run writes *)

(** The identifiers that the successful calls of [H5Dcreate2] in [d]
    returned, in order. *)
Fixpoint datasets_of (d : trace) : list hid_t :=
  match d with
  | [] => []
  | (H5Dcreate2 _ _ _ _, r) :: d' =>
      if 0 <=? r then r :: datasets_of d' else datasets_of d'
  | _ :: d' => datasets_of d'
  end.

(** The extents and the chunks of [nsteps] epochs over the datasets [dss]:
    epoch after epoch, in each epoch dataset after dataset. *)
Definition run_extents (two_dee : bool) (dss : list hid_t) (nsteps : nat)
    : list (hid_t * list Z) :=
  flat_map (fun step : nat =>
              map (fun which : nat =>
                     (dss !!! which, epoch_extent two_dee (Z.of_nat step)))
                (seq 0 NSETS))
    (seq 0 nsteps).

Definition run_writes (two_dee : bool) (dss : list hid_t) (nsteps : nat)
    : list (hid_t * option (list Z)) :=
  flat_map (fun step : nat =>
              flat_map (fun which : nat =>
                          map (fun b => (dss !!! which,
                                         Some [base.row b; base.col b]))
                            (epoch_bases two_dee (Z.of_nat step)))
                (seq 0 NSETS))
    (seq 0 nsteps).

(** ** The configuration a command line gives *)

(** Whether an argument of [-d] asks for two dimensions. *)
Definition two_dee_arg (a : string) : bool :=
  String.eqb a "2" || String.eqb a "two" || String.eqb a "both".

(** The command line is one [state_init] accepts: every option and its
    argument pass the [switch], and no operand is left. *)
Definition accepted (verbosity : Z) (argv0 : string) (args : list string)
    : Prop :=
  is_Ret (state_opts (getopt_all optstring args).1
            (set_progname (basename argv0) ALL_HID_INITIALIZER, verbosity)) /\
  (getopt_all optstring args).2 = [].

Definition is_esnprintf (c : call) : bool :=
  match c with esnprintf_call _ _ => true | _ => false end.

(** ** How a run ends *)

(** The ways a run of the writer may end: by returning, or through [errx]
    and the like with the status [EXIT_FAILURE]; by a failed assertion only
    where [may_abort] allows it; never for want of fuel in a loop of the
    model. *)
Definition ends {A : Type} (may_abort : bool) (o : outcome A) : Prop :=
  match o with
  | Ret _ => True
  | Exit c => c = EXIT_FAILURE
  | Abort => may_abort = true
  | OutOfFuel => False
  end.

(** * The other entry points of [H5G.c]

    [H5Gcreate_anon], [H5Gget_create_plist], [H5Gget_info_by_name],
    [H5Gget_info_by_idx], [H5Gclose], [H5Gflush] and [H5Grefresh] as the
    source has them, and the three functions that start and stop the
    package.  As above, every function of another file is a recorded call.
    Here the history keeps what each call answered, so that a property can
    speak of it. *)

Module H5G.

Inductive plist_class : Type := H5P_GROUP_CREATE | H5P_CLS_GACC | H5P_CLS_LACC.

(** The structures of the library, as far as [H5G.c] reads them: an object
    location has a file, a group location and an open group have an object
    location. *)
Record H5O_loc_t : Type := mk_oloc { file : Z; addr : Z }.
Record H5G_loc_t : Type := mk_loc { oloc : H5O_loc_t; path : Z }.
Record H5G_t : Type := mk_grp { shared : Z; grp_oloc : H5O_loc_t }.

Inductive call : Type :=
  | FUNC_ENTER_API
  | FUNC_ENTER_NOAPI    (* _PACKAGE, _NOAPI_NOINIT, _NOAPI_NOINIT_NOERR *)
  | H5G_loc (loc_id : hid_t)
  | H5P_isa_class (id : hid_t) (cls : plist_class)
  | H5P_verify_apl_and_dxpl (apl_id : hid_t) (cls : plist_class)
      (dxpl_id loc_id : hid_t) (is_collective : bool)
  | H5G__create (file : Z) (gcpl_id dxpl_id : hid_t)
  | H5I_register (type : H5I_type_t) (grp : H5G_t) (app_ref : bool)
  | H5G_oloc (grp : H5G_t)
  | H5O_dec_rc_by_loc (oloc : option H5O_loc_t) (dxpl_id : hid_t)
  | H5G_close (grp : H5G_t)
  | H5I_object_verify (id : hid_t) (type : H5I_type_t)
  | H5G_get_create_plist (grp : H5G_t)
  | H5G_loc_reset
  | H5G_loc_find (loc : H5G_loc_t) (name : string) (lapl_id dxpl_id : hid_t)
  | H5G_loc_find_by_idx (loc : H5G_loc_t) (group_name : string)
      (idx_type order n : Z) (lapl_id dxpl_id : hid_t)
  | H5G__obj_info (oloc : H5O_loc_t) (dxpl_id : hid_t)
  | H5G_loc_free (grp_loc : H5G_loc_t)
  | H5I_dec_app_ref (id : hid_t)
  | H5O_flush_common (oloc : H5O_loc_t) (obj_id dxpl_id : hid_t)
  | H5O_refresh_metadata (oid : hid_t) (oloc : H5O_loc_t) (dxpl_id : hid_t)
  | H5I_register_type
  | H5I_nmembers (type : H5I_type_t)
  | H5I_clear_type (type : H5I_type_t) (force app_ref : bool)
  | H5I_dec_type_ref (type : H5I_type_t)
  | H5VL_group_close (vol_obj vol_cls : Z) (dxpl_id : hid_t)
  | H5VL_free_object (obj : Z).

(** What a call answers: its return value, and what it leaves in the
    structures it is given a pointer to.  A function that returns a pointer
    answers [status = 0] for [NULL] and the structure pointed to in the
    field of its type otherwise; an entry macro answers a negative [status]
    when it does not let the body run.  Each caller reads the fields it has
    use for. *)
Record answer : Type := mk_answer {
  status : Z;
  out_loc : H5G_loc_t;
  out_oloc : H5O_loc_t;
  out_grp : H5G_t;
  out_info : H5G_info_t;
  out_apl : hid_t;
  out_dxpl : hid_t
}.

Inductive event : Type :=
  | Call (c : call) (a : answer)
  | HERROR (msg : string).   (* HGOTO_ERROR, HDONE_ERROR: the error stack *)

Definition trace : Type := list event.

(** The rest of the library: two of its global identifiers, the ends of the
    ranges of [H5_index_t] and [H5_iter_order_t] ([H5public.h]), and what
    each call answers after the history [h]. *)
Record env : Type := mk_env {
  H5P_GROUP_CREATE_DEFAULT : hid_t;
  H5AC_ind_read_dxpl_id : hid_t;
  H5_INDEX_UNKNOWN : Z;
  H5_INDEX_N : Z;
  H5_ITER_UNKNOWN : Z;
  H5_ITER_N : Z;
  answers : trace -> call -> answer
}.

Definition M (A : Type) : Type := env -> trace -> A * trace.

#[global] Instance M_ret : MRet M := fun A a _ t => (a, t).
#[global] Instance M_bind : MBind M :=
  fun A B k m g t => let '(a, t') := m g t in k a g t'.

Definition ask (c : call) : M answer :=
  fun g t => let a := answers g t c in (a, t ++ [Call c a]).

(** [HGOTO_ERROR(maj, min, ret, msg)] and [HDONE_ERROR]: push the error and
    go on with [ret] as the return value. *)
Definition herror {A : Type} (msg : string) (ret_value : A) : M A :=
  fun _ t => (ret_value, t ++ [HERROR msg]).

Definition the_env : M env := fun g t => (g, t).

(** [if(ret_value < 0) if(grp && H5G_close(grp) < 0) HDONE_ERROR(...)] *)
Definition release_on_failure (grp : option H5G_t) (ret_value : hid_t)
    : M hid_t :=
  if ret_value <? 0 then
    match grp with
    | Some grp =>
        r ← ask (H5G_close grp);
        if status r <? 0 then herror "unable to release group" FAIL
        else mret ret_value
    | None => mret ret_value
    end
  else mret ret_value.

(** The body of [H5Gcreate_anon] up to [done:]: the group created, if any,
    the transfer property list and the return value. *)
Definition H5Gcreate_anon_body (loc_id gcpl_id gapl_id : hid_t)
    : M (option H5G_t * hid_t * hid_t) :=
  g ← the_env;
  let dxpl_id := H5AC_ind_read_dxpl_id g in
  a ← ask FUNC_ENTER_API;
  if status a <? 0
  then herror "library initialization failed" (None, dxpl_id, FAIL) else
  l ← ask (H5G_loc loc_id);
  if status l <? 0 then herror "not a location" (None, dxpl_id, FAIL) else
  let loc := out_loc l in
  gcpl ← (if H5P_DEFAULT =? gcpl_id
          then mret (Some (H5P_GROUP_CREATE_DEFAULT g))
          else
            r ← ask (H5P_isa_class gcpl_id H5P_GROUP_CREATE);
            if negb (TRUE =? status r) then mret None
            else mret (Some gcpl_id));
  match gcpl with
  | None => herror "not group create property list" (None, dxpl_id, FAIL)
  | Some gcpl_id =>
  p ← ask (H5P_verify_apl_and_dxpl gapl_id H5P_CLS_GACC dxpl_id loc_id true);
  if status p <? 0
  then herror "can't set access and transfer property lists"
         (None, dxpl_id, FAIL) else
  let dxpl_id := out_dxpl p in
  c ← ask (H5G__create (file (oloc loc)) gcpl_id dxpl_id);
  if status c =? 0
  then herror "unable to create group" (None, dxpl_id, FAIL) else
  let grp := out_grp c in
  r ← ask (H5I_register H5I_GROUP grp true);
  if status r <? 0
  then herror "unable to register group" (Some grp, dxpl_id, FAIL)
  else mret (Some grp, dxpl_id, status r)
  end.

Definition H5Gcreate_anon (loc_id gcpl_id gapl_id : hid_t) : M hid_t :=
  '(grp, dxpl_id, ret_value) ← H5Gcreate_anon_body loc_id gcpl_id gapl_id;
  (* Release the group's object header, if it was created *)
  ret_value ←
    match grp with
    | Some grp =>
        o ← ask (H5G_oloc grp);
        ret_value ← (if status o =? 0
                     then herror "unable to get object location of group"
                            FAIL
                     else mret ret_value);
        r ← ask (H5O_dec_rc_by_loc
                   (if status o =? 0 then None else Some (out_oloc o))
                   dxpl_id);
        if status r <? 0
        then herror "unable to decrement refcount on newly created object"
               FAIL
        else mret ret_value
    | None => mret ret_value
    end;
  (* Cleanup on failure *)
  release_on_failure grp ret_value.

Definition H5Gget_create_plist (group_id : hid_t) : M hid_t :=
  a ← ask FUNC_ENTER_API;
  if status a <? 0 then herror "library initialization failed" FAIL else
  v ← ask (H5I_object_verify group_id H5I_GROUP);
  if status v =? 0 then herror "not a group" FAIL else
  r ← ask (H5G_get_create_plist (out_grp v));
  if status r <? 0 then herror "not a group" FAIL else mret (status r).

(** The [done:] block of [H5Gget_info_by_name] and [H5Gget_info_by_idx]:
    [grp_loc] is the location found, if one was. *)
Definition free_location (grp_loc : option H5G_loc_t) (ret_value : herr_t)
    : M herr_t :=
  match grp_loc with
  | Some grp_loc =>
      r ← ask (H5G_loc_free grp_loc);
      if status r <? 0 then herror "can't free location" FAIL
      else mret ret_value
  | None => mret ret_value
  end.

(** [grp_info] is [None] for a null pointer, otherwise what the structure
    holds; the result is the return value and what it holds afterwards. *)
Definition H5Gget_info_by_name (loc_id : hid_t) (name : option string)
    (grp_info : option H5G_info_t) (lapl_id : hid_t)
    : M (herr_t * option H5G_info_t) :=
  g ← the_env;
  let dxpl_id := H5AC_ind_read_dxpl_id g in
  '(grp_loc, grp_info, ret_value) ←
    (a ← ask FUNC_ENTER_API;
     if status a <? 0
     then herror "library initialization failed" (None, grp_info, FAIL) else
     l ← ask (H5G_loc loc_id);
     if status l <? 0
     then herror "not a location" (None, grp_info, FAIL) else
     if no_name name then herror "no name" (None, grp_info, FAIL) else
     match grp_info with
     | None => herror "no info struct" (None, grp_info, FAIL)
     | Some _ =>
     p ← ask (H5P_verify_apl_and_dxpl lapl_id H5P_CLS_LACC dxpl_id loc_id
                false);
     if status p <? 0
     then herror "can't set access and transfer property lists"
            (None, grp_info, FAIL) else
     _ ← ask H5G_loc_reset;
     f ← ask (H5G_loc_find (out_loc l) (default "" name) (out_apl p)
                (out_dxpl p));
     if status f <? 0
     then herror "group not found" (None, grp_info, FAIL) else
     i ← ask (H5G__obj_info (oloc (out_loc f)) (out_dxpl p));
     if status i <? 0
     then herror "can't retrieve group info"
            (Some (out_loc f), Some (out_info i), FAIL)
     else mret (Some (out_loc f), Some (out_info i), SUCCEED)
     end);
  ret_value ← free_location grp_loc ret_value;
  mret (ret_value, grp_info).

Definition H5Gget_info_by_idx (loc_id : hid_t) (group_name : option string)
    (idx_type order n : Z) (grp_info : option H5G_info_t) (lapl_id : hid_t)
    : M (herr_t * option H5G_info_t) :=
  g ← the_env;
  let dxpl_id := H5AC_ind_read_dxpl_id g in
  '(grp_loc, grp_info, ret_value) ←
    (a ← ask FUNC_ENTER_API;
     if status a <? 0
     then herror "library initialization failed" (None, grp_info, FAIL) else
     l ← ask (H5G_loc loc_id);
     if status l <? 0
     then herror "not a location" (None, grp_info, FAIL) else
     if no_name group_name
     then herror "no name specified" (None, grp_info, FAIL) else
     if (idx_type <=? H5_INDEX_UNKNOWN g) || (H5_INDEX_N g <=? idx_type)
     then herror "invalid index type specified" (None, grp_info, FAIL) else
     if (order <=? H5_ITER_UNKNOWN g) || (H5_ITER_N g <=? order)
     then herror "invalid iteration order specified" (None, grp_info, FAIL)
     else
     match grp_info with
     | None => herror "no info struct" (None, grp_info, FAIL)
     | Some _ =>
     p ← ask (H5P_verify_apl_and_dxpl lapl_id H5P_CLS_LACC dxpl_id loc_id
                false);
     if status p <? 0
     then herror "can't set access and transfer property lists"
            (None, grp_info, FAIL) else
     _ ← ask H5G_loc_reset;
     f ← ask (H5G_loc_find_by_idx (out_loc l) (default "" group_name)
                idx_type order n (out_apl p) (out_dxpl p));
     if status f <? 0
     then herror "group not found" (None, grp_info, FAIL) else
     i ← ask (H5G__obj_info (oloc (out_loc f)) (out_dxpl p));
     if status i <? 0
     then herror "can't retrieve group info"
            (Some (out_loc f), Some (out_info i), FAIL)
     else mret (Some (out_loc f), Some (out_info i), SUCCEED)
     end);
  ret_value ← free_location grp_loc ret_value;
  mret (ret_value, grp_info).

Definition H5Gclose (group_id : hid_t) : M herr_t :=
  a ← ask FUNC_ENTER_API;
  if status a <? 0 then herror "library initialization failed" FAIL else
  v ← ask (H5I_object_verify group_id H5I_GROUP);
  if status v =? 0 then herror "not a group" FAIL else
  r ← ask (H5I_dec_app_ref group_id);
  if status r <? 0 then herror "unable to close group" FAIL
  else mret SUCCEED.

Definition H5Gflush (group_id : hid_t) : M herr_t :=
  g ← the_env;
  a ← ask FUNC_ENTER_API;
  if status a <? 0 then herror "library initialization failed" FAIL else
  v ← ask (H5I_object_verify group_id H5I_GROUP);
  if status v =? 0 then herror "not a group" FAIL else
  r ← ask (H5O_flush_common (grp_oloc (out_grp v)) group_id
             (H5AC_ind_read_dxpl_id g));
  if status r <? 0
  then herror "unable to flush group and object flush callback" FAIL
  else mret SUCCEED.

Definition H5Grefresh (group_id : hid_t) : M herr_t :=
  g ← the_env;
  a ← ask FUNC_ENTER_API;
  if status a <? 0 then herror "library initialization failed" FAIL else
  v ← ask (H5I_object_verify group_id H5I_GROUP);
  if status v =? 0 then herror "not a group" FAIL else
  r ← ask (H5O_refresh_metadata group_id (grp_oloc (out_grp v))
             (H5AC_ind_read_dxpl_id g));
  if status r <? 0 then herror "unable to refresh group" FAIL
  else mret SUCCEED.

(** ** Starting and stopping the package *)

(** The two flags of the package: [H5_PKG_INIT_VAR] and
    [H5G_top_package_initialize_s]. *)
Record pkg : Type := mk_pkg { pkg_init : bool; top_init : bool }.

Definition H5G__init_package (st : pkg) : M (herr_t * pkg) :=
  a ← ask FUNC_ENTER_NOAPI;
  if status a <? 0 then mret (SUCCEED, st) else
  r ← ask H5I_register_type;
  if status r <? 0
  then herror "unable to initialize interface" (FAIL, st)
  else mret (SUCCEED, mk_pkg (pkg_init st) true).

Definition H5G_top_term_package (st : pkg) : M (Z * pkg) :=
  a ← ask FUNC_ENTER_NOAPI;
  if status a <? 0 then mret (0, st) else
  if top_init st then
    m ← ask (H5I_nmembers H5I_GROUP);
    n ← (if 0 <? status m
         then _ ← ask (H5I_clear_type H5I_GROUP false false); mret 1
         else mret 0);
    mret (n, if 0 =? n then mk_pkg (pkg_init st) false else st)
  else mret (0, st).

(** [None] is a failed [HDassert]. *)
Definition H5G_term_package (st : pkg) : M (option (Z * pkg)) :=
  a ← ask FUNC_ENTER_NOAPI;
  if status a <? 0 then mret (Some (0, st)) else
  if pkg_init st then
    m ← ask (H5I_nmembers H5I_GROUP);
    if negb (0 =? status m) then mret None else
    if top_init st then mret None else
    r ← ask (H5I_dec_type_ref H5I_GROUP);
    let n := if 0 <? status r then 1 else 0 in
    mret (Some (n, if 0 =? n then mk_pkg false (top_init st) else st))
  else mret (Some (0, st)).

(** [grp] is the [H5VL_object_t] pointed to: its [vol_obj] and the class of
    its [vol_info], [None] for a null pointer. *)
Definition H5G__close_group (grp : option (Z * Z * Z)) : M (option herr_t) :=
  a ← ask FUNC_ENTER_NOAPI;
  if status a <? 0 then mret (Some SUCCEED) else
  g ← the_env;
  match grp with
  | None => mret None
  | Some (obj, vol_obj, vol_cls) =>
      r ← ask (H5VL_group_close vol_obj vol_cls (H5AC_ind_read_dxpl_id g));
      if status r <? 0 then herror "unable to close group" (Some FAIL) else
      f ← ask (H5VL_free_object obj);
      if status f <? 0
      then herror "unable to free VOL object" (Some FAIL)
      else mret (Some (status r))
  end.

(** ** Reading a history *)

Definition calls (d : trace) : list call :=
  omap (fun ev => match ev with Call c _ => Some c | HERROR _ => None end) d.

Definition errors (d : trace) : list string :=
  omap (fun ev => match ev with HERROR m => Some m | Call _ _ => None end) d.

(** The calls that do the work of [H5Gclose], [H5Gflush], [H5Grefresh] and
    [H5Gget_create_plist]. *)
Definition is_worker (c : call) : bool :=
  match c with
  | H5I_dec_app_ref _ | H5O_flush_common _ _ _ | H5O_refresh_metadata _ _ _
  | H5G_get_create_plist _ => true
  | _ => false
  end.

(** What every entry point keeps to, [r] being its return value and [d]
    what it added to the history: it returns [FAIL] or a value that is not
    negative; it returns [FAIL] exactly when it pushed an error; it starts
    with [FUNC_ENTER_API], and does nothing else when that fails. *)
Definition api_discipline (r : Z) (d : trace) : Prop :=
  (r = FAIL \/ 0 <= r) /\
  (r < 0 <-> errors d <> []) /\
  exists (a : answer) (rest : trace),
    d = Call FUNC_ENTER_API a :: rest /\
    (status a < 0 -> calls rest = []).

(** What [H5Gclose], [H5Gflush], [H5Grefresh] and [H5Gget_create_plist]
    keep to: a call that does the work is made at most once, after
    [H5I_object_verify] answered for [group_id] with a group [v], on what
    [work v] names; the entry point succeeds exactly when that call is made
    and succeeds. *)
Definition acts_on_group (group_id : hid_t) (work : answer -> call)
    (r : Z) (d : trace) : Prop :=
  (forall c w,
      In (Call c w) d -> is_worker c = true ->
      exists v,
        In (Call (H5I_object_verify group_id H5I_GROUP) v) d /\
        status v <> 0 /\ c = work v /\ (0 <= r <-> 0 <= status w)) /\
  (length (List.filter is_worker (calls d)) <= 1)%nat /\
  (0 <= r -> Exists (fun c => is_worker c = true) (calls d)).

(** The group that a call of [H5G__create] recorded in [d] returned. *)
Definition created (d : trace) (grp : H5G_t) : Prop :=
  exists f gcpl dxpl a,
    In (Call (H5G__create f gcpl dxpl) a) d /\
    status a <> 0 /\ out_grp a = grp.

Definition is_find (c : call) : bool :=
  match c with
  | H5G_loc_find _ _ _ _ | H5G_loc_find_by_idx _ _ _ _ _ _ _ => true
  | _ => false
  end.

(** The location that a call of [H5G_loc_find] or [H5G_loc_find_by_idx]
    recorded in [d] found. *)
Definition found (d : trace) (loc : H5G_loc_t) : Prop :=
  exists c a,
    In (Call c a) d /\ is_find c = true /\ 0 <= status a /\ out_loc a = loc.

Definition is_loc_free (c : call) : bool :=
  match c with H5G_loc_free _ => true | _ => false end.

Definition is_dec_rc (c : call) : bool :=
  match c with H5O_dec_rc_by_loc _ _ => true | _ => false end.

(** What [H5Gget_info_by_name] and [H5Gget_info_by_idx] keep to, [r] being
    the return value with what the structure holds afterwards.  With
    arguments that do not pass the checks ([bad_args]) they fail, leave the
    structure alone and ask the library for nothing past the location of
    [loc_id].  The location of the group is freed exactly when it was
    found, and once.  The structure is written by [H5G__obj_info] only,
    and the entry point succeeds only when that has succeeded on the
    location found. *)
Definition looks_up (loc_id : hid_t) (grp_info : option H5G_info_t)
    (bad_args : bool) (r : herr_t * option H5G_info_t) (d : trace) : Prop :=
  (bad_args = true ->
   r = (FAIL, grp_info) /\
   forall c, In c (calls d) -> c = FUNC_ENTER_API \/ c = H5G_loc loc_id) /\
  (forall loc, In (H5G_loc_free loc) (calls d) <-> found d loc) /\
  (length (List.filter is_loc_free (calls d)) <= 1)%nat /\
  (r.2 <> grp_info ->
   exists o dxpl i,
     In (Call (H5G__obj_info o dxpl) i) d /\ r.2 = Some (out_info i)) /\
  (0 <= r.1 ->
   exists loc dxpl i,
     found d loc /\
     In (Call (H5G__obj_info (oloc loc) dxpl) i) d /\
     0 <= status i /\ r = (SUCCEED, Some (out_info i))).

(** A library in which every call succeeds; [H5G__create] and
    [H5I_object_verify] give the group [7]. *)
Definition answer_ok (r : Z) : answer :=
  mk_answer r (mk_loc (mk_oloc 11 12) 13) (mk_oloc 21 22)
    (mk_grp 7 (mk_oloc 31 32)) (mk_H5G_info 0 3 0 false) 41 42.

Definition env_ok : env :=
  mk_env 102 103 (-1) 2 (-1) 3 (fun _ _ => answer_ok 1).

(** The same library, except that [H5O_dec_rc_by_loc] fails. *)
Definition env_dec_fails : env :=
  mk_env 102 103 (-1) 2 (-1) 3
    (fun _ c =>
       match c with
       | H5O_dec_rc_by_loc _ _ => answer_ok (-1)
       | _ => answer_ok 1
       end).

End H5G.

(** * Properties of the model *)

Lemma for_up_inv {S : Type} (P : nat -> S -> Prop)
    (body : nat -> S -> option S) (n : nat) :
  forall (i : nat) (s s' : S),
    P i s ->
    (forall (k : nat) (t t' : S),
        (i <= k < i + n)%nat -> P k t -> body k t = Some t' ->
        P (Datatypes.S k) t') ->
    for_up n i body s = Some s' ->
    P (i + n)%nat s'.
Proof.
  induction n as [|n IH]; intros i s s' HP Hstep Hrun; simpl in Hrun.
  - injection Hrun as <-. by rewrite Nat.add_0_r.
  - destruct (body i s) as [t|] eqn:Hb; [|done].
    replace (i + Datatypes.S n)%nat with (Datatypes.S i + n)%nat by lia.
    apply (IH (Datatypes.S i) t s').
    + apply (Hstep i s t); [lia|done|done].
    + intros k u u' Hk. apply Hstep. lia.
    + done.
Qed.

Lemma for_up_total {S : Type} (body : nat -> S -> option S) (n : nat) :
  forall (i : nat) (s : S),
    (forall (k : nat) (t : S), (i <= k < i + n)%nat -> is_Some (body k t)) ->
    is_Some (for_up n i body s).
Proof.
  induction n as [|n IH]; intros i s Hb; simpl; [by eexists|].
  destruct (Hb i s) as [t Ht]; [lia|]. rewrite Ht.
  apply IH. intros k u Hk. apply Hb. lia.
Qed.

(** *** [init_matrix]: what ends up in the chunk buffer *)

Lemma init_matrix_cells (mat mat' : matrix) (which : Z) (b : base_t) :
  init_matrix mat which b = Some mat' ->
  forall row col : nat,
    (row < ROWS)%nat -> (col < COLS)%nat ->
    exists v : Z,
      init_cell which b row col = Some v /\ mat' !! (row, col) = Some v.
Proof.
  intros Hrun.
  pose (done_to := fun (r c : nat) (m : matrix) =>
    forall row col : nat,
      (row < r \/ (row = r /\ col < c))%nat -> (col < COLS)%nat ->
      exists v : Z,
        init_cell which b row col = Some v /\ m !! (row, col) = Some v).
  assert (Hall : done_to (0 + ROWS)%nat 0%nat mat').
  { refine (for_up_inv (fun r m => done_to r 0%nat m) _ ROWS 0%nat mat mat'
              _ _ Hrun); [ intros row col [?|[_ ?]]; lia | ].
    intros r m m' _ Hm Hrow.
    assert (Hin : done_to r (0 + COLS)%nat m').
    { refine (for_up_inv (fun c m => done_to r c m) _ COLS 0%nat m m'
                _ _ Hrow); [ exact Hm | ].
      intros c t t' _ Ht Hcell.
      destruct (init_cell which b r c) as [v|] eqn:Hv; [|done].
      injection Hcell as <-.
      intros row col Hlt Hcol.
      destruct (decide ((row, col) = (r, c))) as [[= -> ->]|Hne].
      - exists v. by rewrite lookup_insert_eq.
      - rewrite lookup_insert_ne by congruence.
        apply Ht; [|done].
        destruct Hlt as [?|[-> ?]]; [by left|right].
        split; [done|]. destruct (decide (col = c)) as [->|]; [done|lia]. }
    intros row col Hlt Hcol. apply Hin; [|done].
    destruct Hlt as [?|[_ ?]]; [|lia].
    destruct (decide (row = r)) as [->|]; [right|left]; simpl; lia. }
  intros row col Hr Hc. apply Hall; [left; simpl; lia|done].
Qed.

Lemma init_matrix_total (mat : matrix) (which : Z) (b : base_t) :
  (forall row col : nat,
      (row < ROWS)%nat -> (col < COLS)%nat ->
      is_Some (init_cell which b row col)) ->
  is_Some (init_matrix mat which b).
Proof.
  intros Hok. unfold init_matrix.
  apply for_up_total. intros r m Hr.
  apply for_up_total. intros c t Hc.
  destruct (Hok r c) as [v ->]; [lia|lia|by eexists].
Qed.

(** Where the value fits in 32 bits nothing wraps, the assertion holds and
    the stored value is the specified one. *)
Lemma init_cell_fits (which : Z) (b : base_t) (row col : nat) :
  0 <= which -> 0 <= base.row b -> 0 <= base.col b ->
  spec_value (base.row b + Z.of_nat row) (base.col b + Z.of_nat col) + which
    <= UINT32_MAX ->
  init_cell which b row col =
    Some (spec_value (base.row b + Z.of_nat row) (base.col b + Z.of_nat col)
          + which).
Proof.
  intros Hw Hr Hc. unfold spec_value, UINT32_MAX.
  set (i := base.row b + Z.of_nat row). set (j := base.col b + Z.of_nat col).
  assert (Hi : 0 <= i) by (subst i; lia).
  assert (Hj : 0 <= j) by (subst j; lia).
  intros Hfit.
  assert (Hbnd : i < 2 ^ 32 /\ j < 2 ^ 32).
  { destruct (j <=? i) eqn:Hji; [apply Z.leb_le in Hji|apply Z.leb_gt in Hji];
      split; nia. }
  destruct Hbnd as [Hi32 Hj32].
  unfold init_cell, init_u, init_assert, add64, sub64, mul64, wrap64, wrap32,
    UINT32_MAX.
  fold i j.
  rewrite (Z.mod_small i) by lia. rewrite (Z.mod_small j) by lia.
  destruct (j <=? i) eqn:Hji; [apply Z.leb_le in Hji|apply Z.leb_gt in Hji].
  - rewrite (Z.mod_small (i + 1)) by lia.
    rewrite (Z.mod_small ((i + 1) * (i + 1))) by nia.
    rewrite (Z.mod_small ((i + 1) * (i + 1) - 1)) by nia.
    rewrite (Z.mod_small ((i + 1) * (i + 1) - 1 - j)) by nia.
    rewrite (Z.mod_small (4294967295 - _)) by nia.
    rewrite (proj2 (Z.leb_le _ _)) by lia.
    rewrite (Z.mod_small ((i + 1) * (i + 1) - 1 - j + which)) by nia.
    rewrite Z.mod_small by nia. done.
  - rewrite (Z.mod_small (j * j)) by nia.
    rewrite (Z.mod_small (j * j + i)) by nia.
    rewrite (Z.mod_small (4294967295 - _)) by nia.
    rewrite (proj2 (Z.leb_le _ _)) by lia.
    rewrite (Z.mod_small (j * j + i + which)) by nia.
    rewrite Z.mod_small by nia. done.
Qed.

Lemma spec_value_bound (n i j : Z) :
  0 <= i <= n -> 0 <= j <= n -> 0 <= spec_value i j <= (n + 1) * (n + 1) - 1.
Proof.
  intros Hi Hj. unfold spec_value.
  destruct (j <=? i) eqn:Hji; [apply Z.leb_le in Hji|apply Z.leb_gt in Hji];
    nia.
Qed.

(** C1, as amended.  Whenever the specified value plus the dataset offset
    fits in the 32-bit element at every position of the chunk,
    [init_matrix] runs to its end and the element it leaves at in-chunk
    position [(row, col)] is [(i+1)*(i+1) - 1 - j] for [j <= i] and
    [j*j + i] for [j > i], plus [which], where [i = base.row + row] and
    [j = base.col + col]. *)
Theorem init_matrix_spec (mat : matrix) (which : Z) (b : base_t) :
  0 <= which -> 0 <= base.row b -> 0 <= base.col b ->
  (forall row col : nat,
      (row < ROWS)%nat -> (col < COLS)%nat ->
      spec_value (base.row b + Z.of_nat row) (base.col b + Z.of_nat col)
        + which <= UINT32_MAX) ->
  exists mat' : matrix,
    init_matrix mat which b = Some mat' /\
    forall row col : nat,
      (row < ROWS)%nat -> (col < COLS)%nat ->
      mat' !! (row, col) =
        Some (spec_value (base.row b + Z.of_nat row)
                (base.col b + Z.of_nat col) + which).
Proof.
  intros Hw Hr Hc Hfit.
  destruct (init_matrix_total mat which b) as [mat' Hrun].
  { intros row col Hrow Hcol.
    rewrite init_cell_fits by auto. by eexists. }
  exists mat'. split; [done|].
  intros row col Hrow Hcol.
  destruct (init_matrix_cells _ _ _ _ Hrun row col Hrow Hcol) as (v & Hv & ->).
  rewrite init_cell_fits in Hv by auto. done.
Qed.

Lemma init_matrix_spec_witness :
  exists mat' : matrix,
    init_matrix ∅ 3 (base.mk 512 1024) = Some mat' /\
    forall row col : nat,
      (row < ROWS)%nat -> (col < COLS)%nat ->
      mat' !! (row, col) =
        Some (spec_value (512 + Z.of_nat row) (1024 + Z.of_nat col) + 3).
Proof.
  apply (init_matrix_spec ∅ 3 (base.mk 512 1024)); simpl; try lia.
  intros row col Hrow Hcol. unfold ROWS, COLS in *.
  pose proof (spec_value_bound 2000 (512 + Z.of_nat row)
                (1024 + Z.of_nat col)) as Hb.
  unfold UINT32_MAX. lia.
Defined.

(** C1, as stated, fails where the value does not fit: for dataset 0 and the
    chunk at base [(0, 65536)] the assertion passes (its subtraction wraps)
    and the element stored at [(0, 0)] is [0], not [65536 * 65536]. *)
Lemma init_matrix_truncates :
  exists mat' : matrix,
    init_matrix ∅ 0 (base.mk 0 65536) = Some mat' /\
    mat' !! (0%nat, 0%nat) = Some 0 /\
    spec_value (0 + 0) (65536 + 0) + 0 = 4294967296.
Proof.
  destruct (init_matrix_total ∅ 0 (base.mk 0 65536)) as [mat' Hrun].
  { intros row col _ _. unfold init_cell, init_assert.
    assert (H : (0 <=? sub64 UINT32_MAX (init_u (base.mk 0 65536) row col)) = true).
    { apply Z.leb_le. unfold sub64, wrap64. apply Z.mod_pos_bound. lia. }
    rewrite H. by eexists. }
  exists mat'. split; [done|]. split; [|reflexivity].
  destruct (init_matrix_cells _ _ _ _ Hrun 0%nat 0%nat) as (v & Hv & ->);
    [unfold ROWS; lia|unfold COLS; lia|].
  vm_compute in Hv. congruence.
Qed.

Lemma init_cell_small (which : Z) (b : base_t) (row col : nat) :
  0 <= which <= 4 ->
  add64 (base.row b) (Z.of_nat row) <= 65534 ->
  add64 (base.col b) (Z.of_nat col) <= 65534 ->
  init_u b row col + which <= UINT32_MAX /\
  init_assert which (init_u b row col) = true /\
  wrap32 (add64 (init_u b row col) which) = init_u b row col + which.
Proof.
  intros Hw Hrows Hcols.
  unfold init_u, init_assert.
  pose proof (Z.mod_pos_bound (base.row b + Z.of_nat row) (2 ^ 64)
                ltac:(lia)) as Hi0.
  pose proof (Z.mod_pos_bound (base.col b + Z.of_nat col) (2 ^ 64)
                ltac:(lia)) as Hj0.
  fold (wrap64 (base.row b + Z.of_nat row)) in Hi0.
  fold (wrap64 (base.col b + Z.of_nat col)) in Hj0.
  fold (add64 (base.row b) (Z.of_nat row)) in Hi0.
  fold (add64 (base.col b) (Z.of_nat col)) in Hj0.
  set (i := add64 (base.row b) (Z.of_nat row)) in *.
  set (j := add64 (base.col b) (Z.of_nat col)) in *.
  unfold add64, sub64, mul64, wrap64, wrap32, UINT32_MAX.
  destruct (j <=? i) eqn:Hji; [apply Z.leb_le in Hji|apply Z.leb_gt in Hji].
  - rewrite (Z.mod_small (i + 1)) by lia.
    rewrite (Z.mod_small ((i + 1) * (i + 1))) by nia.
    rewrite (Z.mod_small ((i + 1) * (i + 1) - 1)) by nia.
    rewrite (Z.mod_small ((i + 1) * (i + 1) - 1 - j)) by nia.
    rewrite (Z.mod_small (4294967295 - _)) by nia.
    rewrite (Z.mod_small ((i + 1) * (i + 1) - 1 - j + which)) by nia.
    rewrite Z.mod_small by nia.
    split; [nia|]. split; [apply Z.leb_le; nia|done].
  - rewrite (Z.mod_small (j * j)) by nia.
    rewrite (Z.mod_small (j * j + i)) by nia.
    rewrite (Z.mod_small (4294967295 - _)) by nia.
    rewrite (Z.mod_small (j * j + i + which)) by nia.
    rewrite Z.mod_small by nia.
    split; [nia|]. split; [apply Z.leb_le; nia|done].
Qed.

(** C9.  For a dataset index of at most 4 and a chunk all of whose global
    coordinates are at most 65534, at every position the value [u] plus
    [which] is at most [UINT32_MAX], the assertion of [init_matrix] holds,
    the cast to [uint32_t] changes nothing, and [init_matrix] runs to its
    end. *)
Theorem init_matrix_no_overflow (which : Z) (b : base_t) :
  0 <= which <= 4 ->
  (forall row : nat,
      (row < ROWS)%nat -> add64 (base.row b) (Z.of_nat row) <= 65534) ->
  (forall col : nat,
      (col < COLS)%nat -> add64 (base.col b) (Z.of_nat col) <= 65534) ->
  (forall row col : nat,
      (row < ROWS)%nat -> (col < COLS)%nat ->
      init_u b row col + which <= UINT32_MAX /\
      init_assert which (init_u b row col) = true /\
      wrap32 (add64 (init_u b row col) which) = init_u b row col + which) /\
  (forall mat : matrix, is_Some (init_matrix mat which b)).
Proof.
  intros Hw Hrows Hcols.
  assert (Hcell : forall row col : nat,
      (row < ROWS)%nat -> (col < COLS)%nat ->
      init_u b row col + which <= UINT32_MAX /\
      init_assert which (init_u b row col) = true /\
      wrap32 (add64 (init_u b row col) which) = init_u b row col + which).
  { intros row col Hrow Hcol. apply init_cell_small; auto. }
  split; [exact Hcell|].
  intros mat. apply init_matrix_total. intros row col Hrow Hcol.
  destruct (Hcell row col Hrow Hcol) as (_ & Ha & _).
  unfold init_cell. rewrite Ha. by eexists.
Qed.

Lemma init_matrix_no_overflow_witness :
  (forall row col : nat,
      (row < ROWS)%nat -> (col < COLS)%nat ->
      init_u (base.mk 65024 65023) row col + 4 <= UINT32_MAX /\
      init_assert 4 (init_u (base.mk 65024 65023) row col) = true /\
      wrap32 (add64 (init_u (base.mk 65024 65023) row col) 4) =
        init_u (base.mk 65024 65023) row col + 4) /\
  (forall mat : matrix, is_Some (init_matrix mat 4 (base.mk 65024 65023))).
Proof.
  apply (init_matrix_no_overflow 4 (base.mk 65024 65023)); [lia| |];
    intros k Hk; unfold ROWS, COLS in Hk; simpl;
    unfold add64, wrap64; rewrite Z.mod_small; lia.
Defined.

(** *** Running the process monad *)

Lemma bind_run {A B : Type} (m : M A) (k : A -> M B) (e : env_t) (t : trace) :
  (m ≫= k) e t =
    match m e t with
    | (Ret a, t') => k a e t'
    | (Exit c, t') => (Exit c, t')
    | (Abort, t') => (Abort, t')
    | (OutOfFuel, t') => (OutOfFuel, t')
    end.
Proof. reflexivity. Qed.

Lemma foldM_app {X S : Type} (body : X -> S -> M S) (xs ys : list X) :
  forall (s : S) (e : env_t) (t : trace),
    foldM body (xs ++ ys) s e t = (foldM body xs s ≫= foldM body ys) e t.
Proof.
  induction xs as [|x xs IH]; intros s e t; [reflexivity|].
  simpl. rewrite !bind_run.
  destruct (body x s e t) as [[a| | |] t']; done.
Qed.

(** A counted loop over [hsize_t] is the iteration over the values it
    visits, when it is given the fuel for them. *)
Lemma for_loop_foldM {S : Type} (cond : Z -> bool) (next : Z -> Z)
    (body : Z -> S -> M S) (xs : list Z) :
  forall (fuel : nat) (x : Z) (s : S) (e : env_t) (t : trace),
    (length xs < fuel)%nat ->
    (forall i : nat, (i < length xs)%nat ->
        xs !! i = Some (Nat.iter i next x) /\ cond (Nat.iter i next x) = true) ->
    cond (Nat.iter (length xs) next x) = false ->
    for_loop fuel x cond next body s e t = foldM body xs s e t.
Proof.
  induction xs as [|y xs IH]; intros fuel x s e t Hfuel Hxs Hend.
  - destruct fuel as [|fuel]; [simpl in Hfuel; lia|].
    simpl in *. rewrite Hend. reflexivity.
  - destruct fuel as [|fuel]; [simpl in Hfuel; lia|].
    destruct (Hxs 0%nat) as [Hy Hc]; [simpl; lia|].
    simpl in Hy, Hc. injection Hy as ->. simpl. rewrite Hc.
    rewrite !bind_run. destruct (body x s e t) as [[a| | |] t']; try done.
    apply IH.
    + simpl in Hfuel. lia.
    + intros i Hi. destruct (Hxs (Datatypes.S i)) as [H1 H2]; [simpl; lia|].
      rewrite Nat.iter_succ_r in H1, H2. done.
    + rewrite <- Nat.iter_succ_r. exact Hend.
Qed.

Lemma foldM_map {X Y S : Type} (f : X -> Y) (body : Y -> S -> M S)
    (xs : list X) :
  forall (s : S) (e : env_t) (t : trace),
    foldM (fun x => body (f x)) xs s e t = foldM body (map f xs) s e t.
Proof.
  induction xs as [|x xs IH]; intros s e t; [reflexivity|].
  simpl. rewrite !bind_run.
  destruct (body (f x) s e t) as [[a| | |] t']; done.
Qed.

Lemma chunk_writes_app (d1 d2 : trace) :
  forall sel : gmap Z (list Z),
    exists sel' : gmap Z (list Z),
      chunk_writes sel (d1 ++ d2) = chunk_writes sel d1 ++ chunk_writes sel' d2.
Proof.
  induction d1 as [|[c r] d1 IH]; intros sel; [by exists sel|].
  destruct c; simpl; try apply IH.
  destruct (0 <=? r); [|apply IH].
  destruct (IH sel) as [sel' ->]. by exists sel'.
Qed.

Lemma extents_app (d1 d2 : trace) :
  extents (d1 ++ d2) = extents d1 ++ extents d2.
Proof.
  induction d1 as [|[c r] d1 IH]; [done|].
  destruct c; simpl; try apply IH.
  destruct (0 <=? r); simpl; by rewrite IH.
Qed.

Lemma no_failure_app (d1 d2 : trace) :
  no_failure (d1 ++ d2) <-> no_failure d1 /\ no_failure d2.
Proof. apply Forall_app. Qed.

Lemma no_failure_cons (c : call) (r : Z) (d : trace) :
  no_failure ((c, r) :: d) <-> failed c r = false /\ no_failure d.
Proof. unfold no_failure. by rewrite Forall_cons. Qed.

Lemma init_matrix_ok (mat : matrix) (which : Z) (b : base_t) :
  chunk_ok which b -> is_Some (init_matrix mat which b).
Proof.
  intros Hok. apply init_matrix_total. intros row col Hrow Hcol.
  unfold init_cell. rewrite (Hok row col Hrow Hcol). by eexists.
Qed.

(** *** One chunk *)

Lemma init_and_write_chunk_run (ds fs ms : hid_t) (mat : matrix) (which : Z)
    (b : base_t) (e : env_t) (t : trace) :
  exists d : trace,
    (init_and_write_chunk ds fs ms mat which b e t).2 = t ++ d /\
    extents d = [] /\
    match (init_and_write_chunk ds fs ms mat which b e t).1 with
    | Ret _ =>
        (forall sel,
            chunk_writes sel d = [(ds, Some [base.row b; base.col b])]) /\
        no_failure d
    | Exit c =>
        c = EXIT_FAILURE /\ ~ no_failure d /\
        (forall sel, chunk_writes sel d = [])
    | Abort => ~ chunk_ok which b /\ d = []
    | OutOfFuel => False
    end.
Proof.
  unfold init_and_write_chunk. rewrite bind_run.
  unfold assert_some, lift.
  destruct (init_matrix mat which b) as [mat'|] eqn:Hinit; simpl.
  - rewrite bind_run. unfold do_call at 1. simpl.
    set (r1 := e t _).
    destruct (r1 <? 0) eqn:Hr1; simpl.
    + exists [(H5Sselect_hyperslab fs [base.row b; base.col b] chunk_dims, r1)].
      split; [done|]. split; [done|]. split; [done|].
      split; [|intros sel; simpl; by destruct (0 <=? r1)].
      intros Hall. apply Forall_inv in Hall. simpl in Hall. congruence.
    + rewrite bind_run. unfold do_call at 1. simpl.
      set (r2 := e _ _).
      exists [(H5Sselect_hyperslab fs [base.row b; base.col b] chunk_dims, r1);
              (H5Dwrite ds ms fs mat', r2)].
      rewrite <- app_assoc. simpl.
      assert (H1 : (0 <=? r1) = true) by lia.
      destruct (r2 <? 0) eqn:Hr2; simpl.
      * split; [done|]. split; [done|]. split; [done|].
        assert (H2 : (0 <=? r2) = false) by lia.
        split; [|intros sel; by rewrite H1, H2].
        intros Hall. apply Forall_inv_tail, Forall_inv in Hall.
        simpl in Hall. congruence.
      * split; [done|]. split; [done|].
        assert (H2 : (0 <=? r2) = true) by lia.
        split.
        -- intros sel. rewrite H1, H2. by rewrite lookup_insert_eq.
        -- repeat (apply Forall_cons_2; [done|]). apply Forall_nil_2.
  - exists []. rewrite app_nil_r. split; [done|]. split; [done|].
    split; [|done].
    intros Hok. destruct (init_matrix_ok mat which b Hok) as [m Hm].
    congruence.
Qed.

(** *** A run of chunks *)

Lemma chunks_run (ds fs ms : hid_t) (which : Z) (bases : list base_t) :
  forall (mat : matrix) (e : env_t) (t : trace),
    let run :=
      foldM (fun b mat => init_and_write_chunk ds fs ms mat which b)
        bases mat e t in
    exists (d : trace) (written : list base_t),
      run.2 = t ++ d /\
      extents d = [] /\
      written `prefix_of` bases /\
      (forall sel, chunk_writes sel d =
         map (fun b => (ds, Some [base.row b; base.col b])) written) /\
      match run.1 with
      | Ret _ => written = bases /\ no_failure d
      | Exit c => c = EXIT_FAILURE /\ ~ no_failure d
      | Abort => ~ Forall (chunk_ok which) bases
      | OutOfFuel => False
      end.
Proof.
  induction bases as [|b bases IH]; intros mat e t run.
  - exists [], []. subst run. simpl. rewrite app_nil_r.
    repeat split; try done. apply Forall_nil_2.
  - subst run. simpl. rewrite bind_run.
    destruct (init_and_write_chunk_run ds fs ms mat which b e t)
      as (d1 & Ht & Hext & Hcase).
    destruct (init_and_write_chunk ds fs ms mat which b e t) as [o t1].
    simpl in *. subst t1.
    destruct o as [mat1|c| |]; [| | |done].
    + destruct Hcase as [Hw Hnf].
      destruct (IH mat1 e (t ++ d1))
        as (d2 & written & Ht2 & Hext2 & Hpre & Hw2 & Hcase2).
      exists (d1 ++ d2), (b :: written).
      split; [by rewrite Ht2, app_assoc|].
      split; [by rewrite extents_app, Hext, Hext2|].
      split; [by apply prefix_cons|].
      split.
      { intros sel. destruct (chunk_writes_app d1 d2 sel) as [sel' ->].
        by rewrite Hw, Hw2. }
      destruct (foldM _ bases mat1 e (t ++ d1)).1 as [m|c| |]; [| | |done].
      * destruct Hcase2 as [-> Hnf2]. split; [done|].
        by apply no_failure_app.
      * destruct Hcase2 as [-> Hnf2]. split; [done|].
        intros Hall. apply no_failure_app in Hall as [_ Hall]. by apply Hnf2.
      * intros Hall. apply Forall_inv_tail in Hall. by apply Hcase2.
    + destruct Hcase as (-> & Hnf & Hw).
      exists d1, []. simpl.
      split; [done|]. split; [done|]. split; [apply prefix_nil|].
      split; [done|]. done.
    + destruct Hcase as [Hnok ->].
      exists [], []. simpl.
      split; [done|]. split; [done|]. split; [apply prefix_nil|].
      split; [done|].
      intros Hall. apply Forall_inv in Hall. by apply Hnok.
Qed.

(** *** [write_extensible_dset] *)

Lemma iter_add64 (c : Z) (i : nat) :
  0 <= c -> c * Z.of_nat i < 2 ^ 64 ->
  Nat.iter i (fun x => add64 x c) 0 = c * Z.of_nat i.
Proof.
  intros Hc. induction i as [|i IH]; intros Hi; [simpl; lia|].
  rewrite Nat.iter_succ, IH by nia.
  unfold add64, wrap64. rewrite Z.mod_small; nia.
Qed.

Lemma bind_mret_run {A : Type} (m : M A) (e : env_t) (t : trace) :
  (m ≫= mret) e t = m e t.
Proof. rewrite bind_run. by destruct (m e t) as [[a| | |] t']. Qed.

(** The loops of one epoch visit the chunk bases the specification lists. *)
Lemma epoch_loops_foldM (two_dee : bool) (ds fs ms : hid_t) (which k : Z)
    (mat : matrix) (e : env_t) (t : trace) :
  0 <= k < UINT_MAX ->
  (if two_dee then
     mat ← for_loop (Z.to_nat k + 2) 0
             (fun row => row <=? mul64 (original_dims !!! 0%nat) k)
             (fun row => add64 row (original_dims !!! 0%nat))
             (fun row mat =>
                init_and_write_chunk ds fs ms mat which
                  (base.mk row
                     (if two_dee then mul64 (original_dims !!! 1%nat) k
                      else 0))) mat;
     for_loop (Z.to_nat k + 2) 0
       (fun col => col <? (if two_dee then mul64 (original_dims !!! 1%nat) k
                           else 0))
       (fun col => add64 col (original_dims !!! 1%nat))
       (fun col mat =>
          init_and_write_chunk ds fs ms mat which
            (base.mk (mul64 (original_dims !!! 0%nat) k) col)) mat
   else
     init_and_write_chunk ds fs ms mat which
       (base.mk (mul64 (original_dims !!! 0%nat) k)
          (if two_dee then mul64 (original_dims !!! 1%nat) k else 0))) e t =
  foldM (fun b mat => init_and_write_chunk ds fs ms mat which b)
    (epoch_bases two_dee k) mat e t.
Proof.
  unfold UINT_MAX. intros Hk.
  change (original_dims !!! 0%nat) with 256.
  change (original_dims !!! 1%nat) with 512.
  assert (Hr : mul64 256 k = 256 * k)
    by (unfold mul64, wrap64; rewrite Z.mod_small; lia).
  assert (Hc : mul64 512 k = 512 * k)
    by (unfold mul64, wrap64; rewrite Z.mod_small; lia).
  rewrite Hr.
  destruct two_dee; rewrite ?Hc; unfold epoch_bases.
  - rewrite foldM_app, !bind_run.
    rewrite (for_loop_foldM _ _ _
               (map (fun i : nat => 256 * Z.of_nat i) (seq 0 (Z.to_nat k + 1)))).
    + rewrite <- !foldM_map.
      destruct (foldM _ (seq 0 (Z.to_nat k + 1)) mat e t) as [[m1| | |] t1];
        try done.
      rewrite (for_loop_foldM _ _ _
                 (map (fun j : nat => 512 * Z.of_nat j) (seq 0 (Z.to_nat k)))).
      * by rewrite <- !foldM_map.
      * rewrite length_map, length_seq. lia.
      * intros i Hi. rewrite length_map, length_seq in Hi.
        rewrite iter_add64 by lia.
        rewrite list_lookup_fmap, lookup_seq_lt by done. simpl.
        split; [done|]. lia.
      * rewrite length_map, length_seq, iter_add64 by lia.
        apply Z.ltb_ge. lia.
    + rewrite length_map, length_seq. lia.
    + intros i Hi. rewrite length_map, length_seq in Hi.
      rewrite iter_add64 by lia.
      rewrite list_lookup_fmap, lookup_seq_lt by done. simpl.
      split; [done|]. lia.
    + rewrite length_map, length_seq, iter_add64 by lia.
      apply Z.leb_gt. lia.
  - simpl. by rewrite bind_mret_run.
Qed.

Lemma elem_of_epoch_bases_2d (k : Z) (b : base_t) :
  0 <= k ->
  b ∈ epoch_bases true k <->
  (exists i : Z, 0 <= i <= k /\ b = base.mk (256 * i) (512 * k)) \/
  (exists j : Z, 0 <= j < k /\ b = base.mk (256 * k) (512 * j)).
Proof.
  intros Hk. unfold epoch_bases. rewrite elem_of_app, !list_elem_of_fmap.
  split.
  - intros [(i & -> & Hi)|(j & -> & Hj)]; apply elem_of_seq in Hi || apply elem_of_seq in Hj.
    + left. exists (Z.of_nat i). split; [lia|done].
    + right. exists (Z.of_nat j). split; [lia|done].
  - intros [(i & Hi & ->)|(j & Hj & ->)].
    + left. exists (Z.to_nat i). rewrite Z2Nat.id by lia.
      split; [done|]. apply elem_of_seq. lia.
    + right. exists (Z.to_nat j). rewrite Z2Nat.id by lia.
      split; [done|]. apply elem_of_seq. lia.
Qed.

(** The assertion of [init_matrix] holds on every chunk of the epochs up to
    254 in one-dimensional and up to 126 in two-dimensional mode: there the
    row and column of every element stay below 65535. *)
Lemma epoch_chunks_ok (two_dee : bool) (which k : Z) :
  0 <= which < Z.of_nat NSETS ->
  0 <= k <= (if two_dee then 126 else 254) ->
  Forall (chunk_ok which) (epoch_bases two_dee k).
Proof.
  intros Hw Hk. unfold NSETS in Hw.
  assert (Hsmall : forall r c : Z,
            0 <= r <= 256 * 254 -> 0 <= c <= 512 * 126 ->
            chunk_ok which (base.mk r c)).
  { intros r c Hr Hc row col Hrow Hcol. unfold ROWS, COLS in *.
    apply (init_cell_small which (base.mk r c) row col); [lia| |];
      unfold add64, wrap64; cbn [base.row base.col];
      rewrite Z.mod_small; lia. }
  destruct two_dee.
  - apply Forall_forall. intros b Hb.
    apply elem_of_epoch_bases_2d in Hb; [|lia].
    destruct Hb as [(i & Hi & ->)|(j & Hj & ->)]; apply Hsmall; lia.
  - unfold epoch_bases. apply Forall_cons_2; [|apply Forall_nil_2].
    apply Hsmall; lia.
Qed.

(** At step 255 the chunk of dataset 1 starts at row 65280; its element in
    row 255, column 0 would hold [65535 * 65535 + 65535 * 2 + 1], above
    [UINT32_MAX], so the assertion of [init_matrix] fails and the call does
    not return. *)
Example init_matrix_step_255 :
  init_u (base.mk 65280 0) 255 0 = UINT32_MAX /\
  init_cell 1 (base.mk 65280 0) 255 0 = None /\
  forall mat : matrix, init_matrix mat 1 (base.mk 65280 0) = None.
Proof.
  assert (Hcell : init_cell 1 (base.mk 65280 0) 255 0 = None)
    by (vm_compute; reflexivity).
  split; [vm_compute; reflexivity|]. split; [exact Hcell|].
  intros mat.
  destruct (init_matrix mat 1 (base.mk 65280 0)) as [mat'|] eqn:Hm;
    [|reflexivity].
  destruct (init_matrix_cells _ _ _ _ Hm 255%nat 0%nat) as (v & Hv & _);
    [unfold ROWS; lia|unfold COLS; lia|].
  rewrite Hcell in Hv. discriminate Hv.
Qed.

(** A run of [write_extensible_dset] for epoch [k]. *)
Lemma write_extensible_dset_run (s : state_t) (which k : Z)
    (mat : matrix) (e : env_t) (t : trace) :
  0 <= which < Z.of_nat NSETS -> 0 <= k < UINT_MAX ->
  epoch_post (dataset s !!! Z.to_nat which) (two_dee s) which k t
    (write_extensible_dset s which k mat e t).
Proof.
  intros Hw Hk.
  set (ds := dataset s !!! Z.to_nat which).
  set (bases := epoch_bases (two_dee s) k).
  set (ext := epoch_extent (two_dee s) k).
  enough (Hmain : exists (d : trace) (written : list base_t),
             (write_extensible_dset s which k mat e t).2 = t ++ d /\
             extents d `prefix_of` [(ds, ext)] /\
             written `prefix_of` bases /\
             (forall sel, chunk_writes sel d =
                map (fun b => (ds, Some [base.row b; base.col b])) written) /\
             match (write_extensible_dset s which k mat e t).1 with
             | Ret _ =>
                 no_failure d /\ extents d = [(ds, ext)] /\ written = bases
             | Exit c => c = EXIT_FAILURE /\ ~ no_failure d
             | Abort => ~ Forall (chunk_ok which) bases
             | OutOfFuel => False
             end).
  { destruct Hmain as (d & written & Ht & Hext & Hpre & Hcw & Hcase).
    exists d, written. split; [done|]. split; [done|]. split; [done|].
    split; [done|]. split; [|done].
    intros Hnf Hok.
    destruct (write_extensible_dset s which k mat e t).1 as [m|c| |];
      [|by destruct Hcase|done..].
    by destruct Hcase as (_ & ? & ?). }
  destruct (write_extensible_dset s which k mat e t) as [o t'] eqn:Hrun.
  cbn [fst snd].
  unfold write_extensible_dset in Hrun.
  rewrite bind_run in Hrun. unfold assert, lift in Hrun.
  assert (Hlt : (which <? Z.of_nat NSETS) = true) by lia.
  rewrite Hlt in Hrun. fold ds in Hrun. cbv beta iota zeta in Hrun.
  assert (Hsz : forall c : Z, 0 <= c <= 512 ->
            mul64 c (wrap32 (1 + k)) = c * (k + 1)).
  { intros c Hc. unfold mul64, wrap64, wrap32, UINT_MAX in *.
    rewrite (Z.mod_small (1 + k)) by lia. rewrite Z.mod_small; nia. }
  assert (Hext : [mul64 (original_dims !!! 0%nat) (wrap32 (1 + k));
                  if two_dee s
                  then mul64 (original_dims !!! 1%nat) (wrap32 (1 + k))
                  else original_dims !!! 1%nat]
                 = ext).
  { change (original_dims !!! 0%nat) with 256.
    change (original_dims !!! 1%nat) with 512.
    rewrite !Hsz by lia. unfold ext, epoch_extent. by destruct (two_dee s). }
  rewrite Hext in Hrun. clear Hext Hsz.
  rewrite bind_run in Hrun. unfold do_call at 1 in Hrun. cbv zeta in Hrun.
  set (r0 := e t (H5Dset_extent ds ext)) in *.
  set (ev0 := (H5Dset_extent ds ext, r0)) in *.
  destruct (r0 <? 0) eqn:Hr0.
  { injection Hrun as <- <-.
    exists [ev0], []. subst ev0. simpl.
    assert (H0 : (0 <=? r0) = false) by lia. rewrite H0.
    split; [done|]. split; [apply prefix_nil|].
    split; [apply prefix_nil|]. split; [done|]. split; [done|].
    intros Hall. apply Forall_inv in Hall. simpl in Hall. congruence. }
  assert (H0 : (0 <=? r0) = true) by lia.
  rewrite bind_run in Hrun. unfold do_call at 1 in Hrun. cbv zeta in Hrun.
  set (fs := e (t ++ [ev0]) (H5Dget_space ds)) in *.
  destruct (fs =? badhid) eqn:Hfs.
  { injection Hrun as <- <-.
    exists [ev0; (H5Dget_space ds, fs)], []. subst ev0. simpl. rewrite H0.
    rewrite <- app_assoc.
    split; [done|]. split; [done|].
    split; [apply prefix_nil|]. split; [done|]. split; [done|].
    intros Hall. apply Forall_inv_tail, Forall_inv in Hall.
    simpl in Hall. congruence. }
  rewrite bind_run in Hrun.
  rewrite (epoch_loops_foldM (two_dee s) ds fs (memspace s) which k
             mat e ((t ++ [ev0]) ++ [(H5Dget_space ds, fs)]) Hk) in Hrun.
  destruct (chunks_run ds fs (memspace s) which bases
              mat e ((t ++ [ev0]) ++ [(H5Dget_space ds, fs)]))
    as (d1 & written & Ht1 & Hext1 & Hpre & Hcw & Hcase).
  cbv zeta in *. fold bases in Hrun.
  destruct (foldM _ _ mat e _) as [o1 t1]. simpl in Ht1, Hcase.
  subst t1.
  assert (Hnf01 : forall d' : trace,
            no_failure d' ->
            no_failure (ev0 :: (H5Dget_space ds, fs) :: d')).
  { intros d' Hd'. apply Forall_cons_2; [done|].
    apply Forall_cons_2; [done|exact Hd']. }
  destruct o1 as [mat1|c| |]; [| | |done].
  2,3: injection Hrun as <- <-;
    exists (ev0 :: (H5Dget_space ds, fs) :: d1), written;
    subst ev0; simpl; rewrite H0, Hext1; rewrite <- !app_assoc;
    (split; [done|]); (split; [by exists []|]);
    (split; [done|]); (split; [done|]).
  2:{ destruct Hcase as [-> Hnf]. split; [done|].
      intros Hall. apply Forall_inv_tail, Forall_inv_tail in Hall.
      by apply Hnf. }
  2:{ done. }
  destruct Hcase as [-> Hnf1].
  rewrite bind_run in Hrun. unfold do_call at 1 in Hrun. cbv zeta in Hrun.
  set (r3 := e _ (H5Sclose fs)) in *.
  exists (ev0 :: (H5Dget_space ds, fs) :: d1 ++ [(H5Sclose fs, r3)]), bases.
  assert (Hcw' : forall sel,
            chunk_writes sel (d1 ++ [(H5Sclose fs, r3)]) =
            map (fun b => (ds, Some [base.row b; base.col b])) bases).
  { intros sel. destruct (chunk_writes_app d1 [(H5Sclose fs, r3)] sel)
      as [sel' ->]. simpl. by rewrite app_nil_r. }
  assert (Ht' : t' = t ++ ev0 :: (H5Dget_space ds, fs) ::
                       d1 ++ [(H5Sclose fs, r3)]).
  { destruct (r3 <? 0); injection Hrun as <- <-;
      rewrite <- !app_assoc; simpl; done. }
  split; [done|].
  subst ev0. simpl. rewrite H0, extents_app, Hext1. simpl.
  split; [by exists []|]. split; [done|]. split; [done|].
  destruct (r3 <? 0) eqn:Hr3; injection Hrun as <- _.
  - split; [done|].
    intros Hall. apply Forall_inv_tail, Forall_inv_tail in Hall.
    apply no_failure_app in Hall as [_ Hall]. apply Forall_inv in Hall.
    simpl in Hall. congruence.
  - split; [|done].
    apply Hnf01. apply no_failure_app. split; [done|].
    apply Forall_cons_2; [done|apply Forall_nil_2].
Qed.



(** *** Reasoning about runs *)

Lemma hoare_ret {A : Type} (a : A) (Q : outcome A -> trace -> Prop) :
  Q (Ret a) [] -> hoare (mret a) Q.
Proof. intros HQ e t. exists []. by rewrite app_nil_r. Qed.

Lemma hoare_lift {A : Type} (o : outcome A) (Q : outcome A -> trace -> Prop) :
  Q o [] -> hoare (lift o) Q.
Proof. intros HQ e t. exists []. by rewrite app_nil_r. Qed.

Lemma hoare_call (c : call) (Q : outcome Z -> trace -> Prop) :
  (forall r : Z, Q (Ret r) [(c, r)]) -> hoare (do_call c) Q.
Proof. intros HQ e t. exists [(c, e t c)]. split; [done|apply HQ]. Qed.

Lemma hoare_bind {A B : Type} (m : M A) (k : A -> M B)
    (Q1 : outcome A -> trace -> Prop) (Q : outcome B -> trace -> Prop) :
  hoare m Q1 ->
  (forall (a : A) (d1 : trace),
      Q1 (Ret a) d1 -> hoare (k a) (fun o d2 => Q o (d1 ++ d2))) ->
  (forall (o1 : outcome A) (d : trace),
      ~ is_Ret o1 -> Q1 o1 d -> Q (fail_as o1) d) ->
  hoare (m ≫= k) Q.
Proof.
  intros Hm Hk Hfail e t. rewrite bind_run.
  destruct (Hm e t) as (d1 & Ht1 & HQ1).
  destruct (m e t) as [o1 t1]. simpl in *. subst t1.
  destruct o1 as [a| c | |].
  - destruct (Hk a d1 HQ1 e (t ++ d1)) as (d2 & Ht2 & HQ2).
    exists (d1 ++ d2). by rewrite Ht2, app_assoc.
  - exists d1. split; [done|]. apply (Hfail (Exit c)); [simpl; tauto|done].
  - exists d1. split; [done|]. apply (Hfail Abort); [simpl; tauto|done].
  - exists d1. split; [done|]. apply (Hfail OutOfFuel); [simpl; tauto|done].
Qed.

Lemma hoare_conseq {A : Type} (m : M A) (Q1 Q2 : outcome A -> trace -> Prop) :
  hoare m Q1 -> (forall o d, Q1 o d -> Q2 o d) -> hoare m Q2.
Proof.
  intros Hm HQ e t. destruct (Hm e t) as (d & Ht & H1).
  exists d. split; [done|by apply HQ].
Qed.

Lemma emits_ret {A : Type} (p : call -> bool) (a : A) : emits p (mret a).
Proof. apply hoare_ret. apply Forall_nil_2. Qed.

Lemma emits_lift {A : Type} (p : call -> bool) (o : outcome A) : emits p (lift o).
Proof. apply hoare_lift. apply Forall_nil_2. Qed.

Lemma emits_errx {A : Type} (p : call -> bool) (c : Z) : emits p (@errx A c).
Proof. apply emits_lift. Qed.

Lemma emits_assert (p : call -> bool) (b : bool) : emits p (assert b).
Proof. apply emits_lift. Qed.

Lemma emits_call (p : call -> bool) (c : call) :
  p c = true -> emits p (do_call c).
Proof.
  intros Hc. apply hoare_call. intros r.
  apply Forall_cons_2; [exact Hc|apply Forall_nil_2].
Qed.

Lemma emits_bind {A B : Type} (p : call -> bool) (m : M A) (k : A -> M B) :
  emits p m -> (forall a, emits p (k a)) -> emits p (m ≫= k).
Proof.
  intros Hm Hk. eapply hoare_bind; [exact Hm| |].
  - intros a d1 H1. eapply hoare_conseq; [apply Hk|].
    intros o d2 H2. by apply Forall_app.
  - intros o1 d _ H1. exact H1.
Qed.

Lemma emits_if {A : Type} (p : call -> bool) (b : bool) (m1 m2 : M A) :
  emits p m1 -> emits p m2 -> emits p (if b then m1 else m2).
Proof. by destruct b. Qed.

Lemma emits_for_range {S : Type} (p : call -> bool) (body : Z -> S -> M S) (n : nat) :
  (forall i s, emits p (body i s)) ->
  forall i s, emits p (for_range n i body s).
Proof.
  intros Hb. induction n as [|n IH]; intros i s; simpl.
  - apply emits_ret.
  - apply emits_bind; [apply Hb|]. intros s'. apply IH.
Qed.

Lemma emits_for_loop {S : Type} (p : call -> bool) (cond : Z -> bool) (next : Z -> Z)
    (body : Z -> S -> M S) (fuel : nat) :
  (forall x s, emits p (body x s)) ->
  forall x s, emits p (for_loop fuel x cond next body s).
Proof.
  intros Hb. induction fuel as [|fuel IH]; intros x s; simpl.
  - intros e t. exists []. rewrite app_nil_r. split; [done|apply Forall_nil_2].
  - destruct (cond x); [|apply emits_ret].
    apply emits_bind; [apply Hb|]. intros s'. apply IH.
Qed.

Ltac emits_step :=
  first
    [ apply emits_ret | apply emits_errx | apply emits_assert | apply emits_lift
    | apply emits_call; reflexivity
    | apply emits_bind; [|intros ?]
    | apply emits_if
    | apply emits_for_range; intros ? ?
    | apply emits_for_loop; intros ? ? ].

Lemma emits_esnprintf (p : call -> bool) (n : nat) (text : string) :
  p (esnprintf_call n text) = true -> emits p (esnprintf n text).
Proof.
  intros Hp. unfold esnprintf.
  apply emits_bind; [by apply emits_call|]. intros r.
  apply emits_if; [apply emits_errx|apply emits_ret].
Qed.

Lemma emits_create_extensible_dset (s : state_t) (which : Z) :
  emits (in_phase PCreate) (create_extensible_dset s which).
Proof.
  unfold create_extensible_dset.
  repeat first [apply emits_esnprintf; reflexivity | emits_step].
Qed.

Lemma emits_init_and_write_chunk (ds fs ms : hid_t) (mat : matrix)
    (which : Z) (b : base_t) :
  emits (fun c => in_phase PEpochs c && negb (is_nanosleep c)) (init_and_write_chunk ds fs ms mat which b).
Proof.
  unfold init_and_write_chunk, assert_some. repeat emits_step.
Qed.

Lemma emits_write_extensible_dset (s : state_t) (which step : Z)
    (mat : matrix) :
  emits (fun c => in_phase PEpochs c && negb (is_nanosleep c)) (write_extensible_dset s which step mat).
Proof.
  unfold write_extensible_dset.
  repeat first [apply emits_init_and_write_chunk | emits_step].
Qed.

Lemma emits_write_epochs (s : state_t) (mat : matrix) :
  emits (in_phase PEpochs) (write_epochs s mat).
Proof.
  unfold write_epochs.
  repeat first
    [ eapply hoare_conseq;
      [apply emits_write_extensible_dset
      |intros _ d Hd; eapply Forall_impl; [exact Hd|];
       intros [c r] Hc; simpl in *; by destruct (in_phase PEpochs c)]
    | emits_step ].
Qed.

Lemma emits_state_init (v : Z) (argv0 : string) (args : list string) :
  emits (in_phase PInit) (state_init v argv0 args).
Proof.
  unfold state_init.
  apply emits_bind; [by apply emits_esnprintf|]. intros tfile.
  apply emits_bind; [by apply emits_esnprintf|]. intros pn.
  destruct (getopt_all optstring args) as [gs operands].
  apply emits_bind; [apply emits_lift|]. intros [s v'].
  apply emits_if; [apply emits_errx|].
  apply emits_bind; [by apply emits_call|]. intros ms.
  apply emits_if; [apply emits_errx|].
  apply emits_bind; [by apply emits_esnprintf|]. intros out.
  apply emits_ret.
Qed.

(** *** The options and the state *)

Lemma strtoul_digits_nonneg (base : Z) (cs : list ascii) :
  forall (acc : Z) (n : nat),
    0 <= base -> 0 <= acc -> 0 <= (strtoul_digits base cs acc n).1.
Proof.
  induction cs as [|c cs IH]; intros acc n Hb Ha; simpl; [done|].
  destruct (digit_val c) as [d|] eqn:Hd; [|done].
  destruct (d <? base) eqn:Hlt; [|done].
  apply IH; [done|].
  assert (0 <= d); [|nia].
  unfold digit_val in Hd.
  repeat match type of Hd with
         | context [if ?b then _ else _] => destruct b eqn:?
         end; try discriminate; injection Hd as <-; lia.
Qed.

Lemma strtoul_range (nptr : string) :
  0 <= (strtoul nptr).1.1 <= ULONG_MAX.
Proof.
  unfold strtoul.
  set (cs := list_ascii_of_string nptr).
  set (cs1 := drop (skip_space cs) cs).
  destruct (match cs1 with
            | "-"%char :: _ => (true, 1%nat)
            | "+"%char :: _ => (false, 1%nat)
            | _ => (false, 0%nat)
            end) as [neg sg].
  set (cs2 := drop sg cs1).
  destruct (match cs2 with
            | "0"%char :: x :: h :: _ =>
                if (Ascii.eqb x "x" || Ascii.eqb x "X") && is_digit_in 16 h
                then (16, 2%nat) else (8, 0%nat)
            | "0"%char :: _ => (8, 0%nat)
            | _ => (10, 0%nat)
            end) as [base pf] eqn:Hbase.
  assert (Hb : 0 <= base).
  { destruct cs2 as [|c0 [|x [|h rest]]]; simpl in Hbase;
      repeat match type of Hbase with
             | context [if ?b then _ else _] => destruct b
             | context [match ?c with Ascii _ _ _ _ _ _ _ _ => _ end] =>
                 destruct c as [[] [] [] [] [] [] [] []]
             end; injection Hbase as <- <-; lia. }
  pose proof (strtoul_digits_nonneg base (drop pf cs2) 0 0%nat Hb ltac:(lia))
    as Hacc.
  destruct (strtoul_digits base (drop pf cs2) 0 0%nat) as [acc n].
  simpl in Hacc. unfold ULONG_MAX.
  destruct n as [|n]; simpl; [lia|].
  destruct (18446744073709551615 <? acc) eqn:Hov; simpl; [lia|].
  destruct neg; [|lia].
  unfold wrap64. pose proof (Z.mod_pos_bound (- acc) (2 ^ 64)). lia.
Qed.

Ltac split_ifs H :=
  repeat match type of H with
         | context [if ?b then _ else _] =>
             let E := fresh "E" in destruct b eqn:E
         end.

Lemma state_opt_Ret (s : state_t) (v : Z) (g : getopt_ret)
    (s' : state_t) (v' : Z) :
  state_opt (s, v) g = Ret (s', v') ->
  exists ch : ascii,
    opt_char g = Some ch /\
    use_vfd_swmr s' = use_vfd_swmr s && negb (Ascii.eqb ch "S") /\
    wait_for_signal s' = wait_for_signal s && negb (Ascii.eqb ch "W") /\
    v' = (if Ascii.eqb ch "q" then 1 else v) /\
    update_interval s' =
      (if Ascii.eqb ch "u"
       then interval_of_millis (strtoul (opt_arg g)).1.1
       else update_interval s) /\
    (0 <= nsteps s <= UINT_MAX -> 0 <= nsteps s' <= UINT_MAX) /\
    dataset s' = dataset s /\ memspace s' = memspace s /\ file s' = file s /\
    progname s' = progname s /\ output_file s' = output_file s.
Proof.
  intros H. destruct g as [ch a|]; [|done].
  exists ch. split; [done|]. simpl in H. simpl opt_arg.
  pose proof (strtoul_range (default "" a)) as Hrange.
  destruct (strtoul (default "" a)) as [[tmp end_] errno].
  simpl in Hrange.
  split_ifs H; try discriminate; injection H as <- <-;
    repeat match goal with
           | E : Ascii.eqb _ _ = true |- _ => apply Ascii.eqb_eq in E; subst
           end; simpl;
    rewrite ?andb_true_r, ?andb_false_r;
    repeat match goal with
           | E : Ascii.eqb _ _ = _ |- _ => rewrite E
           end; simpl; rewrite ?andb_true_r.
  all: repeat split; try done; try lia.
  all: unfold wrap32, UINT_MAX;
    pose proof (Z.mod_pos_bound tmp (2 ^ 32)); lia.
Qed.

Lemma has_opt_cons (ch : ascii) (g : getopt_ret) (gs : list getopt_ret) :
  has_opt ch (g :: gs) =
    match opt_char g with
    | Some c => Ascii.eqb c ch || has_opt ch gs
    | None => has_opt ch gs
    end.
Proof. by destruct g. Qed.

(** What the option loop leaves in the state, read off the options. *)
Lemma state_opts_Ret (gs : list getopt_ret) :
  forall (s : state_t) (v : Z) (s' : state_t) (v' : Z),
    state_opts gs (s, v) = Ret (s', v') ->
    use_vfd_swmr s' = use_vfd_swmr s && negb (has_opt "S" gs) /\
    wait_for_signal s' = wait_for_signal s && negb (has_opt "W" gs) /\
    update_interval s' =
      match last_optarg "u" gs with
      | Some a => interval_of_millis (strtoul a).1.1
      | None => update_interval s
      end /\
    (0 <= nsteps s <= UINT_MAX -> 0 <= nsteps s' <= UINT_MAX) /\
    dataset s' = dataset s /\ memspace s' = memspace s /\ file s' = file s /\
    progname s' = progname s /\ output_file s' = output_file s.
Proof.
  induction gs as [|g gs IH]; intros s v s' v' H; cbn [state_opts] in H.
  - injection H as <- <-. simpl. by rewrite !andb_true_r.
  - destruct (state_opt (s, v) g) as [[s1 v1]| | |] eqn:Hg; try discriminate.
    apply state_opt_Ret in Hg
      as (ch & Hch & HS & HW & _ & Hu & Hn & Hd & Hm & Hf & Hp & Ho).
    apply IH in H as (HS' & HW' & Hu' & Hn' & Hd' & Hm' & Hf' & Hp' & Ho').
    rewrite !has_opt_cons, Hch.
    rewrite HS', HW', HS, HW, Hu', Hd', Hm', Hf', Hp', Ho'.
    rewrite (Ascii.eqb_sym ch "S"), (Ascii.eqb_sym ch "W").
    split; [by rewrite negb_orb, andb_assoc|].
    split; [by rewrite negb_orb, andb_assoc|].
    split.
    { simpl. destruct (last_optarg "u" gs); [done|].
      destruct g as [c a|]; [|done]. simpl in *. injection Hch as ->.
      rewrite Hu. by destruct (Ascii.eqb ch "u"). }
    split; [tauto|done].
Qed.


Lemma esnprintf_run (n : nat) (text : string) (e : env_t) (t : trace) :
  esnprintf n text e t =
    (if e t (esnprintf_call n text) <? 0 then Exit EXIT_FAILURE
     else Ret text,
     t ++ [(esnprintf_call n text, e t (esnprintf_call n text))]).
Proof.
  unfold esnprintf. rewrite bind_run. unfold do_call. cbv zeta.
  by destruct (e t (esnprintf_call n text) <? 0).
Qed.

(** The state that [state_init] returns, read off the command line. *)
Lemma state_init_Ret (v0 : Z) (argv0 : string) (args : list string)
    (e : env_t) (t t' : trace) (s : state_t) (v : Z) :
  state_init v0 argv0 args e t = (Ret (s, v), t') ->
  let gs := (getopt_all optstring args).1 in
  (getopt_all optstring args).2 = [] /\
  use_vfd_swmr s = negb (has_opt "S" gs) /\
  wait_for_signal s = negb (has_opt "W" gs) /\
  update_interval s =
    match last_optarg "u" gs with
    | Some a => interval_of_millis (strtoul a).1.1
    | None => {| tv_sec := 0; tv_nsec := 33333333 |}
    end /\
  0 <= nsteps s <= UINT_MAX /\
  dataset s = replicate NSETS badhid /\
  0 <= memspace s.
Proof.
  intros H gs. subst gs. unfold state_init in H.
  rewrite bind_run, esnprintf_run in H.
  destruct (_ <? 0) in H; [discriminate|].
  rewrite bind_run, esnprintf_run in H.
  destruct (_ <? 0) in H; [discriminate|].
  destruct (getopt_all optstring args) as [gs operands]. simpl.
  rewrite bind_run in H. unfold lift at 1 in H.
  destruct (state_opts gs _) as [[s0 v1]| | |] eqn:Hopts; try discriminate.
  apply state_opts_Ret in Hopts
    as (HS & HW & Hu & Hn & Hd & Hm & Hf & Hp & Ho).
  destruct (0 <? length operands)%nat eqn:Hops; [discriminate|].
  rewrite bind_run in H. unfold do_call at 1 in H. cbv zeta in H.
  set (ms := e _ (H5Screate_simple RANK chunk_dims None)) in *.
  destruct (ms <? 0) eqn:Hms; [discriminate|].
  rewrite bind_run, esnprintf_run in H.
  destruct (_ <? 0) in H; [discriminate|].
  injection H as <- <- _.
  simpl in *.
  split; [by destruct operands|].
  split; [done|]. split; [done|].
  split; [rewrite Hu; by destruct (last_optarg "u" gs)|].
  split; [apply Hn; unfold UINT_MAX; lia|].
  split; [done|lia].
Qed.

(** *** Creating the datasets *)

Lemma created_app (d1 d2 : trace) :
  forall (sp : gmap Z (list Z * option (list Z))) (ch : gmap Z (list Z)),
    exists sp' ch',
      created sp ch (d1 ++ d2) = created sp ch d1 ++ created sp' ch' d2.
Proof.
  induction d1 as [|[c r] d1 IH]; intros sp ch; [by exists sp, ch|].
  destruct c; simpl; try apply IH.
  destruct (0 <=? r); [|apply IH].
  destruct (IH sp ch) as (sp' & ch' & ->). by exists sp', ch'.
Qed.

Lemma created_none (d : trace) :
  all_calls (fun c => negb (is_H5Dcreate2 c)) d ->
  forall sp ch, created sp ch d = [].
Proof.
  induction d as [|[c r] d IH]; intros Hd sp ch; [done|].
  apply Forall_cons in Hd as [Hc Hd].
  destruct c; simpl in *; try done; by apply IH.
Qed.

Lemma create_extensible_dset_run (s : state_t) (which : Z) (e : env_t)
    (t : trace) :
  exists d : trace,
    (create_extensible_dset s which e t).2 = t ++ d /\
    (forall sp ch,
        created sp ch d `prefix_of` [dataset_info (two_dee s) which]) /\
    (forall s' : state_t,
        (create_extensible_dset s which e t).1 = Ret s' ->
        (forall sp ch, created sp ch d = [dataset_info (two_dee s) which]) /\
        exists ds, s' = set_dataset (<[Z.to_nat which := ds]> (dataset s)) s).
Proof.
  destruct (create_extensible_dset s which e t) as [o t'] eqn:Hrun.
  cbn [fst snd]. unfold create_extensible_dset in Hrun.
  rewrite bind_run in Hrun. unfold assert at 1, lift at 1 in Hrun.
  destruct (which <=? 99);
    [|injection Hrun as <- <-; exists []; rewrite app_nil_r;
      repeat split; try done; intros; apply prefix_nil].
  rewrite bind_run in Hrun. unfold assert at 1, lift at 1 in Hrun.
  destruct (which <? Z.of_nat NSETS);
    [|injection Hrun as <- <-; exists []; rewrite app_nil_r;
      repeat split; try done; intros; apply prefix_nil].
  rewrite bind_run, esnprintf_run in Hrun.
  set (ev1 := (esnprintf_call 12 _, _)) in Hrun.
  destruct (_ <? 0) in Hrun;
    [injection Hrun as <- <-; exists [ev1];
     repeat split; try done; intros; apply prefix_nil|].
  rewrite bind_run in Hrun. unfold assert at 1, lift at 1 in Hrun.
  destruct (_ =? badhid) in Hrun;
    [|injection Hrun as <- <-; exists [ev1];
      repeat split; try done; intros; apply prefix_nil].
  rewrite bind_run in Hrun. unfold do_call at 1 in Hrun. cbv zeta in Hrun.
  set (c2 := H5Screate_simple _ _ _) in Hrun.
  set (fs := e _ c2) in Hrun.
  destruct (fs <? 0) eqn:Hfs;
    [injection Hrun as <- <-; exists [ev1; (c2, fs)];
     rewrite <- app_assoc; repeat split; try done; intros; apply prefix_nil|].
  rewrite bind_run in Hrun. unfold do_call at 1 in Hrun. cbv zeta in Hrun.
  set (c3 := H5Pcreate _) in Hrun.
  set (dcpl := e _ c3) in Hrun.
  destruct (dcpl <? 0) eqn:Hdcpl;
    [injection Hrun as <- <-; exists [ev1; (c2, fs); (c3, dcpl)];
     rewrite <- !app_assoc; repeat split; try done; intros; apply prefix_nil|].
  rewrite bind_run in Hrun. unfold do_call at 1 in Hrun. cbv zeta in Hrun.
  set (c4 := H5Pset_chunk _ _ _) in Hrun.
  set (r4 := e _ c4) in Hrun.
  destruct (r4 <? 0) eqn:Hr4;
    [injection Hrun as <- <-; exists [ev1; (c2, fs); (c3, dcpl); (c4, r4)];
     rewrite <- !app_assoc; repeat split; try done; intros; apply prefix_nil|].
  rewrite bind_run in Hrun. unfold do_call at 1 in Hrun. cbv zeta in Hrun.
  set (c5 := H5Dcreate2 _ _ _ _) in Hrun.
  set (ds := e _ c5) in Hrun.
  rewrite bind_run in Hrun. unfold do_call at 1 in Hrun. cbv zeta in Hrun.
  set (c6 := H5Sclose _) in Hrun.
  set (r6 := e _ c6) in Hrun.
  exists [ev1; (c2, fs); (c3, dcpl); (c4, r4); (c5, ds); (c6, r6)].
  assert (Hfs' : (0 <=? fs) = true) by lia.
  assert (Hdcpl' : (0 <=? dcpl) = true) by lia.
  assert (Hr4' : (0 <=? r4) = true) by lia.
  assert (Hcr : forall sp ch,
            created sp ch
              [ev1; (c2, fs); (c3, dcpl); (c4, r4); (c5, ds); (c6, r6)] =
            if 0 <=? ds then [dataset_info (two_dee s) which] else []).
  { intros sp ch. subst ev1 c2 c3 c4 c5 c6. simpl.
    rewrite Hfs', Hdcpl', Hr4'.
    destruct (0 <=? ds); [|done].
    rewrite !lookup_insert_eq. unfold dataset_info.
    by destruct (two_dee s). }
  assert (Ht' : t' = t ++ [ev1; (c2, fs); (c3, dcpl); (c4, r4); (c5, ds); (c6, r6)]).
  { destruct (r6 <? 0), (ds <? 0); injection Hrun as <- <-;
      by rewrite <- !app_assoc. }
  split; [done|]. split.
  { intros sp ch. rewrite Hcr. destruct (0 <=? ds); [done|apply prefix_nil]. }
  intros s' ->.
  destruct (r6 <? 0); [discriminate|].
  destruct (ds <? 0) eqn:Hds; [discriminate|].
  injection Hrun as <- _.
  split; [|by exists ds].
  intros sp ch. rewrite Hcr.
  assert (Hds' : (0 <=? ds) = true) by lia. by rewrite Hds'.
Qed.

Lemma for_range_foldM {S : Type} (body : Z -> S -> M S) (n : nat) :
  forall (i : Z) (s : S) (e : env_t) (t : trace),
    for_range n i body s e t =
      foldM body (map (fun j : nat => i + Z.of_nat j) (seq 0 n)) s e t.
Proof.
  induction n as [|n IH]; intros i s e t; [reflexivity|].
  cbn [for_range seq map foldM]. rewrite !bind_run.
  replace (i + Z.of_nat 0) with i by lia.
  destruct (body i s e t) as [[a| | |] t1]; try done.
  rewrite IH, <- seq_shift, map_map.
  by rewrite (List.map_ext (fun x : nat => i + Z.of_nat (Datatypes.S x))
                (fun j : nat => i + 1 + Z.of_nat j)) by (intros; lia).
Qed.

Lemma prefix_singleton_cons {A : Type} (l : list A) (x : A) (k : list A) :
  l `prefix_of` [x] -> l `prefix_of` x :: k.
Proof. intros [r Hr]. exists (r ++ k). rewrite app_assoc, <- Hr. done. Qed.

Lemma create_all_run (ws : list Z) :
  forall (s : state_t) (e : env_t) (t : trace),
    let run :=
      foldM (fun which s => create_extensible_dset s which) ws s e t in
    exists d : trace,
      run.2 = t ++ d /\
      (forall sp ch,
          created sp ch d `prefix_of` map (dataset_info (two_dee s)) ws) /\
      (forall s' : state_t,
          run.1 = Ret s' ->
          (forall sp ch, created sp ch d = map (dataset_info (two_dee s)) ws) /\
          same_config s s').
Proof.
  induction ws as [|w ws IH]; intros s e t run; subst run.
  - exists []. simpl. rewrite app_nil_r. split; [done|]. split; [done|].
    intros s' [= <-]. by repeat split.
  - cbn [foldM]. rewrite bind_run.
    destruct (create_extensible_dset_run s w e t) as (d1 & Ht1 & Hpre & Hret).
    destruct (create_extensible_dset s w e t) as [o1 t1]. simpl in *. subst t1.
    destruct o1 as [s1| | |].
    2-4: exists d1; split; [done|]; split;
      [intros sp ch; by apply prefix_singleton_cons|done].
    destruct (Hret s1 eq_refl) as [Hcr [ds ->]].
    destruct (IH (set_dataset (<[Z.to_nat w := ds]> (dataset s)) s) e (t ++ d1))
      as (d2 & Ht2 & Hpre2 & Hret2).
    simpl in *.
    exists (d1 ++ d2). split; [by rewrite Ht2, app_assoc|]. split.
    + intros sp ch. destruct (created_app d1 d2 sp ch) as (sp' & ch' & ->).
      rewrite Hcr. simpl. apply prefix_cons, Hpre2.
    + intros s' Hs'. destruct (Hret2 s' Hs') as [Hcr2 Hcfg]. split; [|done].
      intros sp ch. destruct (created_app d1 d2 sp ch) as (sp' & ch' & ->).
      by rewrite Hcr, Hcr2.
Qed.

(** *** The epoch loops *)

Lemma sleeps_app (d1 d2 : trace) : sleeps (d1 ++ d2) = sleeps d1 ++ sleeps d2.
Proof.
  induction d1 as [|[c r] d1 IH]; [done|].
  destruct c; simpl; by rewrite ?IH.
Qed.

Lemma sleeps_none (d : trace) :
  all_calls (fun c => in_phase PEpochs c && negb (is_nanosleep c)) d ->
  sleeps d = [] /\ all_in PEpochs d.
Proof.
  induction d as [|[c r] d IH]; intros Hd; [split; [done|apply Forall_nil_2]|].
  apply Forall_cons in Hd as [Hc Hd]. destruct (IH Hd) as [IH1 IH2].
  simpl in Hc. apply andb_true_iff in Hc as [Hc1 Hc2].
  split; [by destruct c|]. by apply Forall_cons_2.
Qed.

Lemma for_range_sleeps {S : Type} (x : Z * Z) (m : nat)
    (body : Z -> S -> M S) :
  (forall i s, hoare (body i s) (sleeps_post x m)) ->
  forall (n : nat) (i : Z) (s : S),
    hoare (for_range n i body s) (sleeps_post x (n * m)).
Proof.
  intros Hb. induction n as [|n IH]; intros i s; cbn [for_range].
  - apply hoare_ret. split; [apply Forall_nil_2|]. split; [apply Forall_nil_2|done].
  - eapply hoare_bind; [apply Hb| |].
    + intros s1 d1 (Hin1 & Hx1 & Hn1).
      eapply hoare_conseq; [apply IH|].
      intros o d2 (Hin2 & Hx2 & Hn2).
      split; [by apply Forall_app|]. rewrite sleeps_app.
      split; [by apply Forall_app|].
      intros Ho. rewrite length_app, Hn1, Hn2 by done. simpl. lia.
    + intros o1 d Ho1 (Hin1 & Hx1 & _). split; [done|]. split; [done|].
      by destruct o1.
Qed.

Lemma hoare_call_event (c : call) :
  hoare (do_call c) (fun o d => exists r : Z, o = Ret r /\ d = [(c, r)]).
Proof. apply hoare_call. intros r. by exists r. Qed.

Lemma write_epochs_run (s : state_t) (mat : matrix) :
  hoare (write_epochs s mat)
    (sleeps_post (tv_sec (update_interval s), tv_nsec (update_interval s))
       (Z.to_nat (nsteps s) * NSETS)).
Proof.
  unfold write_epochs.
  set (x := (tv_sec (update_interval s), tv_nsec (update_interval s))).
  eapply hoare_conseq;
    [apply (for_range_sleeps x (NSETS * 1))|
     intros o d H; by rewrite Nat.mul_1_r in H].
  intros step mat1. apply for_range_sleeps. intros which mat2.
  eapply hoare_bind; [apply emits_write_extensible_dset| |].
  - intros mat3 d1 Hd1. apply sleeps_none in Hd1 as [Hs1 Hin1].
    eapply hoare_bind; [apply hoare_call_event| |].
    + intros r d2 (r' & _ & ->). apply hoare_ret.
      rewrite app_nil_r. unfold sleeps_post.
      rewrite sleeps_app, Hs1. simpl.
      split; [apply Forall_app; split;
              [done|by apply Forall_cons_2; [|apply Forall_nil_2]]|].
      split; [by apply Forall_cons_2; [|apply Forall_nil_2]|done].
    + intros o1 d Ho1 (r' & -> & _). by destruct Ho1.
  - intros o1 d Ho1 Hd1. apply sleeps_none in Hd1 as [Hs1 Hin1].
    split; [done|]. rewrite Hs1. split; [apply Forall_nil_2|by destruct o1].
Qed.

(** *** [main], phase by phase *)

Lemma create_loop_run (s : state_t) :
  hoare (for_range NSETS 0 (fun which s => create_extensible_dset s which) s)
    (fun o d =>
       all_in PCreate d /\
       (forall sp ch,
           created sp ch d `prefix_of` expected_datasets (two_dee s)) /\
       (forall s' : state_t,
           o = Ret s' ->
           (forall sp ch, created sp ch d = expected_datasets (two_dee s)) /\
           same_config s s')).
Proof.
  intros e t.
  destruct (emits_for_range (in_phase PCreate)
              (fun which s => create_extensible_dset s which) NSETS
              (fun i s0 => emits_create_extensible_dset s0 i) 0 s e t)
    as (d & Hd & Hin).
  rewrite for_range_foldM in *.
  destruct (create_all_run [0; 1; 2; 3; 4] s e t) as (d' & Hd' & Hpre & Hret).
  change (map (fun j : nat => 0 + Z.of_nat j) (seq 0 NSETS))
    with [0; 1; 2; 3; 4] in *.
  cbv zeta in *. rewrite Hd in Hd'. apply app_inv_head in Hd' as <-.
  exists d. split; [done|]. split; [done|]. split; [exact Hpre|exact Hret].
Qed.

Lemma main_post_setup (s : state_t) (o : outcome Z) (d : trace) :
  all_in PSetup d -> ~ is_Ret o -> main_post s o d.
Proof.
  intros Hd Ho. exists d, [], [], [], []. rewrite !app_nil_r.
  repeat split; try apply Forall_nil_2; try done; simpl; try lia.
  intros sp ch. apply prefix_nil.
Qed.

Lemma main_post_create (s : state_t) (o : outcome Z) (d d1 d2 : trace) :
  d = d1 ++ d2 ->
  all_in PSetup d1 -> all_in PCreate d2 ->
  (forall sp ch, created sp ch d2 `prefix_of` expected_datasets (two_dee s)) ->
  ~ is_Ret o -> main_post s o d.
Proof.
  intros -> H1 H2 Hpre Ho. exists d1, d2, [], [], []. rewrite !app_nil_r.
  repeat split; try apply Forall_nil_2; try done; simpl; lia.
Qed.

Lemma main_post_epochs (s : state_t) (o : outcome Z) (d d1 d2 d3 : trace) :
  d = d1 ++ d2 ++ d3 ->
  all_in PSetup d1 -> all_in PCreate d2 ->
  (forall sp ch, created sp ch d2 = expected_datasets (two_dee s)) ->
  all_in PEpochs d3 ->
  Forall (fun y => y = (tv_sec (update_interval s),
                        tv_nsec (update_interval s))) (sleeps d3) ->
  ~ is_Ret o -> main_post s o d.
Proof.
  intros -> H1 H2 Hcr H3 Hsl Ho. exists d1, d2, d3, [], [].
  rewrite !app_nil_r.
  repeat split; try apply Forall_nil_2; try done; simpl; try lia.
  intros sp ch. by rewrite Hcr.
Qed.

Lemma main_post_close (s : state_t) (o : outcome Z)
    (d d1 d2 d3 d4 d5 : trace) :
  d = d1 ++ d2 ++ d3 ++ d4 ++ d5 ->
  all_in PSetup d1 -> all_in PCreate d2 ->
  (forall sp ch, created sp ch d2 = expected_datasets (two_dee s)) ->
  all_in PEpochs d3 ->
  Forall (fun y => y = (tv_sec (update_interval s),
                        tv_nsec (update_interval s))) (sleeps d3) ->
  length (sleeps d3) = (Z.to_nat (nsteps s) * NSETS)%nat ->
  (exists f r, d4 = if use_vfd_swmr s && wait_for_signal s
                    then [(await_signal f, r)] else []) ->
  all_in PClose d5 ->
  (is_Ret o ->
   o = Ret EXIT_SUCCESS /\
   Exists (fun ev : event => is_H5Fclose ev.1 = true /\ 0 <= ev.2) d5) ->
  main_post s o d.
Proof.
  intros -> H1 H2 Hcr H3 Hsl Hlen (f & r & ->) H5 Ho.
  exists d1, d2, d3,
    (if use_vfd_swmr s && wait_for_signal s then [(await_signal f, r)] else []),
    d5.
  split; [done|].
  destruct (use_vfd_swmr s && wait_for_signal s);
    repeat split; try done; simpl; try lia;
    try (intros sp ch; by rewrite Hcr);
    try apply Forall_nil_2;
    try (apply Forall_cons_2; [done|apply Forall_nil_2]).
  all: by apply Ho.
Qed.

Lemma hoare_ret_event {A : Type} (a : A) :
  hoare (mret a) (fun o d => o = Ret a /\ d = []).
Proof. by apply hoare_ret. Qed.

Ltac call_step r :=
  eapply hoare_bind;
  [ apply hoare_call_event
  | intros r ? (? & [= <-] & ->)
  | intros ? ? Hnr (? & -> & _); exfalso; apply Hnr; exact I ].

Ltac solve_all_in :=
  unfold all_in, all_calls;
  repeat first
    [ apply Forall_nil_2
    | apply Forall_cons_2; [reflexivity|]
    | assumption ].

(** [main] from the return of [state_init] on. *)
Lemma main_run (v0 : Z) (argv0 : string) (args : list string) (e : env_t)
    (t t0 : trace) (s : state_t) (v : Z) :
  state_init v0 argv0 args e t = (Ret (s, v), t0) ->
  exists d : trace,
    (main v0 argv0 args e t).2 = t0 ++ d /\
    main_post s (main v0 argv0 args e t).1 d.
Proof.
  intros H. unfold main. rewrite bind_run, H.
  match goal with
  | |- exists d, (?m e t0).2 = _ /\ _ =>
      enough (Hh : hoare m (main_post s)) by apply (Hh e t0)
  end.
  call_step onheap.
  destruct (onheap =? 0);
    [apply hoare_lift; apply main_post_setup; [solve_all_in|simpl; tauto]|].
  call_step fapl.
  destruct (fapl <? 0);
    [apply hoare_lift; apply main_post_setup; [solve_all_in|simpl; tauto]|].
  call_step fcpl.
  destruct (fcpl <? 0);
    [apply hoare_lift; apply main_post_setup; [solve_all_in|simpl; tauto]|].
  call_step r4.
  destruct (r4 <? 0);
    [apply hoare_lift; apply main_post_setup; [solve_all_in|simpl; tauto]|].
  call_step f.
  destruct (f =? badhid);
    [apply hoare_lift; apply main_post_setup; [solve_all_in|simpl; tauto]|].
  call_step r6.
  set (d1 := [(malloc_call, onheap);
              (vfd_swmr_create_fapl true true (use_vfd_swmr s), fapl);
              (H5Pcreate H5P_FILE_CREATE, fcpl);
              (H5Pset_file_space_strategy fcpl, r4);
              (H5Fcreate (output_file s) fcpl fapl, f);
              (block_signals, r6)]).
  assert (Hd1 : all_in PSetup d1) by (subst d1; solve_all_in).
  eapply hoare_bind; [apply create_loop_run| |].
  2:{ intros o1 d2 Ho1 (Hin2 & Hpre2 & _).
      apply (main_post_create s _ _ d1 d2); try done.
      by destruct o1. }
  intros s1 d2 (Hin2 & _ & Hret2).
  destruct (Hret2 s1 eq_refl) as [Hcr2 (Htd & Hns & Hui & Hsw & Hwf & Hfile & _)].
  simpl in Hcr2, Htd, Hns, Hui, Hsw, Hwf, Hfile.
  eapply hoare_bind; [apply write_epochs_run| |].
  2:{ intros o1 d3 Ho1 (Hin3 & Hsl3 & _).
      apply (main_post_epochs s _ _ d1 d2 d3); try done.
      - by rewrite <- Hui.
      - by destruct o1. }
  intros mat d3 (Hin3 & Hsl3 & Hlen3).
  rewrite Hui in Hsl3. rewrite Hns in Hlen3. specialize (Hlen3 I).
  rewrite Hsw, Hwf.
  assert (Hclose : forall (d4 : trace),
            (exists f' r', d4 = if use_vfd_swmr s && wait_for_signal s
                                then [(await_signal f', r')] else []) ->
            forall (o : outcome Z) (d5 : trace),
              all_in PClose d5 ->
              (is_Ret o ->
               o = Ret EXIT_SUCCESS /\
               Exists (fun ev : event => is_H5Fclose ev.1 = true /\ 0 <= ev.2)
                 d5) ->
              main_post s o (d1 ++ d2 ++ d3 ++ d4 ++ d5)).
  { intros d4 Hd4 o d5 Hd5 Ho.
    by apply (main_post_close s o _ d1 d2 d3 d4 d5). }
  eapply (hoare_bind _ _
            (fun o d4 =>
               exists r', o = Ret r' /\
                 exists f' r'', d4 = if use_vfd_swmr s && wait_for_signal s
                                     then [(await_signal f', r'')] else [])).
  { destruct (use_vfd_swmr s && wait_for_signal s).
    - eapply hoare_conseq; [apply hoare_call_event|].
      intros o d (r & -> & ->). exists r. split; [done|]. by eexists _, _.
    - eapply hoare_conseq; [apply hoare_ret_event|].
      intros o d (-> & ->). exists 0. split; [done|]. by exists 0, 0. }
  2:{ intros o1 d Hnr (r' & -> & _). exfalso. apply Hnr. exact I. }
  intros r' d4 (_ & _ & Hd4).
  specialize (Hclose d4 Hd4). clear Hd4.
  call_step r7.
  call_step r8.
  destruct (r8 <? 0).
  { apply hoare_lift. apply Hclose;
      [solve_all_in|simpl; tauto]. }
  call_step r9.
  destruct (r9 <? 0).
  { apply hoare_lift. apply Hclose;
      [solve_all_in|simpl; tauto]. }
  call_step r10.
  destruct (r10 <? 0) eqn:Hr10.
  { apply hoare_lift. apply Hclose;
      [solve_all_in|simpl; tauto]. }
  call_step r11.
  apply hoare_ret. apply Hclose; [solve_all_in|].
  intros _. split; [done|].
  do 3 apply Exists_cons_tl. apply Exists_cons_hd. simpl. split; [done|lia].
Qed.

Lemma main_init_fail (v0 : Z) (argv0 : string) (args : list string)
    (e : env_t) (t : trace) :
  ~ is_Ret (state_init v0 argv0 args e t).1 ->
  main v0 argv0 args e t =
    (fail_as (state_init v0 argv0 args e t).1,
     (state_init v0 argv0 args e t).2).
Proof.
  intros Hnr. unfold main. rewrite bind_run.
  destruct (state_init v0 argv0 args e t) as [[sv| | |] t0]; done.
Qed.


Lemma created_phase (p : phase) (d : trace) :
  all_in p d -> p <> PCreate ->
  all_calls (fun c => negb (is_H5Dcreate2 c)) d.
Proof.
  intros Hd Hp. eapply Forall_impl; [exact Hd|].
  intros [c r] Hc. simpl in *. destruct c; try done. by destruct p.
Qed.

Lemma all_calls_app (P : call -> bool) (d1 d2 : trace) :
  all_calls P d1 -> all_calls P d2 -> all_calls P (d1 ++ d2).
Proof. intros H1 H2. by apply Forall_app. Qed.

Lemma all_calls_impl (P Q : call -> bool) (d : trace) :
  (forall c, P c = true -> Q c = true) -> all_calls P d -> all_calls Q d.
Proof.
  intros HPQ Hd. eapply Forall_impl; [exact Hd|]. intros [c r]. apply HPQ.
Qed.

(** *** Runs in which no call fails *)

Lemma env_ok_never_fails (e : env_t) : env_ok e -> never_fails e.
Proof.
  intros He t c. specialize (He t c).
  destruct c; cbn; unfold badhid, H5I_INVALID_HID; lia.
Qed.

Lemma call_ok_run {A : Type} (c : call) (k : Z -> M A) (e : env_t)
    (t : trace) :
  never_fails e ->
  exists r : Z,
    failed c r = false /\ (do_call c ≫= k) e t = k r e (t ++ [(c, r)]).
Proof. intros He. exists (e t c). split; [apply He|done]. Qed.

Ltac ok_step He :=
  match goal with
  | |- context [(do_call ?c ≫= ?k) ?e ?t] =>
      let r := fresh "r" in
      let Hr := fresh "Hr" in
      destruct (call_ok_run c k e t He) as (r & Hr & ->);
      cbv beta; cbn [failed] in Hr; try rewrite Hr
  end.

Lemma init_and_write_chunk_ok (ds fs ms : hid_t) (mat : matrix) (which : Z)
    (b : base_t) (e : env_t) (t : trace) :
  never_fails e -> chunk_ok which b ->
  is_Ret (init_and_write_chunk ds fs ms mat which b e t).1.
Proof.
  intros He Hb. unfold init_and_write_chunk.
  destruct (init_matrix_total mat which b) as [mat' Hm].
  { intros row col Hrow Hcol. unfold init_cell. rewrite (Hb row col Hrow Hcol).
    by eexists. }
  rewrite Hm. rewrite bind_run. unfold assert_some, lift. cbv beta iota.
  ok_step He. ok_step He. done.
Qed.

Lemma foldM_ok {X S : Type} (body : X -> S -> M S) (e : env_t) (xs : list X) :
  (forall x s t, x ∈ xs -> is_Ret (body x s e t).1) ->
  forall s t, is_Ret (foldM body xs s e t).1.
Proof.
  induction xs as [|x xs IH]; intros Hbody s t; simpl; [done|].
  rewrite bind_run.
  pose proof (Hbody x s t ltac:(left)) as Hx.
  destruct (body x s e t) as [[s'| | |] t']; try done.
  apply IH. intros y s0 t0 Hy. apply Hbody. by right.
Qed.

Lemma bind_ok {A B : Type} (m : M A) (k : A -> M B) (e : env_t) (t : trace) :
  is_Ret (m e t).1 ->
  (forall a t', is_Ret (k a e t').1) ->
  is_Ret ((m ≫= k) e t).1.
Proof.
  intros Hm Hk. rewrite bind_run.
  destruct (m e t) as [[a| | |] t']; [apply Hk|done..].
Qed.

(** [write_extensible_dset] returns when no call fails and no assertion of
    [init_matrix] fails on a chunk of the epoch. *)
Lemma write_extensible_dset_returns (s : state_t) (which k : Z) (mat : matrix)
    (e : env_t) (t : trace) :
  never_fails e ->
  0 <= which < Z.of_nat NSETS ->
  0 <= k < UINT_MAX ->
  Forall (chunk_ok which) (epoch_bases (two_dee s) k) ->
  is_Ret (write_extensible_dset s which k mat e t).1.
Proof.
  intros He Hw Hk Hall.
  unfold write_extensible_dset. rewrite bind_run. unfold assert, lift.
  replace (which <? Z.of_nat NSETS) with true by lia.
  cbv beta iota zeta.
  ok_step He. ok_step He.
  apply bind_ok.
  - rewrite (epoch_loops_foldM (two_dee s) _ _ _ _ _ _ _ _ Hk).
    apply foldM_ok. intros b mat' t' Hb.
    apply init_and_write_chunk_ok; [done|].
    rewrite Forall_forall in Hall. by apply Hall.
  - intros mat' t'. ok_step He. done.
Qed.


Lemma for_range_ok {S : Type} (body : Z -> S -> M S) (e : env_t)
    (P : S -> Prop) (n : nat) :
  forall (i : Z) (s : S) (t : trace),
    P s ->
    (forall j s t, i <= j < i + Z.of_nat n -> P s ->
       exists s' t', body j s e t = (Ret s', t') /\ P s') ->
    exists s' t', for_range n i body s e t = (Ret s', t') /\ P s'.
Proof.
  induction n as [|n IH]; intros i s t Hs Hbody; cbn [for_range].
  - by exists s, t.
  - rewrite bind_run.
    destruct (Hbody i s t ltac:(lia) Hs) as (s1 & t1 & -> & Hs1).
    apply IH; [done|]. intros j s2 t2 Hj. apply Hbody. lia.
Qed.

(** One pass of the inner loop of [main]. *)
Lemma write_step_ok (s : state_t) (which step : Z) (mat : matrix)
    (e : env_t) (t : trace) :
  never_fails e ->
  0 <= which < Z.of_nat NSETS ->
  0 <= step < UINT_MAX ->
  Forall (chunk_ok which) (epoch_bases (two_dee s) step) ->
  exists mat' t',
    (mat ← write_extensible_dset s which step mat;
     _ ← do_call (nanosleep (tv_sec (update_interval s))
                    (tv_nsec (update_interval s)));
     mret mat) e t = (Ret mat', t').
Proof.
  intros He Hw Hk Hall. rewrite bind_run.
  pose proof (write_extensible_dset_returns s which step mat e t He Hw Hk Hall)
    as Hret.
  destruct (write_extensible_dset s which step mat e t)
    as [[mat3| | |] t3]; try done.
  ok_step He. by eexists _, _.
Qed.

Lemma write_epochs_ok (s : state_t) (mat : matrix) (e : env_t) (t : trace) :
  never_fails e ->
  0 <= nsteps s <= (if two_dee s then 127 else 255) ->
  is_Ret (write_epochs s mat e t).1.
Proof.
  intros He Hn. unfold write_epochs.
  destruct (for_range_ok
              (fun step mat =>
                 for_range NSETS 0
                   (fun which mat =>
                      mat ← write_extensible_dset s which step mat;
                      _ ← do_call (nanosleep (tv_sec (update_interval s))
                                     (tv_nsec (update_interval s)));
                      mret mat) mat)
              e (fun _ => True) (Z.to_nat (nsteps s)) 0 mat t I)
    as (mat' & t' & -> & _); [|done].
  intros step mat1 t1 Hstep _.
  apply for_range_ok; [done|].
  intros which mat2 t2 Hwhich _.
  destruct (write_step_ok s which step mat2 e t2 He) as (mat3 & t3 & ->);
    [lia|unfold UINT_MAX; destruct (two_dee s); lia| |by eexists _, _].
  apply epoch_chunks_ok; [lia|destruct (two_dee s); lia].
Qed.

Lemma assert_run {A : Type} (b : bool) (k : unit -> M A) (e : env_t)
    (t : trace) :
  b = true -> (assert b ≫= k) e t = k tt e t.
Proof. by intros ->. Qed.

Lemma esnprintf_ok_run {A : Type} (bufsz : nat) (text : string)
    (k : string -> M A) (e : env_t) (t : trace) :
  never_fails e ->
  exists t' : trace, (esnprintf bufsz text ≫= k) e t = k text e t'.
Proof.
  intros He. unfold esnprintf. rewrite !bind_run.
  unfold do_call at 1. cbv zeta.
  pose proof (He t (esnprintf_call bufsz text)) as Hr.
  cbn [failed] in Hr. rewrite Hr.
  by eexists.
Qed.

Ltac esnprintf_step He :=
  match goal with
  | |- context [(esnprintf ?n ?s ≫= ?k) ?e ?t] =>
      let t' := fresh "t" in
      destruct (esnprintf_ok_run n s k e t He) as (t' & ->); cbv beta
  end.

Lemma create_extensible_dset_ok (s : state_t) (which : Z) (e : env_t)
    (t : trace) :
  never_fails e ->
  0 <= which < Z.of_nat NSETS ->
  dataset s !!! Z.to_nat which = badhid ->
  exists (ds : hid_t) (t' : trace),
    create_extensible_dset s which e t =
      (Ret (set_dataset (<[Z.to_nat which := ds]> (dataset s)) s), t').
Proof.
  intros He Hw Hbad. unfold create_extensible_dset.
  rewrite assert_run by (unfold NSETS in Hw; lia).
  rewrite assert_run by lia.
  esnprintf_step He.
  rewrite assert_run by (by rewrite Hbad).
  ok_step He. ok_step He. ok_step He.
  match goal with
  | |- context [(do_call ?c ≫= ?k) ?e ?t] =>
      destruct (call_ok_run c k e t He) as (ds & Hds & ->)
  end.
  cbv beta. cbn [failed] in Hds. ok_step He.
  rewrite Hds.
  by eexists _, _.
Qed.

(** The five calls of [create_extensible_dset] in [main]. *)
Lemma create_loop_ok (s : state_t) (e : env_t) (t : trace) :
  never_fails e ->
  dataset s = replicate NSETS badhid ->
  exists (s' : state_t) (t' : trace),
    for_range NSETS 0 (fun which s => create_extensible_dset s which) s e t
      = (Ret s', t') /\ same_config s s'.
Proof.
  intros He Hds.
  cbn [for_range NSETS].
  rewrite bind_run.
  destruct (create_extensible_dset_ok s 0 e t He) as (d0 & t0 & ->);
    [unfold NSETS; lia|by rewrite Hds|].
  rewrite bind_run.
  destruct (create_extensible_dset_ok
              (set_dataset (<[Z.to_nat 0:=d0]> (dataset s)) s) (0 + 1) e t0 He)
    as (d1 & t1 & ->); [unfold NSETS; lia|by rewrite Hds|].
  rewrite bind_run.
  match goal with
  | |- context [create_extensible_dset ?s1 ?w e ?t1] =>
      destruct (create_extensible_dset_ok s1 w e t1 He) as (d2 & t2 & ->);
        [unfold NSETS; lia|cbn; by rewrite Hds|]
  end.
  rewrite bind_run.
  match goal with
  | |- context [create_extensible_dset ?s1 ?w e ?t1] =>
      destruct (create_extensible_dset_ok s1 w e t1 He) as (d3 & t3 & ->);
        [unfold NSETS; lia|cbn; by rewrite Hds|]
  end.
  rewrite bind_run.
  match goal with
  | |- context [create_extensible_dset ?s1 ?w e ?t1] =>
      destruct (create_extensible_dset_ok s1 w e t1 He) as (d4 & t4 & ->);
        [unfold NSETS; lia|cbn; by rewrite Hds|]
  end.
  eexists _, _. split; [reflexivity|]. done.
Qed.

Lemma state_init_returns (v0 : Z) (argv0 : string) (args : list string)
    (e : env_t) (t : trace) :
  never_fails e ->
  (getopt_all optstring args).2 = [] ->
  is_Ret (state_opts (getopt_all optstring args).1
            (set_progname (basename argv0) ALL_HID_INITIALIZER, v0)) ->
  is_Ret (state_init v0 argv0 args e t).1.
Proof.
  intros He Hops Hopts. unfold state_init.
  esnprintf_step He. esnprintf_step He.
  destruct (getopt_all optstring args) as [gs operands].
  cbn [fst snd] in Hops, Hopts. subst operands.
  rewrite bind_run. unfold lift.
  destruct (state_opts gs _) as [[s v]| | |]; try done.
  cbn [length]. replace (0 <? 0)%nat with false by done.
  cbv beta iota zeta. ok_step He. esnprintf_step He. done.
Qed.

(** When no call fails, a writer whose options were accepted and which has
    at most 255 steps to make in one dimension, or 127 in two, runs to its
    end. *)
Lemma main_completes (v0 : Z) (argv0 : string) (args : list string)
    (e : env_t) (t t0 : trace) (s : state_t) (v : Z) :
  never_fails e ->
  state_init v0 argv0 args e t = (Ret (s, v), t0) ->
  nsteps s <= (if two_dee s then 127 else 255) ->
  (main v0 argv0 args e t).1 = Ret EXIT_SUCCESS.
Proof.
  intros He Hinit Hn.
  destruct (state_init_Ret _ _ _ _ _ _ _ _ Hinit)
    as (_ & _ & _ & _ & Hn0 & Hds & _).
  unfold main. rewrite bind_run, Hinit.
  ok_step He. ok_step He. ok_step He. ok_step He. ok_step He. ok_step He.
  rewrite bind_run.
  match goal with
  | |- context [for_range NSETS 0 _ ?s1 e ?t1] =>
      destruct (create_loop_ok s1 e t1 He Hds)
        as (s' & t' & -> & Htd & Hns & _)
  end.
  cbn [two_dee nsteps set_file] in Htd, Hns.
  rewrite bind_run.
  pose proof (write_epochs_ok s' ∅ e t' He) as Hep.
  rewrite Htd, Hns in Hep. specialize (Hep ltac:(lia)).
  destruct (write_epochs s' ∅ e t') as [[mat| | |] t1]; try done.
  rewrite bind_run.
  destruct (use_vfd_swmr s' && wait_for_signal s').
  - unfold do_call at 1. cbv zeta beta iota.
    ok_step He. ok_step He. ok_step He. ok_step He. ok_step He. done.
  - unfold mret at 1, M_ret, ret. cbv beta iota.
    ok_step He. ok_step He. ok_step He. ok_step He. ok_step He. done.
Qed.

(** In particular with a library in which every call returns a positive
    value. *)
Lemma main_returns (v0 : Z) (argv0 : string) (args : list string)
    (e : env_t) (t t0 : trace) (s : state_t) (v : Z) :
  env_ok e ->
  state_init v0 argv0 args e t = (Ret (s, v), t0) ->
  nsteps s <= (if two_dee s then 127 else 255) ->
  (main v0 argv0 args e t).1 = Ret EXIT_SUCCESS.
Proof. intros He. apply main_completes. by apply env_ok_never_fails. Qed.

Example main_returns_example :
  (main 2 "w" ["-d"; "2"; "-n"; "100"; "-W"] (fun _ _ => 7) []).1
    = Ret EXIT_SUCCESS.
Proof.
  eapply main_returns; [by intros t c|vm_compute; reflexivity|].
  vm_compute. discriminate.
Qed.

Lemma env_succeed_never_fails : never_fails env_succeed.
Proof. intros t c. by destruct c. Qed.

(** At step 255 in one dimension the call for dataset 1 sets the extent,
    gets the dataspace and is then stopped by the assertion of
    [init_matrix], before anything is written. *)
Lemma write_extensible_dset_aborts (s : state_t) (mat : matrix) (e : env_t)
    (t : trace) :
  never_fails e ->
  two_dee s = false ->
  exists r fs : Z,
    write_extensible_dset s 1 255 mat e t =
      (Abort,
       t ++ [(H5Dset_extent (dataset s !!! 1%nat) [65536; 512], r);
             (H5Dget_space (dataset s !!! 1%nat), fs)]) /\
    0 <= r.
Proof.
  intros He H2d. unfold write_extensible_dset.
  rewrite assert_run by reflexivity. cbv zeta. rewrite H2d.
  ok_step He. ok_step He.
  exists r, r0. split; [|lia].
  rewrite bind_run. unfold init_and_write_chunk. rewrite bind_run.
  change (mul64 (original_dims !!! 0%nat) 255) with 65280.
  destruct init_matrix_step_255 as (_ & _ & Hnone).
  rewrite Hnone. cbn [assert_some lift].
  change (Z.to_nat 1) with 1%nat.
  rewrite <- app_assoc. reflexivity.
Qed.


Lemma chunk_ok_0 (b : base_t) : chunk_ok 0 b.
Proof.
  intros row col _ _. unfold init_assert, sub64, wrap64.
  apply Z.leb_le. apply Z.mod_pos_bound. lia.
Qed.

Lemma for_range_split {S : Type} (body : Z -> S -> M S) (e : env_t)
    (n m : nat) :
  forall (i : Z) (s s' : S) (t t' : trace),
    for_range n i body s e t = (Ret s', t') ->
    for_range (n + m) i body s e t =
      for_range m (i + Z.of_nat n) body s' e t'.
Proof.
  induction n as [|n IH]; intros i s s' t t' H.
  - cbn in H. injection H as <- <-. cbn [Nat.add].
    by replace (i + Z.of_nat 0) with i by lia.
  - cbn [for_range Nat.add] in *. rewrite bind_run in *.
    destruct (body i s e t) as [[s1| | |] t1]; try discriminate H.
    rewrite (IH _ _ _ _ _ H). f_equal. lia.
Qed.

(** With more than 255 steps in one dimension the epoch loops are stopped
    by the assertion of [init_matrix] at step 255, dataset 1, although no
    call fails. *)
Lemma write_epochs_aborts (s : state_t) (mat : matrix) (e : env_t)
    (t : trace) :
  never_fails e ->
  two_dee s = false -> 255 < nsteps s ->
  (write_epochs s mat e t).1 = Abort.
Proof.
  intros He H2d Hn. unfold write_epochs.
  replace (Z.to_nat (nsteps s))
    with (255 + Datatypes.S (Z.to_nat (nsteps s) - 256))%nat by lia.
  set (body := fun (step : Z) (mat : matrix) =>
                 for_range NSETS 0
                   (fun which mat =>
                      mat ← write_extensible_dset s which step mat;
                      _ ← do_call (nanosleep (tv_sec (update_interval s))
                                     (tv_nsec (update_interval s)));
                      mret mat) mat).
  destruct (for_range_ok body e (fun _ => True) 255 0 mat t I)
    as (mat1 & t1 & Hrun & _).
  { intros step mat0 t0 Hstep _. subst body. cbv beta.
    apply for_range_ok; [done|].
    intros which mat2 t2 Hwhich _.
    destruct (write_step_ok s which step mat2 e t2 He) as (mat3 & t3 & ->);
      [lia|unfold UINT_MAX; lia| |by eexists _, _].
    apply epoch_chunks_ok; [lia|rewrite H2d; lia]. }
  rewrite (for_range_split body e 255 _ 0 mat mat1 t t1 Hrun).
  change (0 + Z.of_nat 255) with 255.
  cbn [for_range]. rewrite bind_run.
  unfold body at 1. cbn [for_range NSETS]. rewrite bind_run.
  destruct (write_step_ok s 0 255 mat1 e t1 He) as (mat2 & t2 & ->);
    [unfold NSETS; lia|unfold UINT_MAX; lia| |].
  { rewrite H2d. apply Forall_cons_2; [apply chunk_ok_0|apply Forall_nil_2]. }
  rewrite !bind_run.
  change (0 + 1) with 1.
  destruct (write_extensible_dset_aborts s mat2 e t2 He H2d)
    as (r & fs & -> & _).
  reflexivity.
Qed.

(** *** [main] when no call fails *)

(** When no call fails, [main] gets through the setup and creates the five
    datasets; what is left of it is run from the history [t0 ++ d1 ++ dc]. *)
Lemma main_reaches_epochs (v0 : Z) (argv0 : string) (args : list string)
    (e : env_t) (s : state_t) (v : Z) (t0 : trace) :
  never_fails e ->
  state_init v0 argv0 args e [] = (Ret (s, v), t0) ->
  exists (d1 dc : trace) (s' : state_t) (fapl fcpl : hid_t),
    all_in PSetup d1 /\ all_in PCreate dc /\
    (forall sp ch, created sp ch dc = expected_datasets (two_dee s)) /\
    (two_dee s' = two_dee s /\ nsteps s' = nsteps s /\
     use_vfd_swmr s' = use_vfd_swmr s /\
     wait_for_signal s' = wait_for_signal s) /\
    main v0 argv0 args e [] = main_from_epochs s' fapl fcpl e (t0 ++ d1 ++ dc).
Proof.
  intros He Hinit.
  destruct (state_init_Ret _ _ _ _ _ _ _ _ Hinit)
    as (_ & _ & _ & _ & Hn0 & Hds & _).
  unfold main. rewrite bind_run, Hinit.
  ok_step He. ok_step He. ok_step He. ok_step He. ok_step He. ok_step He.
  rewrite <- !app_assoc. cbn [app].
  match goal with
  | |- context [t0 ++ ?l] => set (d1 := l) in *
  end.
  assert (Hd1 : all_in PSetup d1).
  { subst d1. repeat (apply Forall_cons_2; [reflexivity|]). apply Forall_nil_2. }
  clearbody d1.
  rewrite bind_run.
  destruct (create_loop_ok (set_file r3 s) e (t0 ++ d1) He Hds)
    as (s' & t' & Hrun & Hcfg).
  destruct (create_loop_run (set_file r3 s) e (t0 ++ d1))
    as (dc & Hdc & Hin & _ & Hret).
  rewrite Hrun in Hdc, Hret. cbn [fst snd] in Hdc, Hret.
  destruct (Hret s' eq_refl) as [Hcr _].
  rewrite Hrun. subst t'.
  exists d1, dc, s', r0, r1.
  split; [done|]. split; [done|]. split; [exact Hcr|].
  split.
  { destruct Hcfg as (H1 & H2 & _ & H4 & H5 & _).
    cbn in H1, H2, H4, H5. done. }
  rewrite <- app_assoc. reflexivity.
Qed.

Lemma emits_weaken {A : Type} (P Q : call -> bool) (m : M A) :
  (forall c, P c = true -> Q c = true) -> emits P m -> emits Q m.
Proof.
  intros HPQ Hm. eapply hoare_conseq; [exact Hm|].
  intros o d Hd. by apply (all_calls_impl P Q).
Qed.

Lemma emits_main_from_epochs (s : state_t) (fapl fcpl : hid_t) :
  emits (fun c => in_phase PEpochs c || in_phase PAwait c || in_phase PClose c)
    (main_from_epochs s fapl fcpl).
Proof.
  unfold main_from_epochs.
  apply emits_bind.
  { eapply emits_weaken; [|apply emits_write_epochs]. by intros c ->. }
  intros _. repeat emits_step.
Qed.

(** With more than 255 steps in one dimension and no call failing, [main]
    is stopped by the assertion of [init_matrix] in the epoch loops: it
    makes no call of the wait or of the close. *)
Lemma main_aborts (v0 : Z) (argv0 : string) (args : list string)
    (e : env_t) (s : state_t) (v : Z) (t0 : trace) :
  never_fails e ->
  state_init v0 argv0 args e [] = (Ret (s, v), t0) ->
  two_dee s = false -> 255 < nsteps s ->
  (main v0 argv0 args e []).1 = Abort /\
  all_calls (fun c => in_phase PInit c || in_phase PSetup c
                      || in_phase PCreate c || in_phase PEpochs c)
    (main v0 argv0 args e []).2.
Proof.
  intros He Hinit H2d Hn.
  destruct (main_reaches_epochs _ _ _ _ _ _ _ He Hinit)
    as (d1 & dc & s' & fapl & fcpl & Hd1 & Hdc & _ & (Htd & Hns & _) & ->).
  assert (Hin0 : all_in PInit t0).
  { destruct (emits_state_init v0 argv0 args e []) as (d & Hd & Hin).
    rewrite Hinit in Hd. simpl in Hd. by subst t0. }
  unfold main_from_epochs. rewrite bind_run.
  pose proof (write_epochs_aborts s' ∅ e (t0 ++ d1 ++ dc) He
                ltac:(by rewrite Htd) ltac:(by rewrite Hns)) as Hab.
  destruct (emits_write_epochs s' ∅ e (t0 ++ d1 ++ dc)) as (d3 & Hd3 & Hin3).
  destruct (write_epochs s' ∅ e (t0 ++ d1 ++ dc)) as [o t3].
  cbn [fst snd] in *. subst o t3. split; [reflexivity|].
  repeat apply all_calls_app;
    (eapply all_calls_impl; [|eassumption]); intros c ->;
    by rewrite ?orb_true_r.
Qed.

(** When no call fails the five datasets are created, however the run
    ends. *)
Lemma main_creates_all (v0 : Z) (argv0 : string) (args : list string)
    (e : env_t) (s : state_t) (v : Z) (t0 : trace) :
  never_fails e ->
  state_init v0 argv0 args e [] = (Ret (s, v), t0) ->
  created ∅ ∅ (main v0 argv0 args e []).2 = expected_datasets (two_dee s).
Proof.
  intros He Hinit.
  destruct (main_reaches_epochs _ _ _ _ _ _ _ He Hinit)
    as (d1 & dc & s' & fapl & fcpl & Hd1 & Hdc & Hcr & _ & ->).
  assert (Hin0 : all_in PInit t0).
  { destruct (emits_state_init v0 argv0 args e []) as (d & Hd & Hin).
    rewrite Hinit in Hd. simpl in Hd. by subst t0. }
  destruct (emits_main_from_epochs s' fapl fcpl e (t0 ++ d1 ++ dc))
    as (rest & -> & Hrest).
  assert (Hnb : all_calls (fun c => negb (is_H5Dcreate2 c)) (t0 ++ d1)).
  { apply all_calls_app; [by apply (created_phase PInit)|
                          by apply (created_phase PSetup)]. }
  assert (Hna : all_calls (fun c => negb (is_H5Dcreate2 c)) rest).
  { eapply Forall_impl; [exact Hrest|]. intros [c r] Hc. simpl in *.
    by destruct c. }
  replace ((t0 ++ d1 ++ dc) ++ rest) with ((t0 ++ d1) ++ dc ++ rest)
    by (by rewrite <- !app_assoc).
  destruct (created_app (t0 ++ d1) (dc ++ rest) ∅ ∅) as (sp & ch & ->).
  rewrite (created_none _ Hnb). cbn [app].
  destruct (created_app dc rest sp ch) as (sp' & ch' & ->).
  by rewrite Hcr, (created_none _ Hna), app_nil_r.
Qed.

(** *** [strtoul] on decimal numerals *)

Lemma strtoul_digits_dec (cs : list ascii) :
  forall (acc : Z) (n : nat),
    forallb is_dec_digit cs = true ->
    strtoul_digits 10 cs acc n = (dec_value_from acc cs, (n + length cs)%nat).
Proof.
  induction cs as [|c cs IH]; intros acc n Hcs; simpl.
  - by rewrite Nat.add_0_r.
  - simpl in Hcs. apply andb_true_iff in Hcs as [Hc Hcs].
    unfold is_dec_digit in Hc. unfold digit_val. cbv zeta in Hc.
    rewrite Hc.
    assert (Hlt : (Z.of_N (N_of_ascii c) - 48 <? 10) = true) by lia.
    rewrite Hlt, IH by done. f_equal. lia.
Qed.

Lemma dec_value_from_nonneg (cs : list ascii) :
  forall acc : Z,
    forallb is_dec_digit cs = true -> 0 <= acc -> 0 <= dec_value_from acc cs.
Proof.
  induction cs as [|c cs IH]; intros acc Hcs Hacc; simpl; [done|].
  simpl in Hcs. apply andb_true_iff in Hcs as [Hc Hcs].
  apply IH; [done|]. unfold is_dec_digit in Hc. lia.
Qed.

Lemma strtoul_numeral (cs : list ascii) :
  is_numeral cs = true ->
  strtoul (string_of_list_ascii cs) =
    (if ULONG_MAX <? dec_value cs then ULONG_MAX else dec_value cs,
     length cs,
     if ULONG_MAX <? dec_value cs then ERANGE else 0).
Proof.
  destruct cs as [|c cs]; [done|]. intros H. simpl in H.
  apply andb_true_iff in H as [H Hcs]. apply andb_true_iff in H as [Hc H0].
  unfold strtoul. rewrite list_ascii_of_string_of_list_ascii.
  unfold dec_value.
  destruct c as [[] [] [] [] [] [] [] []]; try discriminate Hc;
    try discriminate H0; clear Hc H0;
    cbn [skip_space];
    match goal with
    | |- context [isspace ?c] => change (isspace c) with false
    end;
    cbn [drop]; cbv beta iota zeta;
    (rewrite (strtoul_digits_dec _ 0 0%nat) by (simpl; exact Hcs));
    cbn [length Nat.add];
    by destruct (ULONG_MAX <? _).
Qed.

Lemma length_string_of_list_ascii (cs : list ascii) :
  String.length (string_of_list_ascii cs) = length cs.
Proof. induction cs as [|c cs IH]; simpl; congruence. Qed.




Lemma state_opt_n (s : state_t) (v : Z) (a : string) :
  state_opt (s, v) (GOpt "n" (Some a)) =
    if negb ((strtoul a).1.2 =? 0)%nat
       && ((strtoul a).1.2 =? String.length a)%nat
       && ((strtoul a).2 =? 0) && ((strtoul a).1.1 <=? UINT_MAX)
    then Ret (set_nsteps (strtoul a).1.1 s, v)
    else Exit EXIT_FAILURE.
Proof.
  pose proof (strtoul_range a) as Hrange.
  cbn. destruct (strtoul a) as [[tmp end_] errno]. cbn in *.
  destruct (end_ =? 0)%nat; [done|].
  destruct (end_ =? String.length a)%nat; [|done]. cbn.
  destruct (errno =? 0); [|done]. cbn.
  destruct (UINT_MAX <? tmp) eqn:Hmax.
  - assert (H : (tmp <=? UINT_MAX) = false) by lia. by rewrite H.
  - assert (H : (tmp <=? UINT_MAX) = true) by lia. rewrite H.
    unfold wrap32, UINT_MAX in *. rewrite Z.mod_small by lia. done.
Qed.

Lemma state_opt_u (s : state_t) (v : Z) (a : string) :
  state_opt (s, v) (GOpt "u" (Some a)) =
    if ((strtoul a).1.1 =? ULONG_MAX) && ((strtoul a).2 =? ERANGE)
       || negb ((strtoul a).1.2 =? String.length a)%nat
    then Exit EXIT_FAILURE
    else Ret (set_update_interval (interval_of_millis (strtoul a).1.1) s, v).
Proof.
  cbn. destruct (strtoul a) as [[millis end_] errno]. cbn.
  destruct ((millis =? ULONG_MAX) && (errno =? ERANGE)); [done|].
  by destruct (end_ =? String.length a)%nat.
Qed.

(** *** The group API *)

(** C8.  With a null or empty [name], [H5Gcreate2] and [H5Gopen2] return a
    negative identifier, and the calls they make include none that creates,
    opens or registers a group. *)
Theorem H5G_no_name_fails (g : genv) (t : gtrace) (loc_id : hid_t)
    (name : option string) (lcpl_id gcpl_id gapl_id : hid_t) :
  name = None \/ name = Some ""%string ->
  ((H5Gcreate2 loc_id name lcpl_id gcpl_id gapl_id g t).1 < 0 /\
   exists d : gtrace,
     (H5Gcreate2 loc_id name lcpl_id gcpl_id gapl_id g t).2 = t ++ d /\
     Forall (fun c => makes_group c = false) d) /\
  ((H5Gopen2 loc_id name gapl_id g t).1 < 0 /\
   exists d : gtrace,
     (H5Gopen2 loc_id name gapl_id g t).2 = t ++ d /\
     Forall (fun c => makes_group c = false) d).
Proof.
  intros Hname.
  assert (Hno : no_name name = true) by (by destruct Hname as [-> | ->]).
  split.
  - unfold H5Gcreate2, mbind, GM_bind, the_env, gdo, herror. cbn.
    destruct (enter_api g t); cbn.
    + destruct (loc_of g (t ++ [FUNC_ENTER_API]) loc_id) as [loc|]; cbn.
      * rewrite Hno. cbn. split; [done|].
        exists [FUNC_ENTER_API; H5G_loc loc_id; HERROR "no name"].
        rewrite <- !app_assoc. split; [done|]. by repeat constructor.
      * split; [done|].
        exists [FUNC_ENTER_API; H5G_loc loc_id; HERROR "not a location"].
        rewrite <- !app_assoc. split; [done|]. by repeat constructor.
    + split; [done|].
      exists [FUNC_ENTER_API; HERROR "library initialization failed"].
      rewrite <- !app_assoc. split; [done|]. by repeat constructor.
  - unfold H5Gopen2, mbind, GM_bind, the_env, gdo, herror. cbn.
    destruct (enter_api g t); cbn.
    + destruct (loc_of g (t ++ [FUNC_ENTER_API]) loc_id) as [loc|]; cbn.
      * rewrite Hno. cbn. split; [done|].
        exists [FUNC_ENTER_API; H5G_loc loc_id; HERROR "no name"].
        rewrite <- !app_assoc. split; [done|]. by repeat constructor.
      * split; [done|].
        exists [FUNC_ENTER_API; H5G_loc loc_id; HERROR "not a location"].
        rewrite <- !app_assoc. split; [done|]. by repeat constructor.
    + split; [done|].
      exists [FUNC_ENTER_API; HERROR "library initialization failed"].
      rewrite <- !app_assoc. split; [done|]. by repeat constructor.
Qed.

Lemma H5G_no_name_fails_witness :
  (Some ""%string = None \/ Some ""%string = Some ""%string) /\
  ((H5Gcreate2 1 (Some ""%string) 0 0 0 genv_example []).1 < 0 /\
   exists d : gtrace,
     (H5Gcreate2 1 (Some ""%string) 0 0 0 genv_example []).2 = [] ++ d /\
     Forall (fun c => makes_group c = false) d) /\
  ((H5Gopen2 1 (Some ""%string) 0 genv_example []).1 < 0 /\
   exists d : gtrace,
     (H5Gopen2 1 (Some ""%string) 0 genv_example []).2 = [] ++ d /\
     Forall (fun c => makes_group c = false) d).
Proof.
  split; [by right|].
  apply (H5G_no_name_fails genv_example [] 1 (Some ""%string) 0 0 0).
  right; reflexivity.
Defined.

(** With a name, the same calls do create, and open, a group. *)
Example H5Gcreate2_named :
  H5Gcreate2 1 (Some "g"%string) 0 0 0 genv_example [] =
    (57,
     [FUNC_ENTER_API; H5G_loc 1;
      H5P_verify_apl_and_dxpl 0 H5P_CLS_GACC 103 1 true;
      H5G__create_named 1001 "g" 101 102 0 103;
      H5I_register H5I_GROUP 7 true]) /\
  H5Gopen2 2 (Some "g"%string) 0 genv_example [] =
    (58,
     [FUNC_ENTER_API; H5G_loc 2;
      H5P_verify_apl_and_dxpl 0 H5P_CLS_GACC 103 2 false;
      H5G__open_name 1002 "g" 0 103;
      H5I_register H5I_GROUP 8 true]).
Proof. split; reflexivity. Qed.

(** C10.  [H5Gget_info] returns [SUCCEED] or [FAIL].  It fails, leaves the
    structure as it was and does not call [H5G__obj_info] when the
    identifier is neither a group nor a file, and when the pointer is null;
    an identifier that is a group or a file passes the check, its location
    is taken from [H5G_loc], and when that and [H5G__obj_info] succeed the
    call succeeds with the information stored in the structure. *)
Theorem H5Gget_info_checks (g : genv) (t : gtrace) (grp_id : hid_t)
    (grp_info : option H5G_info_t) :
  let run := H5Gget_info grp_id grp_info g t in
  let id_type := get_type g (t ++ [FUNC_ENTER_API]) grp_id in
  let h := t ++ [FUNC_ENTER_API; H5I_get_type grp_id] in
  (run.1.1 = SUCCEED \/ run.1.1 = FAIL) /\
  FAIL < 0 /\
  (id_type <> H5I_GROUP -> id_type <> H5I_FILE ->
   run.1 = (FAIL, grp_info) /\
   exists d, run.2 = t ++ d /\ Forall (fun c => is_obj_info c = false) d) /\
  (grp_info = None ->
   run.1 = (FAIL, None) /\
   exists d, run.2 = t ++ d /\ Forall (fun c => is_obj_info c = false) d) /\
  (forall (old : H5G_info_t) (loc : H5G_loc_t),
      enter_api g t = true ->
      id_type = H5I_GROUP \/ id_type = H5I_FILE ->
      grp_info = Some old ->
      loc_of g h grp_id = Some loc ->
      0 <= (obj_info g (h ++ [H5G_loc grp_id]) loc (H5AC_ind_read_dxpl_id g)).1 ->
      run.1 =
        (SUCCEED,
         Some (obj_info g (h ++ [H5G_loc grp_id]) loc
                 (H5AC_ind_read_dxpl_id g)).2) /\
      run.2 = h ++ [H5G_loc grp_id; H5G__obj_info loc (H5AC_ind_read_dxpl_id g)]).
Proof.
  intros run id_type h. subst run h id_type.
  unfold H5Gget_info, mbind, GM_bind, the_env, gdo, herror. cbn.
  split; [|split; [done|split; [|split]]].
  - destruct (enter_api g t); cbn; [|right; reflexivity].
    generalize (get_type g (t ++ [FUNC_ENTER_API]) grp_id). intros id_type.
    destruct id_type; cbn; try (right; reflexivity);
      (destruct grp_info as [old|]; cbn; [|right; reflexivity]);
      (destruct (loc_of g _ grp_id) as [loc|]; cbn; [|right; reflexivity]);
      (destruct (_ <? 0); cbn; [right; reflexivity|left; reflexivity]).
  - destruct (enter_api g t); cbn.
    + generalize (get_type g (t ++ [FUNC_ENTER_API]) grp_id). intros id_type.
      intros Hg Hf.
      destruct id_type; try done; cbn; (split; [done|]);
        (exists [FUNC_ENTER_API; H5I_get_type grp_id; HERROR "invalid argument"]);
        rewrite <- !app_assoc; (split; [done|]); by repeat constructor.
    + intros _ _. split; [done|].
      exists [FUNC_ENTER_API; HERROR "library initialization failed"].
      rewrite <- !app_assoc. split; [done|]. by repeat constructor.
  - intros ->. destruct (enter_api g t); cbn.
    + generalize (get_type g (t ++ [FUNC_ENTER_API]) grp_id). intros id_type.
      destruct id_type; cbn; (split; [done|]);
        try (exists [FUNC_ENTER_API; H5I_get_type grp_id;
                     HERROR "invalid argument"];
             rewrite <- !app_assoc; (split; [done|]); by repeat constructor);
        (exists [FUNC_ENTER_API; H5I_get_type grp_id; HERROR "no info struct"]);
        rewrite <- !app_assoc; (split; [done|]); by repeat constructor.
    + split; [done|].
      exists [FUNC_ENTER_API; HERROR "library initialization failed"].
      rewrite <- !app_assoc. split; [done|]. by repeat constructor.
  - intros old loc Hok Hty -> Hloc Hinfo. rewrite Hok. cbn.
    rewrite <- !app_assoc in *. cbn in *.
    destruct Hty as [-> | ->]; cbn; rewrite Hloc; cbn;
      rewrite <- !app_assoc; cbn [app];
      (destruct (_ <? 0) eqn:Hneg; [lia|]); cbn;
      by rewrite <- ?app_assoc.
Qed.

(** A file identifier and a group identifier are both served; a dataset
    identifier is refused, and so is a null pointer. *)
Example H5Gget_info_example :
  (H5Gget_info 1 (Some (mk_H5G_info 9 9 9 true)) genv_example []).1 =
    (SUCCEED, Some (mk_H5G_info 0 1001 0 false)) /\
  (H5Gget_info 2 (Some (mk_H5G_info 9 9 9 true)) genv_example []).1 =
    (SUCCEED, Some (mk_H5G_info 0 1002 0 false)) /\
  H5Gget_info 3 (Some (mk_H5G_info 9 9 9 true)) genv_example [] =
    (FAIL, Some (mk_H5G_info 9 9 9 true),
     [FUNC_ENTER_API; H5I_get_type 3; HERROR "invalid argument"]) /\
  H5Gget_info 2 None genv_example [] =
    (FAIL, None, [FUNC_ENTER_API; H5I_get_type 2; HERROR "no info struct"]).
Proof. repeat split; reflexivity. Qed.

(** *** Refresh *)

Lemma refresh_idempotent (pub : published) (rd rd1 : reader_snapshot) :
  refresh pub rd = Refreshed rd1 -> refresh pub rd1 = Refreshed rd1.
Proof.
  unfold refresh. intros H.
  destruct (rd_tick rd <? ix_tick (pub_index pub))%N eqn:Hlt.
  - destruct (pub_window pub <? _)%N; [discriminate|].
    injection H as <-. simpl. by rewrite N.ltb_irrefl.
  - injection H as <-. by rewrite Hlt.
Qed.

(** C3.  When [H5Grefresh] has succeeded on a group identifier and the
    writer has published nothing since, a second [H5Grefresh] succeeds too
    and leaves the reader's snapshot as the first left it: the observed tick
    and the content of every page fetched are the same. *)
Theorem H5Grefresh_idempotent (env : reader_env) (group_id : hid_t)
    (pub : published) (rd rd1 : reader_snapshot) :
  H5Grefresh env group_id pub rd = (SUCCEED, rd1) ->
  H5Grefresh env group_id pub rd1 = (SUCCEED, rd1) /\
  rd_tick (H5Grefresh env group_id pub rd1).2 = rd_tick rd1 /\
  forall addr : N,
    fetch pub (H5Grefresh env group_id pub rd1).2 addr = fetch pub rd1 addr.
Proof.
  intros H.
  assert (H2 : H5Grefresh env group_id pub rd1 = (SUCCEED, rd1)).
  { unfold H5Grefresh, H5O_refresh_metadata in *.
    destruct (library_ok env); [|discriminate]. simpl in *.
    destruct (object_verify env group_id H5I_GROUP); [|discriminate].
    destruct (refresh pub rd) as [rd'|] eqn:Hr; [|discriminate].
    simpl in H. injection H as <-.
    by rewrite (refresh_idempotent _ _ _ Hr). }
  rewrite H2. by repeat split.
Qed.

Lemma H5Grefresh_idempotent_witness :
  exists rd1 : reader_snapshot,
    H5Grefresh (mk_reader_env true (fun id _ => if id =? 2 then Some 7 else None))
      2 (mk_published (mk_index 5 {[ 4096%N := (5%N, 0%N) ]})
           {[ 0%N := [1; 2; 3] ]} 8)
      (mk_reader 3 (mk_index 3 ∅) ∅) = (SUCCEED, rd1) /\
    rd_tick rd1 = 5%N /\
    H5Grefresh (mk_reader_env true (fun id _ => if id =? 2 then Some 7 else None))
      2 (mk_published (mk_index 5 {[ 4096%N := (5%N, 0%N) ]})
           {[ 0%N := [1; 2; 3] ]} 8) rd1 = (SUCCEED, rd1).
Proof.
  eexists. split; [reflexivity|]. split; [reflexivity|].
  eapply (H5Grefresh_idempotent
            (mk_reader_env true (fun id _ => if id =? 2 then Some 7 else None))
            2 _ (mk_reader 3 (mk_index 3 ∅) ∅)).
  reflexivity.
Defined.

(** Without wrap-around [init_u] is the value [spec_value] of the global
    coordinates. *)
Lemma init_u_spec_value (b : base_t) (row col : nat) :
  0 <= base.row b -> 0 <= base.col b ->
  base.row b + Z.of_nat row < UINT32_MAX ->
  base.col b + Z.of_nat col < UINT32_MAX ->
  init_u b row col =
    spec_value (base.row b + Z.of_nat row) (base.col b + Z.of_nat col).
Proof.
  intros Hr Hc Hi Hj. unfold init_u, spec_value, UINT32_MAX in *.
  unfold add64, sub64, mul64, wrap64.
  rewrite !(Z.mod_small (base.row b + Z.of_nat row) (2 ^ 64)) by lia.
  rewrite !(Z.mod_small (base.col b + Z.of_nat col) (2 ^ 64)) by lia.
  set (i := base.row b + Z.of_nat row) in *.
  set (j := base.col b + Z.of_nat col) in *.
  assert (Hi0 : 0 <= i) by lia. assert (Hj0 : 0 <= j) by lia.
  destruct (j <=? i) eqn:Hji; [apply Z.leb_le in Hji|apply Z.leb_gt in Hji].
  - rewrite (Z.mod_small (i + 1)) by lia.
    rewrite (Z.mod_small ((i + 1) * (i + 1))) by nia.
    rewrite (Z.mod_small ((i + 1) * (i + 1) - 1)) by nia.
    rewrite Z.mod_small by nia. done.
  - rewrite (Z.mod_small (j * j)) by nia.
    rewrite Z.mod_small by nia. done.
Qed.

(** [spec_value] pairs the naturals: the values on the shell
    [max i j = m] fill [m*m .. (m+1)*(m+1) - 1]. *)
Lemma spec_value_shell (i j : Z) :
  0 <= i -> 0 <= j ->
  Z.max i j * Z.max i j <= spec_value i j < (Z.max i j + 1) * (Z.max i j + 1).
Proof.
  intros Hi Hj. unfold spec_value.
  destruct (j <=? i) eqn:Hji; [apply Z.leb_le in Hji|apply Z.leb_gt in Hji].
  - rewrite Z.max_l by lia. nia.
  - rewrite Z.max_r by lia. nia.
Qed.

Lemma spec_value_injective (i j i' j' : Z) :
  0 <= i -> 0 <= j -> 0 <= i' -> 0 <= j' ->
  spec_value i j = spec_value i' j' -> i = i' /\ j = j'.
Proof.
  intros Hi Hj Hi' Hj' Heq.
  pose proof (spec_value_shell i j Hi Hj) as H1.
  pose proof (spec_value_shell i' j' Hi' Hj') as H2.
  assert (Hm : Z.max i j = Z.max i' j') by nia.
  unfold spec_value in Heq.
  destruct (j <=? i) eqn:Hji; destruct (j' <=? i') eqn:Hji';
    [apply Z.leb_le in Hji|apply Z.leb_le in Hji|
     apply Z.leb_gt in Hji|apply Z.leb_gt in Hji];
    [apply Z.leb_le in Hji'|apply Z.leb_gt in Hji'|
     apply Z.leb_le in Hji'|apply Z.leb_gt in Hji'];
    rewrite ?Z.max_l in Hm by lia; rewrite ?Z.max_r in Hm by lia; nia.
Qed.

(** X1.  The test pattern tells every element of a dataset from every other: two
    in-chunk positions, in the same chunk or not, hold the same [u] only if
    their global coordinates are the same. *)
Theorem init_u_injective (b b' : base_t) (row col row' col' : nat) :
  0 <= base.row b -> 0 <= base.col b ->
  0 <= base.row b' -> 0 <= base.col b' ->
  base.row b + Z.of_nat row < UINT32_MAX ->
  base.col b + Z.of_nat col < UINT32_MAX ->
  base.row b' + Z.of_nat row' < UINT32_MAX ->
  base.col b' + Z.of_nat col' < UINT32_MAX ->
  init_u b row col = init_u b' row' col' ->
  base.row b + Z.of_nat row = base.row b' + Z.of_nat row' /\
  base.col b + Z.of_nat col = base.col b' + Z.of_nat col'.
Proof.
  intros Hr Hc Hr' Hc' Hi Hj Hi' Hj' Heq.
  rewrite !init_u_spec_value in Heq by done.
  apply spec_value_injective in Heq; lia.
Qed.

Lemma init_u_injective_witness :
  base.row (base.mk 256 512) + Z.of_nat 3 =
    base.row (base.mk 0 0) + Z.of_nat 259 /\
  base.col (base.mk 256 512) + Z.of_nat 4 =
    base.col (base.mk 0 0) + Z.of_nat 516.
Proof.
  apply (init_u_injective (base.mk 256 512) (base.mk 0 0) 3 4 259 516);
    vm_compute; congruence.
Defined.

(** X2.  The guard of [init_matrix] stops the writer exactly when [u] fits in 32
    bits and [u + which] does not.  When [u] itself is above [UINT32_MAX] the
    subtraction wraps, the guard passes and the element keeps the low 32 bits of
    [u + which]. *)
Theorem init_cell_abort_iff (which : Z) (b : base_t) (row col : nat) :
  0 <= which <= UINT_MAX ->
  (init_cell which b row col = None <->
   init_u b row col <= UINT32_MAX < init_u b row col + which) /\
  (UINT32_MAX < init_u b row col ->
   init_cell which b row col =
     Some ((init_u b row col + which) mod 2 ^ 32)).
Proof.
  intros Hw. unfold init_cell, init_assert.
  assert (Hu : 0 <= init_u b row col < 2 ^ 64).
  { unfold init_u, add64, sub64, wrap64. cbv zeta.
    destruct (_ <=? _); apply Z.mod_pos_bound; lia. }
  set (u := init_u b row col) in *.
  unfold sub64, add64, wrap64, wrap32, UINT32_MAX, UINT_MAX in *.
  destruct (Z_le_gt_dec u 4294967295) as [Hle|Hgt].
  - rewrite (Z.mod_small (4294967295 - u)) by lia.
    split; [|lia].
    destruct (which <=? 4294967295 - u) eqn:Hc; split; try done; lia.
  - assert (Hwrap : (4294967295 - u) mod 2 ^ 64 = 2 ^ 64 + 4294967295 - u).
    { rewrite <- (Z.mod_add _ 1) by lia. rewrite Z.mod_small; lia. }
    rewrite Hwrap.
    assert (Hc : (which <=? 2 ^ 64 + 4294967295 - u) = true) by lia.
    rewrite Hc. split; [split; [done|lia]|].
    intros _. f_equal.
    rewrite Z.mod_mod_divide; [done|]. exists (2 ^ 32). lia.
Qed.

Lemma init_cell_abort_iff_witness :
  (init_cell 1 (base.mk 65280 0) 255 0 = None <->
   init_u (base.mk 65280 0) 255 0 <= UINT32_MAX
     < init_u (base.mk 65280 0) 255 0 + 1) /\
  (UINT32_MAX < init_u (base.mk 65280 0) 255 0 ->
   init_cell 1 (base.mk 65280 0) 255 0 =
     Some ((init_u (base.mk 65280 0) 255 0 + 1) mod 2 ^ 32)).
Proof.
  apply (init_cell_abort_iff 1 (base.mk 65280 0) 255 0).
  unfold UINT_MAX. lia.
Defined.

(** X3.  [init_matrix] overwrites the whole buffer: whether it runs to its end,
    and what the buffer then holds, does not depend on what the buffer held
    before. *)
Theorem init_matrix_overwrites (mat1 mat2 : matrix) (which : Z) (b : base_t) :
  match init_matrix mat1 which b, init_matrix mat2 which b with
  | Some m1, Some m2 =>
      forall row col : nat,
        (row < ROWS)%nat -> (col < COLS)%nat ->
        is_Some (m1 !! (row, col)) /\ m1 !! (row, col) = m2 !! (row, col)
  | None, None => True
  | _, _ => False
  end.
Proof.
  assert (Hsame : forall ma mb m,
            init_matrix ma which b = Some m ->
            is_Some (init_matrix mb which b)).
  { intros ma mb m Hm. apply init_matrix_total. intros row col Hrow Hcol.
    destruct (init_matrix_cells _ _ _ _ Hm row col Hrow Hcol) as (v & -> & _).
    by eexists. }
  destruct (init_matrix mat1 which b) as [m1|] eqn:H1;
    destruct (init_matrix mat2 which b) as [m2|] eqn:H2.
  - intros row col Hrow Hcol.
    destruct (init_matrix_cells _ _ _ _ H1 row col Hrow Hcol) as (v1 & Hv1 & ->).
    destruct (init_matrix_cells _ _ _ _ H2 row col Hrow Hcol) as (v2 & Hv2 & ->).
    split; [by eexists|congruence].
  - destruct (Hsame mat1 mat2 m1 H1) as [m Hm]. congruence.
  - destruct (Hsame mat2 mat1 m2 H2) as [m Hm]. congruence.
  - done.
Qed.

(** *** The epochs tile the extent *)










(** *** Runs that return *)

Lemma bind_Ret_inv {A B : Type} (m : M A) (k : A -> M B) (e : env_t)
    (t t' : trace) (b : B) :
  (m ≫= k) e t = (Ret b, t') ->
  exists (a : A) (t1 : trace), m e t = (Ret a, t1) /\ k a e t1 = (Ret b, t').
Proof.
  rewrite bind_run. destruct (m e t) as [[a| | |] t1]; try done.
  intros H. by exists a, t1.
Qed.

Lemma call_Ret_inv {B : Type} (c : call) (k : Z -> M B) (e : env_t)
    (t t' : trace) (b : B) :
  (do_call c ≫= k) e t = (Ret b, t') ->
  exists r : Z, k r e (t ++ [(c, r)]) = (Ret b, t').
Proof. intros H. by exists (e t c). Qed.

Ltac ret_fail H :=
  exfalso; cbv [errx lift] in H; discriminate H.

(** One call whose result is tested, in a run that returns. *)
Ltac ret_call H r :=
  apply call_Ret_inv in H as (r & H); cbv beta in H;
  try match type of H with
      | (if ?b then _ else _) _ _ = _ =>
          let Hb := fresh "H" r in
          destruct b eqn:Hb; [ret_fail H|]
      end.

Lemma datasets_of_app (d1 d2 : trace) :
  datasets_of (d1 ++ d2) = datasets_of d1 ++ datasets_of d2.
Proof.
  induction d1 as [|[c r] d1 IH]; [done|].
  destruct c; simpl; try apply IH.
  destruct (0 <=? r); simpl; by rewrite IH.
Qed.






(** What a loop that returns has done, from what each pass has done:
    [R d l] reads the list [l] off the added history [d]. *)
Lemma foldM_Ret_collect {X S B : Type} (body : X -> S -> M S)
    (R : trace -> list B -> Prop) (f : X -> list B) (e : env_t) :
  R [] [] ->
  (forall d1 d2 l1 l2, R d1 l1 -> R d2 l2 -> R (d1 ++ d2) (l1 ++ l2)) ->
  forall (xs : list X),
    (forall x s t s' t',
        x ∈ xs -> body x s e t = (Ret s', t') ->
        exists d, t' = t ++ d /\ R d (f x)) ->
    forall s t s' t',
      foldM body xs s e t = (Ret s', t') ->
      exists d, t' = t ++ d /\ R d (flat_map f xs).
Proof.
  intros Hnil Happ xs. induction xs as [|x xs IH]; intros Hbody s t s' t' Hrun.
  - injection Hrun as <- <-. exists []. by rewrite app_nil_r.
  - cbn [foldM] in Hrun.
    apply bind_Ret_inv in Hrun as (s1 & t1 & Hx & Hrun).
    destruct (Hbody x s t s1 t1 ltac:(left) Hx) as (d1 & -> & HR1).
    destruct (IH (fun y s t s' t' Hy => Hbody y s t s' t' ltac:(by right))
                s1 _ s' t' Hrun) as (d2 & -> & HR2).
    exists (d1 ++ d2). rewrite app_assoc. split; [done|].
    simpl. by apply Happ.
Qed.

(** One pass of the inner loop of [main] that returns. *)
Lemma write_step_Ret (s : state_t) (step : Z) (which : nat) (mat mat' : matrix)
    (e : env_t) (t t' : trace) :
  0 <= step < UINT_MAX -> (which < NSETS)%nat ->
  (mat ← write_extensible_dset s (Z.of_nat which) step mat;
   _ ← do_call (nanosleep (tv_sec (update_interval s))
                  (tv_nsec (update_interval s)));
   mret mat) e t = (Ret mat', t') ->
  exists d : trace,
    t' = t ++ d /\
    all_in PEpochs d /\
    extents d = [(dataset s !!! which, epoch_extent (two_dee s) step)] /\
    forall sel,
      chunk_writes sel d =
        map (fun b => (dataset s !!! which, Some [base.row b; base.col b]))
          (epoch_bases (two_dee s) step).
Proof.
  intros Hstep Hwhich Hrun.
  apply bind_Ret_inv in Hrun as (mat1 & t1 & Hw & Hrun).
  apply call_Ret_inv in Hrun as (r & Hrun). injection Hrun as <- <-.
  destruct (write_extensible_dset_run s (Z.of_nat which) step mat e t
              ltac:(lia) Hstep)
    as (d & written & Hd & _ & _ & Hcw & _ & Hret).
  destruct (emits_write_extensible_dset s (Z.of_nat which) step mat e t)
    as (d' & Hd' & Hin).
  rewrite Hw in Hd, Hret, Hd'. cbn [fst snd] in *.
  rewrite Hd in Hd'. apply app_inv_head in Hd'. subst d' t1.
  destruct Hret as (_ & Hext & ->).
  rewrite Nat2Z.id in *.
  exists (d ++ [(nanosleep (tv_sec (update_interval s))
                   (tv_nsec (update_interval s)), r)]).
  rewrite app_assoc. split; [done|]. split; [|split].
  - apply Forall_app. split.
    + eapply all_calls_impl; [|exact Hin].
      intros c Hc. by apply andb_true_iff in Hc as [Hc _].
    + apply Forall_cons_2; [done|]. apply Forall_nil_2.
  - rewrite extents_app, Hext. done.
  - intros sel. destruct (chunk_writes_app d [(nanosleep (tv_sec (update_interval s))
                   (tv_nsec (update_interval s)), r)] sel) as [sel' ->].
    rewrite Hcw. simpl. by rewrite app_nil_r.
Qed.

Lemma for_range_Ret_collect {S B : Type} (body : Z -> S -> M S)
    (R : trace -> list B -> Prop) (f : nat -> list B) (e : env_t) (n : nat) :
  R [] [] ->
  (forall d1 d2 l1 l2, R d1 l1 -> R d2 l2 -> R (d1 ++ d2) (l1 ++ l2)) ->
  (forall (j : nat) s t s' t',
      (j < n)%nat -> body (Z.of_nat j) s e t = (Ret s', t') ->
      exists d, t' = t ++ d /\ R d (f j)) ->
  forall s t s' t',
    for_range n 0 body s e t = (Ret s', t') ->
    exists d, t' = t ++ d /\ R d (flat_map f (seq 0 n)).
Proof.
  intros Hnil Happ Hbody s t s' t' Hrun.
  rewrite for_range_foldM in Hrun. rewrite <- foldM_map in Hrun.
  apply (foldM_Ret_collect _ R f e Hnil Happ (seq 0 n)) in Hrun; [done|].
  intros j s1 t1 s2 t2 Hj Hb. apply elem_of_seq in Hj.
  apply (Hbody j s1 t1 s2 t2); [lia|]. by rewrite Z.add_0_l in Hb.
Qed.

Lemma flat_map_singleton {X Y : Type} (g : X -> Y) (xs : list X) :
  flat_map (fun x => [g x]) xs = map g xs.
Proof. induction xs as [|x xs IH]; simpl; congruence. Qed.

(** The epoch loops of a run that returns. *)
Lemma write_epochs_Ret (s : state_t) (mat mat' : matrix) (e : env_t)
    (t t' : trace) :
  0 <= nsteps s <= UINT_MAX ->
  write_epochs s mat e t = (Ret mat', t') ->
  exists d : trace,
    t' = t ++ d /\
    all_in PEpochs d /\
    extents d = run_extents (two_dee s) (dataset s) (Z.to_nat (nsteps s)) /\
    forall sel,
      chunk_writes sel d =
        run_writes (two_dee s) (dataset s) (Z.to_nat (nsteps s)).
Proof.
  intros Hn Hrun. unfold write_epochs in Hrun.
  pose (R1 := fun (d : trace) (l : list (hid_t * list Z)) =>
                all_in PEpochs d /\ extents d = l).
  pose (R2 := fun (d : trace) (l : list (hid_t * option (list Z))) =>
                forall sel, chunk_writes sel d = l).
  assert (HR1n : R1 [] []) by (split; [apply Forall_nil_2|done]).
  assert (HR1a : forall d1 d2 l1 l2,
            R1 d1 l1 -> R1 d2 l2 -> R1 (d1 ++ d2) (l1 ++ l2)).
  { intros d1 d2 l1 l2 [Hi1 H1] [Hi2 H2]. split; [by apply Forall_app|].
    rewrite extents_app. congruence. }
  assert (HR2n : R2 [] []) by done.
  assert (HR2a : forall d1 d2 l1 l2,
            R2 d1 l1 -> R2 d2 l2 -> R2 (d1 ++ d2) (l1 ++ l2)).
  { intros d1 d2 l1 l2 H1 H2 sel.
    destruct (chunk_writes_app d1 d2 sel) as [sel' ->]. by rewrite H1, H2. }
  assert (Hinner : forall (j : nat) m1 t1 m2 t2,
            (j < Z.to_nat (nsteps s))%nat ->
            for_range NSETS 0
              (fun which mat =>
                 mat ← write_extensible_dset s which (Z.of_nat j) mat;
                 _ ← do_call (nanosleep (tv_sec (update_interval s))
                                (tv_nsec (update_interval s)));
                 mret mat) m1 e t1 = (Ret m2, t2) ->
            forall (B : Type) (R : trace -> list B -> Prop)
                   (f : nat -> list B),
              R [] [] ->
              (forall d1 d2 l1 l2,
                  R d1 l1 -> R d2 l2 -> R (d1 ++ d2) (l1 ++ l2)) ->
              (forall (which : nat) d,
                  (which < NSETS)%nat ->
                  all_in PEpochs d ->
                  extents d = [(dataset s !!! which,
                                epoch_extent (two_dee s) (Z.of_nat j))] ->
                  (forall sel,
                      chunk_writes sel d =
                        map (fun b => (dataset s !!! which,
                                       Some [base.row b; base.col b]))
                          (epoch_bases (two_dee s) (Z.of_nat j))) ->
                  R d (f which)) ->
              exists d, t2 = t1 ++ d /\ R d (flat_map f (seq 0 NSETS))).
  { intros j m1 t1 m2 t2 Hj Hr B R f HRn HRa HRf.
    apply (for_range_Ret_collect _ R f e NSETS HRn HRa) in Hr; [done|].
    intros which m3 t3 m4 t4 Hwhich Hw.
    apply write_step_Ret in Hw as (d & -> & Hin & Hext & Hcw);
      [|unfold UINT_MAX in *; lia|done].
    exists d. split; [done|]. by apply HRf. }
  assert (H1 : exists d, t' = t ++ d /\
                 R1 d (run_extents (two_dee s) (dataset s)
                         (Z.to_nat (nsteps s)))).
  { apply (for_range_Ret_collect _ R1
             (fun step : nat =>
                map (fun which : nat =>
                       (dataset s !!! which,
                        epoch_extent (two_dee s) (Z.of_nat step)))
                  (seq 0 NSETS)) e _ HR1n HR1a) in Hrun; [done|].
    intros j m1 t1 m2 t2 Hj Hr.
    destruct (Hinner j m1 t1 m2 t2 Hj Hr _ R1
                (fun which : nat =>
                   [(dataset s !!! which,
                     epoch_extent (two_dee s) (Z.of_nat j))]) HR1n HR1a)
      as (d & -> & HR); [by intros which d _ Hin Hext _|].
    exists d. split; [done|]. by rewrite flat_map_singleton in HR. }
  assert (H2 : exists d, t' = t ++ d /\
                 R2 d (run_writes (two_dee s) (dataset s)
                         (Z.to_nat (nsteps s)))).
  { apply (for_range_Ret_collect _ R2
             (fun step : nat =>
                flat_map (fun which : nat =>
                            map (fun b => (dataset s !!! which,
                                           Some [base.row b; base.col b]))
                              (epoch_bases (two_dee s) (Z.of_nat step)))
                  (seq 0 NSETS)) e _ HR2n HR2a) in Hrun; [done|].
    intros j m1 t1 m2 t2 Hj Hr.
    apply (Hinner j m1 t1 m2 t2 Hj Hr _ R2
             (fun which : nat =>
                map (fun b => (dataset s !!! which,
                               Some [base.row b; base.col b]))
                  (epoch_bases (two_dee s) (Z.of_nat j))) HR2n HR2a).
    by intros which d _ _ _ Hcw. }
  destruct H1 as (d & -> & Hin & Hext). destruct H2 as (d' & Hd' & Hcw).
  apply app_inv_head in Hd'. subst d'.
  by exists d.
Qed.

Lemma assert_Ret_inv {B : Type} (c : bool) (k : unit -> M B) (e : env_t)
    (t t' : trace) (b : B) :
  (assert c ≫= k) e t = (Ret b, t') -> c = true /\ k tt e t = (Ret b, t').
Proof. destruct c; [done|discriminate]. Qed.

Lemma esnprintf_Ret_inv {B : Type} (bufsz : nat) (text : string)
    (k : string -> M B) (e : env_t) (t t' : trace) (b : B) :
  (esnprintf bufsz text ≫= k) e t = (Ret b, t') ->
  exists r : Z, k text e (t ++ [(esnprintf_call bufsz text, r)]) = (Ret b, t').
Proof.
  intros H. apply bind_Ret_inv in H as (a & t1 & He & H).
  unfold esnprintf in He. apply call_Ret_inv in He as (r & He).
  destruct (r <? 0); [discriminate He|]. injection He as <- <-. by exists r.
Qed.

(** A call of [create_extensible_dset] that returns. *)
Lemma create_extensible_dset_Ret (s s' : state_t) (which : Z) (e : env_t)
    (t t' : trace) :
  create_extensible_dset s which e t = (Ret s', t') ->
  exists (ds : hid_t) (d : trace),
    t' = t ++ d /\ 0 <= ds /\
    s' = set_dataset (<[Z.to_nat which := ds]> (dataset s)) s /\
    datasets_of d = [ds] /\ all_in PCreate d.
Proof.
  intros H. unfold create_extensible_dset in H.
  apply assert_Ret_inv in H as [_ H]. apply assert_Ret_inv in H as [_ H].
  apply esnprintf_Ret_inv in H as (r0 & H).
  apply assert_Ret_inv in H as [_ H].
  ret_call H fs. ret_call H dcpl. ret_call H r1.
  apply call_Ret_inv in H as (ds & H). cbv beta in H.
  ret_call H r2.
  destruct (ds <? 0) eqn:Hds; [ret_fail H|].
  injection H as <- <-.
  eexists ds, _. rewrite <- !app_assoc. cbn [app].
  split; [reflexivity|]. split; [lia|]. split; [done|]. split.
  - simpl. by replace (0 <=? ds) with true by lia.
  - repeat (apply Forall_cons_2; [reflexivity|]). apply Forall_nil_2.
Qed.

(** The loop of [create_extensible_dset] in a run that returns: the
    identifiers it got from [H5Dcreate2] are the datasets of the state. *)
Lemma create_loop_Ret (s s' : state_t) (e : env_t) (t t' : trace) :
  length (dataset s) = NSETS ->
  for_range NSETS 0 (fun which s => create_extensible_dset s which) s e t
    = (Ret s', t') ->
  exists d : trace,
    t' = t ++ d /\ all_in PCreate d /\
    datasets_of d = dataset s' /\ length (dataset s') = NSETS /\
    same_config s s'.
Proof.
  intros Hlen H. cbn [for_range NSETS] in H.
  destruct (dataset s) as [|x0 [|x1 [|x2 [|x3 [|x4 [|]]]]]] eqn:Hds;
    try discriminate Hlen.
  apply bind_Ret_inv in H as (s1 & t1 & H0 & H).
  apply create_extensible_dset_Ret in H0 as (d0 & e0 & -> & _ & -> & Hd0 & Hi0).
  apply bind_Ret_inv in H as (s2 & t2 & H1 & H).
  apply create_extensible_dset_Ret in H1 as (d1 & e1 & -> & _ & -> & Hd1 & Hi1).
  apply bind_Ret_inv in H as (s3 & t3 & H2 & H).
  apply create_extensible_dset_Ret in H2 as (d2 & e2 & -> & _ & -> & Hd2 & Hi2).
  apply bind_Ret_inv in H as (s4 & t4 & H3 & H).
  apply create_extensible_dset_Ret in H3 as (d3 & e3 & -> & _ & -> & Hd3 & Hi3).
  apply bind_Ret_inv in H as (s5 & t5 & H4 & H).
  apply create_extensible_dset_Ret in H4 as (d4 & e4 & -> & _ & -> & Hd4 & Hi4).
  injection H as <- <-.
  exists (e0 ++ e1 ++ e2 ++ e3 ++ e4). rewrite <- !app_assoc.
  split; [done|]. split; [by repeat apply Forall_app_2|].
  rewrite !datasets_of_app, Hd0, Hd1, Hd2, Hd3, Hd4.
  cbn. rewrite Hds. cbn. done.
Qed.

(** A run of [main] that returns, cut at the two loops. *)
Lemma main_Ret (v0 : Z) (argv0 : string) (args : list string) (e : env_t)
    (t0 T : trace) (s : state_t) (v z : Z) :
  state_init v0 argv0 args e [] = (Ret (s, v), t0) ->
  main v0 argv0 args e [] = (Ret z, T) ->
  exists (f : hid_t) (s' : state_t) (mat : matrix) (d1 d2 d3 d4 : trace),
    T = t0 ++ d1 ++ d2 ++ d3 ++ d4 /\
    all_in PSetup d1 /\
    for_range NSETS 0 (fun which s => create_extensible_dset s which)
      (set_file f s) e (t0 ++ d1) = (Ret s', (t0 ++ d1) ++ d2) /\
    write_epochs s' ∅ e ((t0 ++ d1) ++ d2) = (Ret mat, ((t0 ++ d1) ++ d2) ++ d3) /\
    all_calls (fun c => in_phase PAwait c || in_phase PClose c) d4 /\
    z = EXIT_SUCCESS.
Proof.
  intros Hinit H. unfold main in H.
  apply bind_Ret_inv in H as ([s0 v1] & t1 & Hi & H).
  rewrite Hinit in Hi. injection Hi as <- <- <-.
  ret_call H onheap. ret_call H fapl. ret_call H fcpl. ret_call H r.
  ret_call H f. apply call_Ret_inv in H as (r1 & H). cbv beta in H.
  rewrite <- !app_assoc in H. cbn [app] in H.
  match type of H with
  | context [t0 ++ ?l] => set (d1 := l) in *
  end.
  assert (Hd1 : all_in PSetup d1).
  { subst d1. repeat (apply Forall_cons_2; [reflexivity|]). apply Forall_nil_2. }
  clearbody d1.
  apply bind_Ret_inv in H as (s' & t2 & Hcreate & H).
  apply bind_Ret_inv in H as (mat & t3 & Hepochs & H).
  apply bind_Ret_inv in H as (x & t4 & Hawait & H).
  apply call_Ret_inv in H as (r2 & H). cbv beta in H.
  ret_call H r3. ret_call H r4. ret_call H r5.
  apply call_Ret_inv in H as (r6 & H). injection H as <- <-.
  assert (Hlen : length (dataset (set_file f s)) = NSETS).
  { destruct (state_init_Ret _ _ _ _ _ _ _ _ Hinit)
      as (_ & _ & _ & _ & _ & Hds & _).
    cbn. rewrite Hds. done. }
  destruct (create_loop_Ret _ _ _ _ _ Hlen Hcreate)
    as (d2 & -> & _ & _ & _ & _ & Hns & _).
  assert (Hn : 0 <= nsteps s' <= UINT_MAX).
  { destruct (state_init_Ret _ _ _ _ _ _ _ _ Hinit)
      as (_ & _ & _ & _ & Hn & _).
    rewrite Hns. exact Hn. }
  destruct (write_epochs_Ret _ _ _ _ _ _ Hn Hepochs) as (d3 & -> & _).
  assert (Ha : exists d, t4 = (((t0 ++ d1) ++ d2) ++ d3) ++ d /\ all_in PAwait d).
  { destruct (use_vfd_swmr s' && wait_for_signal s').
    - injection Hawait as <- <-. eexists [_].
      split; [done|]. apply Forall_cons_2; [done|apply Forall_nil_2].
    - injection Hawait as <- <-. exists []. rewrite app_nil_r.
      split; [done|apply Forall_nil_2]. }
  destruct Ha as (d4 & -> & Hd4).
  exists f, s', mat, d1, d2, d3,
    (d4 ++ [(restore_signals, r2); (H5Pclose fapl, r3); (H5Pclose fcpl, r4);
            (H5Fclose (file s'), r5); (free_call, r6)]).
  split; [|split; [exact Hd1|split; [exact Hcreate|
           split; [exact Hepochs|split; [|done]]]]].
  - rewrite <- !app_assoc. cbn [app]. reflexivity.
  - apply Forall_app_2.
    + apply (all_calls_impl (in_phase PAwait)
               (fun c => in_phase PAwait c || in_phase PClose c));
        [|exact Hd4]. by intros c ->.
    + repeat (apply Forall_cons_2; [reflexivity|]). apply Forall_nil_2.
Qed.





(** *** The configuration [state_init] returns *)

Lemma state_opt_config (s : state_t) (v : Z) (g : getopt_ret)
    (s' : state_t) (v' : Z) :
  state_opt (s, v) g = Ret (s', v') ->
  exists ch : ascii,
    opt_char g = Some ch /\
    nsteps s' =
      (if Ascii.eqb ch "n" then (strtoul (opt_arg g)).1.1 else nsteps s) /\
    two_dee s' =
      (if Ascii.eqb ch "d" then two_dee_arg (opt_arg g) else two_dee s) /\
    constantrate s' = constantrate s || Ascii.eqb ch "c" /\
    fuzz s' = fuzz s /\
    v' = (if Ascii.eqb ch "q" then 1 else v).
Proof.
  intros H. destruct g as [ch a|]; [|done].
  exists ch. split; [done|]. simpl in H. simpl opt_arg.
  pose proof (strtoul_range (default "" a)) as Hrange.
  destruct (strtoul (default "" a)) as [[tmp end_] errno].
  simpl in Hrange. unfold two_dee_arg.
  split_ifs H; try discriminate; injection H as <- <-;
    repeat match goal with
           | E : Ascii.eqb _ _ = true |- _ => apply Ascii.eqb_eq in E; subst
           end; simpl;
    repeat match goal with
           | E : Ascii.eqb _ _ = _ |- _ => rewrite E
           | E : String.eqb _ _ = _ |- _ => rewrite E
           | E : _ || _ = _ |- _ => rewrite E
           end; simpl; rewrite ?orb_false_r, ?orb_true_r.
  all: repeat split; try done.
  all: try (apply orb_true_iff in E3 as [E3|E3]; apply String.eqb_eq in E3;
            by rewrite E3).
  all: unfold wrap32, UINT_MAX, ULONG_MAX in *; rewrite ?Z.mod_small by lia;
    try done.
Qed.

Lemma state_opts_config (gs : list getopt_ret) :
  forall (s : state_t) (v : Z) (s' : state_t) (v' : Z),
    state_opts gs (s, v) = Ret (s', v') ->
    nsteps s' =
      match last_optarg "n" gs with
      | Some a => (strtoul a).1.1
      | None => nsteps s
      end /\
    two_dee s' =
      match last_optarg "d" gs with
      | Some a => two_dee_arg a
      | None => two_dee s
      end /\
    constantrate s' = constantrate s || has_opt "c" gs /\
    fuzz s' = fuzz s /\
    v' = (if has_opt "q" gs then 1 else v).
Proof.
  induction gs as [|g gs IH]; intros s v s' v' H; cbn [state_opts] in H.
  - injection H as <- <-. simpl. by rewrite orb_false_r.
  - destruct (state_opt (s, v) g) as [[s1 v1]| | |] eqn:Hg; try discriminate.
    apply state_opt_config in Hg as (ch & Hch & Hn & Hd & Hc & Hf & Hv).
    apply IH in H as (Hn' & Hd' & Hc' & Hf' & Hv').
    rewrite !has_opt_cons, Hch.
    rewrite Hn', Hd', Hc', Hf', Hv', Hn, Hd, Hc, Hf, Hv.
    rewrite (Ascii.eqb_sym ch "c"), (Ascii.eqb_sym ch "q").
    destruct g as [c a|]; [|done]. simpl in Hch. injection Hch as ->.
    cbn [last_optarg opt_arg].
    split; [|split; [|split; [by rewrite orb_assoc|split; [done|]]]].
    + destruct (last_optarg "n" gs); [done|].
      rewrite (Ascii.eqb_sym ch "n"). by destruct (Ascii.eqb "n" ch).
    + destruct (last_optarg "d" gs); [done|].
      rewrite (Ascii.eqb_sym ch "d"). by destruct (Ascii.eqb "d" ch).
    + destruct (Ascii.eqb "q" ch); simpl; [|done].
      by destruct (has_opt "q" gs).
Qed.

(** X6.  The configuration [state_init] returns is that of the last [-n] and the
    last [-d] on the command line, 100 steps and one dimension when there is
    none; [-c] and [-q] count wherever they stand; the program name is the last
    component of [argv[0]] and the file is named after it. *)
Theorem state_init_config (v0 : Z) (argv0 : string) (args : list string)
    (e : env_t) (t t' : trace) (s : state_t) (v : Z) :
  state_init v0 argv0 args e t = (Ret (s, v), t') ->
  let gs := (getopt_all optstring args).1 in
  nsteps s =
    match last_optarg "n" gs with
    | Some a => (strtoul a).1.1
    | None => 100
    end /\
  two_dee s =
    match last_optarg "d" gs with
    | Some a => two_dee_arg a
    | None => false
    end /\
  constantrate s = has_opt "c" gs /\
  fuzz s = false /\
  v = (if has_opt "q" gs then 1 else v0) /\
  progname s = basename argv0 /\
  output_file s = basename argv0 +:+ ".h5" /\
  file s = H5I_INVALID_HID /\
  exists d : trace,
    t' = t ++ d /\
    In (H5Screate_simple RANK chunk_dims None, memspace s) d.
Proof.
  intros H gs. subst gs. unfold state_init in H.
  apply esnprintf_Ret_inv in H as (r0 & H).
  apply esnprintf_Ret_inv in H as (r1 & H).
  destruct (getopt_all optstring args) as [gs operands]. cbn [fst].
  apply bind_Ret_inv in H as ([s0 v1] & t1 & Hopts & H).
  unfold lift in Hopts.
  destruct (state_opts gs _) as [[s2 v2]| | |] eqn:Ho; try discriminate.
  injection Hopts as -> -> <-.
  pose proof (state_opts_config _ _ _ _ _ Ho) as (Hn & Hd & Hc & Hf & Hv).
  pose proof (state_opts_Ret _ _ _ _ _ Ho)
    as (_ & _ & _ & _ & _ & _ & Hfile & Hp & _).
  destruct (0 <? length operands)%nat; [ret_fail H|].
  cbv zeta in H. ret_call H ms.
  apply esnprintf_Ret_inv in H as (r2 & H).
  injection H as <- <- <-. cbn in *.
  rewrite Hn, Hd, Hc, Hf, Hp, Hfile.
  repeat split; try done.
  eexists. rewrite <- !app_assoc. split; [reflexivity|].
  cbn. tauto.
Qed.

Lemma state_init_config_witness :
  exists (s : state_t) (v : Z) (t' : trace),
    state_init 0 "/bin/w" ["-n"; "7"; "-d"; "2"; "-n"; "0x10"; "-d"; "one"]
      (fun _ _ => 7) [] = (Ret (s, v), t') /\
    nsteps s = 16 /\ two_dee s = false /\
    progname s = "w" /\ output_file s = "w.h5".
Proof.
  eexists _, _, _. split; [vm_compute; reflexivity|].
  pose proof (state_init_config 0 "/bin/w"
                ["-n"; "7"; "-d"; "2"; "-n"; "0x10"; "-d"; "one"]
                (fun _ _ => 7) [] _ _ _ eq_refl)
    as (Hn & Hd & _ & _ & _ & Hp & Ho & _).
  repeat split; assumption.
Defined.

(** *** When [state_init] returns *)

Lemma state_opt_outcome (sv : state_t * Z) (g : getopt_ret) :
  is_Ret (state_opt sv g) \/ state_opt sv g = Exit EXIT_FAILURE.
Proof.
  destruct sv as [s v]. destruct g as [ch a|]; [|by right].
  simpl. destruct (strtoul (default "" a)) as [[tmp end_] errno].
  repeat match goal with
         | |- context [if ?b then _ else _] => destruct b
         end; (by left) || (by right).
Qed.

Lemma state_opts_outcome (gs : list getopt_ret) :
  forall sv : state_t * Z,
    is_Ret (state_opts gs sv) \/ state_opts gs sv = Exit EXIT_FAILURE.
Proof.
  induction gs as [|g gs IH]; intros sv; cbn [state_opts]; [by left|].
  destruct (state_opt_outcome sv g) as [Hr| ->]; [|by right].
  destruct (state_opt sv g) as [sv'| | |]; [apply IH|done..].
Qed.

(** X7.  [state_init] touches the HDF5 library only for a command line it
    accepts: on any other it ends the process with a failure after at most its
    two calls of [esnprintf].  On one it accepts it returns exactly when none of
    its four calls fails, and ends the process with a failure otherwise. *)
Theorem state_init_accepts (v0 : Z) (argv0 : string) (args : list string)
    (e : env_t) (t : trace) :
  let run := state_init v0 argv0 args e t in
  exists d : trace,
    run.2 = t ++ d /\
    (is_Ret run.1 \/ run.1 = Exit EXIT_FAILURE) /\
    (~ accepted v0 argv0 args ->
     run.1 = Exit EXIT_FAILURE /\ all_calls is_esnprintf d /\
     (length d <= 2)%nat) /\
    (accepted v0 argv0 args ->
     (is_Ret run.1 <-> length d = 4%nat /\ Forall (fun ev => 0 <= ev.2) d)).
Proof.
  intros run. subst run. unfold accepted.
  destruct (state_init v0 argv0 args e t) as [o T] eqn:Hrun. cbn [fst snd].
  unfold state_init in Hrun.
  rewrite bind_run, esnprintf_run in Hrun.
  set (r0 := e t _) in Hrun.
  set (ev0 := (esnprintf_call PATH_MAX argv0, r0)) in Hrun.
  destruct (r0 <? 0) eqn:Hr0.
  { injection Hrun as <- <-. exists [ev0]. split; [done|]. split; [by right|].
    split.
    - intros _. split; [done|]. split; [|simpl; lia].
      apply Forall_cons_2; [done|apply Forall_nil_2].
    - intros _. split; [done|]. intros [Hl _]. discriminate Hl. }
  rewrite bind_run, esnprintf_run in Hrun.
  set (r1 := e _ _) in Hrun.
  set (ev1 := (esnprintf_call PATH_MAX (basename argv0), r1)) in Hrun.
  assert (Hesn : all_calls is_esnprintf [ev0; ev1])
    by (repeat (apply Forall_cons_2; [done|]); apply Forall_nil_2).
  destruct (r1 <? 0) eqn:Hr1.
  { injection Hrun as <- <-. exists [ev0; ev1]. rewrite <- app_assoc.
    split; [done|]. split; [by right|]. split.
    - intros _. split; [done|]. split; [done|simpl; lia].
    - intros _. split; [done|]. intros [Hl _]. discriminate Hl. }
  destruct (getopt_all optstring args) as [gs operands]. cbn [fst snd].
  rewrite bind_run in Hrun. unfold lift at 1 in Hrun.
  destruct (state_opts_outcome gs
              (set_progname (basename argv0) ALL_HID_INITIALIZER, v0))
    as [Hopts|Hopts].
  2:{ rewrite Hopts in Hrun |- *. injection Hrun as <- <-.
      exists [ev0; ev1]. rewrite <- app_assoc.
      split; [done|]. split; [by right|]. split.
      - intros _. split; [done|]. split; [done|simpl; lia].
      - by intros [[] _]. }
  destruct (state_opts gs _) as [[s v]| | |] eqn:Ho; try done.
  destruct operands as [|op operands]; cbn [length Nat.ltb Nat.leb] in Hrun.
  2:{ injection Hrun as <- <-. exists [ev0; ev1]. rewrite <- app_assoc.
      split; [done|]. split; [by right|]. split.
      - intros _. split; [done|]. split; [done|simpl; lia].
      - by intros [_ ?]. }
  cbv zeta in Hrun. rewrite bind_run in Hrun.
  unfold do_call at 1 in Hrun. cbv zeta in Hrun.
  set (ms := e _ _) in Hrun.
  set (ev2 := (H5Screate_simple RANK chunk_dims None, ms)) in Hrun.
  destruct (ms <? 0) eqn:Hms.
  { injection Hrun as <- <-. exists [ev0; ev1; ev2]. rewrite <- !app_assoc.
    split; [done|]. split; [by right|]. split.
    - intros Hna. exfalso. apply Hna. done.
    - intros _. split; [done|]. intros [Hl _]. discriminate Hl. }
  rewrite bind_run, esnprintf_run in Hrun.
  set (r3 := e _ _) in Hrun. set (ev3 := (esnprintf_call PATH_MAX _, r3)) in Hrun.
  exists [ev0; ev1; ev2; ev3].
  destruct (r3 <? 0) eqn:Hr3; injection Hrun as <- <-; rewrite <- !app_assoc.
  - split; [done|]. split; [by right|]. split.
    + intros Hna. exfalso. apply Hna. done.
    + intros _. split; [done|]. intros [_ Hall].
      apply Forall_inv_tail, Forall_inv_tail, Forall_inv_tail, Forall_inv in Hall.
      simpl in Hall. lia.
  - split; [done|]. split; [by left|]. split.
    + intros Hna. exfalso. apply Hna. done.
    + intros _. split; [|done]. intros _. split; [done|].
      repeat (apply Forall_cons_2; [simpl; lia|]). apply Forall_nil_2.
Qed.

(** *** How a run ends *)

Lemma ends_bind {A B : Type} (ab : bool) (m : M A) (k : A -> M B)
    (e : env_t) (t : trace) :
  ends ab (m e t).1 ->
  (forall a t', m e t = (Ret a, t') -> ends ab (k a e t').1) ->
  ends ab ((m ≫= k) e t).1.
Proof.
  intros Hm Hk. rewrite bind_run.
  destruct (m e t) as [[a| | |] t']; try done. by apply Hk.
Qed.

Lemma ends_call {B : Type} (ab : bool) (c : call) (k : Z -> M B)
    (e : env_t) (t : trace) :
  (forall r, ends ab (k r e (t ++ [(c, r)])).1) ->
  ends ab ((do_call c ≫= k) e t).1.
Proof. intros Hk. apply Hk. Qed.

Lemma ends_errx {A : Type} (ab : bool) (e : env_t) (t : trace) :
  ends ab (@errx A EXIT_FAILURE e t).1.
Proof. done. Qed.

(** One call whose result is tested. *)
Ltac ends_step r :=
  apply ends_call; intros r;
  try match goal with
      | |- ends _ ((if ?b then _ else _) _ _).1 =>
          destruct b; [apply ends_errx|]
      end.

Lemma ends_esnprintf {B : Type} (ab : bool) (n : nat) (text : string)
    (k : string -> M B) (e : env_t) (t : trace) :
  (forall t', ends ab (k text e t').1) ->
  ends ab ((esnprintf n text ≫= k) e t).1.
Proof.
  intros Hk. apply ends_bind.
  - unfold esnprintf. ends_step r. done.
  - intros a t' H. unfold esnprintf in H.
    apply call_Ret_inv in H as (r & H).
    destruct (r <? 0); [discriminate H|]. injection H as <- <-. apply Hk.
Qed.

Lemma ends_assert {B : Type} (ab : bool) (c : bool) (k : unit -> M B)
    (e : env_t) (t : trace) :
  c = true -> ends ab (k tt e t).1 -> ends ab ((assert c ≫= k) e t).1.
Proof. by intros ->. Qed.

Lemma ends_foldM {X S : Type} (ab : bool) (body : X -> S -> M S) (e : env_t)
    (xs : list X) :
  (forall x s t, x ∈ xs -> ends ab (body x s e t).1) ->
  forall s t, ends ab (foldM body xs s e t).1.
Proof.
  induction xs as [|x xs IH]; intros Hbody s t; [done|].
  cbn [foldM]. apply ends_bind; [apply Hbody; left|].
  intros s' t' _. apply IH. intros y s0 t0 Hy. apply Hbody. by right.
Qed.

Lemma ends_for_range {S : Type} (ab : bool) (body : Z -> S -> M S)
    (e : env_t) (n : nat) :
  (forall (j : nat) s t, (j < n)%nat -> ends ab (body (Z.of_nat j) s e t).1) ->
  forall s t, ends ab (for_range n 0 body s e t).1.
Proof.
  intros Hbody s t. rewrite for_range_foldM, <- foldM_map.
  apply ends_foldM. intros j s1 t1 Hj. apply elem_of_seq in Hj.
  rewrite Z.add_0_l. apply Hbody. lia.
Qed.

Lemma init_and_write_chunk_ends (ab : bool) (ds fs ms : hid_t) (mat : matrix)
    (which : Z) (b : base_t) (e : env_t) (t : trace) :
  (ab = false -> chunk_ok which b) ->
  ends ab (init_and_write_chunk ds fs ms mat which b e t).1.
Proof.
  intros Hok. unfold init_and_write_chunk.
  destruct (init_matrix mat which b) as [mat'|] eqn:Hm.
  - rewrite bind_run. cbn [assert_some lift].
    ends_step r1. ends_step r2. done.
  - rewrite bind_run. cbn [assert_some lift fst]. cbn [ends].
    destruct ab; [done|].
    destruct (init_matrix_ok mat which b (Hok eq_refl)) as [m Hm'].
    congruence.
Qed.

Lemma write_extensible_dset_ends (ab : bool) (s : state_t) (which k : Z)
    (mat : matrix) (e : env_t) (t : trace) :
  0 <= which < Z.of_nat NSETS -> 0 <= k < UINT_MAX ->
  (ab = false -> k <= (if two_dee s then 126 else 254)) ->
  ends ab (write_extensible_dset s which k mat e t).1.
Proof.
  intros Hw Hk Hsmall. unfold write_extensible_dset.
  apply ends_assert; [lia|]. cbv zeta.
  ends_step r. ends_step fs.
  apply ends_bind.
  - rewrite (epoch_loops_foldM (two_dee s) _ _ _ _ _ _ _ _ Hk).
    apply ends_foldM. intros b mat' t' Hb.
    apply init_and_write_chunk_ends. intros Hab.
    pose proof (epoch_chunks_ok (two_dee s) which k Hw
                  ltac:(specialize (Hsmall Hab); lia)) as Hall.
    rewrite Forall_forall in Hall. by apply Hall.
  - intros mat' t' _. ends_step r'. done.
Qed.

Lemma write_epochs_ends (ab : bool) (s : state_t) (mat : matrix) (e : env_t)
    (t : trace) :
  0 <= nsteps s <= UINT_MAX ->
  (ab = false -> nsteps s <= (if two_dee s then 127 else 255)) ->
  ends ab (write_epochs s mat e t).1.
Proof.
  intros Hn Hsmall. unfold write_epochs.
  apply ends_for_range. intros step m1 t1 Hstep.
  apply ends_for_range. intros which m2 t2 Hwhich.
  apply ends_bind.
  - apply write_extensible_dset_ends; [lia|unfold UINT_MAX in *; lia|].
    intros Hab. specialize (Hsmall Hab). destruct (two_dee s); lia.
  - intros m3 t3 _. ends_step r. done.
Qed.

Lemma create_extensible_dset_ends (s : state_t) (which : Z) (e : env_t)
    (t : trace) :
  0 <= which < Z.of_nat NSETS ->
  dataset s !!! Z.to_nat which = badhid ->
  ends false (create_extensible_dset s which e t).1.
Proof.
  intros Hw Hbad. unfold create_extensible_dset.
  apply ends_assert; [unfold NSETS in Hw; lia|].
  apply ends_assert; [lia|].
  apply ends_esnprintf. intros t1.
  apply ends_assert; [by rewrite Hbad|].
  ends_step fs. ends_step dcpl. ends_step r. apply ends_call. intros ds.
  ends_step r'. destruct (ds <? 0); [apply ends_errx|done].
Qed.

Lemma create_loop_ends (s : state_t) (e : env_t) (t : trace) :
  dataset s = replicate NSETS badhid ->
  ends false (for_range NSETS 0
                (fun which s => create_extensible_dset s which) s e t).1.
Proof.
  intros Hds. cbn [for_range NSETS].
  apply ends_bind;
    [apply create_extensible_dset_ends; [unfold NSETS; lia|by rewrite Hds]|].
  intros s1 t1 H1.
  apply create_extensible_dset_Ret in H1 as (d0 & ? & _ & _ & -> & _).
  apply ends_bind;
    [apply create_extensible_dset_ends;
       [unfold NSETS; lia|cbn; by rewrite Hds]|].
  intros s2 t2 H2.
  apply create_extensible_dset_Ret in H2 as (d1 & ? & _ & _ & -> & _).
  apply ends_bind;
    [apply create_extensible_dset_ends;
       [unfold NSETS; lia|cbn; by rewrite Hds]|].
  intros s3 t3 H3.
  apply create_extensible_dset_Ret in H3 as (d2 & ? & _ & _ & -> & _).
  apply ends_bind;
    [apply create_extensible_dset_ends;
       [unfold NSETS; lia|cbn; by rewrite Hds]|].
  intros s4 t4 H4.
  apply create_extensible_dset_Ret in H4 as (d3 & ? & _ & _ & -> & _).
  apply ends_bind;
    [apply create_extensible_dset_ends;
       [unfold NSETS; lia|cbn; by rewrite Hds]|].
  done.
Qed.

Lemma state_init_ends (v0 : Z) (argv0 : string) (args : list string)
    (e : env_t) (t : trace) :
  ends false (state_init v0 argv0 args e t).1.
Proof.
  unfold state_init.
  apply ends_esnprintf. intros t1. apply ends_esnprintf. intros t2.
  destruct (getopt_all optstring args) as [gs operands].
  apply ends_bind.
  - unfold lift. cbn [fst].
    destruct (state_opts_outcome gs
                (set_progname (basename argv0) ALL_HID_INITIALIZER, v0))
      as [H| ->]; [|done].
    by destruct (state_opts gs _).
  - intros [s v] t3 _.
    destruct (0 <? length operands)%nat; [apply ends_errx|].
    cbv zeta. ends_step ms. apply ends_esnprintf. intros t4. done.
Qed.

Lemma main_ends (ab : bool) (v0 : Z) (argv0 : string) (args : list string)
    (e : env_t) (t : trace) :
  (forall s v t0,
      state_init v0 argv0 args e t = (Ret (s, v), t0) ->
      ab = false -> nsteps s <= (if two_dee s then 127 else 255)) ->
  ends ab (main v0 argv0 args e t).1.
Proof.
  intros Hsmall. unfold main. apply ends_bind.
  - pose proof (state_init_ends v0 argv0 args e t) as H.
    destruct (state_init v0 argv0 args e t) as [[a| | |] t']; try done.
  - intros [s v] t0 Hinit.
    destruct (state_init_Ret _ _ _ _ _ _ _ _ Hinit)
      as (_ & _ & _ & _ & Hn & Hds & _).
    specialize (Hsmall s v t0 Hinit).
    ends_step onheap. ends_step fapl. ends_step fcpl. ends_step r.
    ends_step f. apply ends_call. intros r1.
    apply ends_bind.
    { match goal with
      | |- ends _ (for_range _ _ _ ?s1 _ ?t1).1 =>
          pose proof (create_loop_ends s1 e t1 Hds) as H
      end.
      destruct (for_range _ _ _ _ _ _).1; try done. }
    intros s' t1 Hcreate.
    assert (Hlen : length (dataset (set_file f s)) = NSETS)
      by (cbn; by rewrite Hds).
    destruct (create_loop_Ret _ _ _ _ _ Hlen Hcreate)
      as (d2 & _ & _ & _ & _ & Htd & Hns & _).
    cbn [two_dee nsteps set_file] in Htd, Hns.
    apply ends_bind.
    { apply write_epochs_ends; rewrite ?Htd, Hns; done. }
    intros mat t2 _.
    apply ends_bind.
    { destruct (use_vfd_swmr s' && wait_for_signal s'); done. }
    intros x t3 _. apply ends_call. intros r2.
    ends_step r3. ends_step r4. ends_step r5. apply ends_call. intros r6.
    done.
Qed.

(** X8.  A run of [main] ends in one of three ways: it returns [EXIT_SUCCESS];
    or it ends the process with the status [EXIT_FAILURE]; or an assertion
    fails, which happens only when more than 255 steps were asked for in one
    dimension, or more than 127 in two.  No loop of the writer runs longer than
    the model allows for. *)
Theorem main_outcome (v0 : Z) (argv0 : string) (args : list string)
    (e : env_t) :
  match (main v0 argv0 args e []).1 with
  | Ret z => z = EXIT_SUCCESS
  | Exit c => c = EXIT_FAILURE
  | Abort =>
      exists (s : state_t) (v : Z) (t0 : trace),
        state_init v0 argv0 args e [] = (Ret (s, v), t0) /\
        (if two_dee s then 127 else 255) < nsteps s
  | OutOfFuel => False
  end.
Proof.
  pose proof (main_ends true v0 argv0 args e [] ltac:(done)) as Hany.
  destruct (main v0 argv0 args e []) as [[z|c| |] T] eqn:Hmain; cbn [fst] in *;
    try done.
  - destruct (state_init v0 argv0 args e []) as [[[s v]| | |] t0] eqn:Hinit.
    + by destruct (main_Ret _ _ _ _ _ _ _ _ _ Hinit Hmain)
        as (? & ? & ? & ? & ? & ? & ? & _ & _ & _ & _ & _ & ->).
    + unfold main in Hmain. rewrite bind_run, Hinit in Hmain. discriminate.
    + unfold main in Hmain. rewrite bind_run, Hinit in Hmain. discriminate.
    + unfold main in Hmain. rewrite bind_run, Hinit in Hmain. discriminate.
  - destruct (state_init v0 argv0 args e []) as [[[s v]| | |] t0] eqn:Hinit.
    + exists s, v, t0. split; [done|].
      destruct (Z_lt_le_dec (if two_dee s then 127 else 255) (nsteps s))
        as [Hlt|Hle]; [done|].
      pose proof (main_ends false v0 argv0 args e []) as Hno.
      rewrite Hmain in Hno. cbn in Hno.
      assert (false = true); [|done]. apply Hno.
      intros s1 v1 t1 H1 _. rewrite Hinit in H1. by injection H1 as <- <- <-.
    + unfold main in Hmain. rewrite bind_run, Hinit in Hmain. discriminate.
    + pose proof (state_init_ends v0 argv0 args e []) as H.
      by rewrite Hinit in H.
    + unfold main in Hmain. rewrite bind_run, Hinit in Hmain. discriminate.
Qed.

(** *** The wait for the readers *)

(** C4, as amended.  In every run of [main] the history splits into what
    comes before the write epochs, the write epochs, the wait and the close,
    in this order; [await_signal] is called at most once, only in the wait,
    so after every call of the epoch loops and before [H5Fclose]; when it is
    called, neither [-S] nor [-W] was given and both loops ran to their end
    (one sleep per dataset and step); and once the close is reached it was
    called if and only if neither [-S] nor [-W] was given.  When no call
    fails and the command line is accepted, [state_init] returns, and with
    at most 255 steps in one dimension, or 127 in two, the run reaches the
    close and returns [EXIT_SUCCESS]: it has then waited if and only if
    neither [-S] nor [-W] was given. *)
Theorem main_await_signal (v0 : Z) (argv0 : string) (args : list string)
    (e : env_t) :
  let gs := (getopt_all optstring args).1 in
  let enabled := negb (has_opt "S" gs) && negb (has_opt "W" gs) in
  let run := main v0 argv0 args e [] in
  (exists d_before d_epochs d_await d_close : trace,
      run.2 = d_before ++ d_epochs ++ d_await ++ d_close /\
      all_calls (fun c => in_phase PInit c || in_phase PSetup c
                          || in_phase PCreate c) d_before /\
      all_in PEpochs d_epochs /\ all_in PAwait d_await /\
      all_in PClose d_close /\
      (length d_await <= 1)%nat /\
      (d_await <> [] ->
       enabled = true /\
       exists s v t0,
         state_init v0 argv0 args e [] = (Ret (s, v), t0) /\
         length (sleeps d_epochs) = (Z.to_nat (nsteps s) * NSETS)%nat) /\
      (d_close <> [] -> (d_await <> [] <-> enabled = true)) /\
      (is_Ret run.1 ->
       Exists (fun ev : event => is_H5Fclose ev.1 = true /\ 0 <= ev.2)
         d_close) /\
      (never_fails e -> accepted v0 argv0 args ->
       exists s v t0,
         state_init v0 argv0 args e [] = (Ret (s, v), t0) /\
         (nsteps s <= (if two_dee s then 127 else 255) ->
          run.1 = Ret EXIT_SUCCESS /\
          length (sleeps d_epochs) = (Z.to_nat (nsteps s) * NSETS)%nat /\
          Exists (fun ev : event => is_H5Fclose ev.1 = true /\ 0 <= ev.2)
            d_close /\
          (d_await <> [] <-> enabled = true)))) /\
  (forall p f, in_phase p (await_signal f) = true -> p = PAwait) /\
  (forall p f, in_phase p (H5Fclose f) = true -> p = PClose) /\
  (forall p c,
      in_phase p c = true ->
      match c with
      | H5Dset_extent _ _ | H5Dwrite _ _ _ _ | H5Sselect_hyperslab _ _ _
      | H5Dget_space _ | nanosleep _ _ => p = PEpochs
      | _ => True
      end).
Proof.
  intros gs enabled run.
  split; [|split; [by intros []|split; [by intros []|by intros [] []]]].
  subst run.
  destruct (state_init v0 argv0 args e []) as [o0 t0] eqn:Hinit.
  assert (Hin0 : all_in PInit t0).
  { destruct (emits_state_init v0 argv0 args e []) as (d & Hd & Hin).
    rewrite Hinit in Hd. simpl in Hd. by subst t0. }
  assert (Hacc : never_fails e -> accepted v0 argv0 args -> is_Ret o0).
  { intros He [Hopts Hops].
    pose proof (state_init_returns v0 argv0 args e [] He Hops Hopts) as H.
    by rewrite Hinit in H. }
  assert (Hbefore : forall p d,
            all_in p d -> p = PInit \/ p = PSetup \/ p = PCreate ->
            all_calls (fun c => in_phase PInit c || in_phase PSetup c
                                || in_phase PCreate c) d).
  { intros p d Hd Hp. eapply all_calls_impl; [|exact Hd].
    intros c Hc. destruct Hp as [->|[->| ->]]; rewrite Hc;
      by rewrite ?orb_true_r. }
  destruct o0 as [[s v]| | |].
  2-4: rewrite main_init_fail by (rewrite Hinit; simpl; tauto);
    rewrite Hinit; exists t0, [], [], []; rewrite !app_nil_r;
    (split; [done|]); (split; [apply (Hbefore PInit); tauto|]);
    repeat split; try apply Forall_nil_2; simpl; try lia; try done;
    intros He Ha; by destruct (Hacc He Ha).
  destruct (main_run _ _ _ _ _ _ _ _ Hinit) as (d & Hd & Hpost).
  pose proof (fun He => main_completes v0 argv0 args e [] t0 s v He Hinit)
    as Hcomplete.
  destruct (main v0 argv0 args e []) as [o t1]. simpl in Hd, Hpost, Hcomplete |- *.
  subst t1.
  destruct Hpost as (d1 & d2 & d3 & d4 & d5 & -> & H1 & H2 & H3 & H4 & H5
                     & _ & _ & _ & Hlen & Hle & Haw & Hcl & Hret).
  destruct (state_init_Ret _ _ _ _ _ _ _ _ Hinit) as (_ & HS & HW & _).
  fold gs in HS, HW. rewrite HS, HW in Haw, Hcl. fold enabled in Haw, Hcl.
  exists (t0 ++ d1 ++ d2), d3, d4, d5.
  split; [by rewrite <- !app_assoc|].
  split.
  { apply all_calls_app; [apply (Hbefore PInit); tauto|].
    apply all_calls_app; [apply (Hbefore PSetup)|apply (Hbefore PCreate)];
      tauto. }
  split; [done|]. split; [done|]. split; [done|]. split; [done|].
  split.
  { intros Hne. split; [by apply Haw|]. exists s, v, t0. split; [done|].
    apply Hlen. destruct d4; [done|discriminate]. }
  split; [intros Hne; split; [apply Haw|by apply Hcl]|].
  split; [intros Ho; by apply Hret|].
  intros He _. exists s, v, t0. split; [done|]. intros Hn.
  specialize (Hcomplete He Hn). subst o.
  destruct (Hret I) as [_ Hex].
  assert (Hne : d5 <> []) by (intros ->; by apply Exists_nil in Hex).
  split; [done|]. split; [|split; [done|]].
  - apply Hlen. by destruct d4, d5.
  - split; [apply Haw|by apply Hcl].
Qed.

(** C4 as stated fails when the writer does not get to the wait: with
    [-n 256] neither [-S] nor [-W] is given and no call fails, yet the
    assertion of [init_matrix] stops the run at step 255 and
    [await_signal] is never called. *)
Lemma main_aborts_before_wait :
  let args := ["-n"; "256"]%string in
  let gs := (getopt_all optstring args).1 in
  let run := main 0 "w" args env_succeed [] in
  never_fails env_succeed /\ accepted 0 "w" args /\
  negb (has_opt "S" gs) && negb (has_opt "W" gs) = true /\
  run.1 = Abort /\
  Forall (fun ev : event => forall f, ev.1 <> await_signal f) run.2.
Proof.
  intros args gs run. subst run gs args.
  split; [apply env_succeed_never_fails|].
  split; [split; vm_compute; done|]. split; [reflexivity|].
  assert (Hinit : exists s v t0,
            state_init 0 "w" ["-n"; "256"]%string env_succeed []
              = (Ret (s, v), t0) /\
            two_dee s = false /\ nsteps s = 256).
  { eexists _, _, _. split; [vm_compute; reflexivity|]. split; reflexivity. }
  destruct Hinit as (s & v & t0 & Hinit & H2d & Hn).
  destruct (main_aborts 0 "w" ["-n"; "256"]%string env_succeed s v t0
              env_succeed_never_fails Hinit H2d ltac:(lia)) as [Hab Hcalls].
  split; [exact Hab|].
  eapply Forall_impl; [exact Hcalls|].
  intros [c r] Hc f Heq. cbn [fst] in Heq, Hc. subst c. discriminate Hc.
Qed.

(** *** The datasets *)

(** C7.  In a run of [main] the datasets are created in one stretch of the
    history, after which no dataset is created: the datasets created are
    the first of ["/dataset-0"] ... ["/dataset-4"], each of dimensions
    256 by 512, chunk dimensions 256 by 512 and maximum dimensions
    unlimited by 512 (one-dimensional mode) or unlimited by unlimited
    (two-dimensional mode); no call of the epoch loops, of the wait or of
    the close comes before that stretch.  When no call fails, all five
    datasets are created, and they are created in that stretch, before any
    call of the epoch loops; so they are whenever such a call is made. *)
Theorem main_creates_datasets (v0 : Z) (argv0 : string) (args : list string)
    (e : env_t) (s : state_t) (v : Z) (t0 : trace) :
  state_init v0 argv0 args e [] = (Ret (s, v), t0) ->
  let run := main v0 argv0 args e [] in
  (exists d_before d_create d_after : trace,
      run.2 = d_before ++ d_create ++ d_after /\
      all_calls (fun c => in_phase PInit c || in_phase PSetup c) d_before /\
      all_in PCreate d_create /\
      all_calls (fun c => in_phase PEpochs c || in_phase PAwait c
                          || in_phase PClose c) d_after /\
      created ∅ ∅ run.2 `prefix_of` expected_datasets (two_dee s) /\
      (never_fails e \/ d_after <> [] \/ is_Ret run.1 ->
       created ∅ ∅ (d_before ++ d_create) = expected_datasets (two_dee s) /\
       created ∅ ∅ run.2 = expected_datasets (two_dee s))) /\
  expected_datasets (two_dee s) =
    map (fun name =>
           mk_dset_info name
             (Some ([256; 512],
                    Some (if two_dee s then [H5S_UNLIMITED; H5S_UNLIMITED]
                          else [H5S_UNLIMITED; 512])))
             (Some [256; 512]))
      ["/dataset-0"; "/dataset-1"; "/dataset-2"; "/dataset-3"; "/dataset-4"].
Proof.
  intros Hinit run. split; [|reflexivity]. subst run.
  assert (Hin0 : all_in PInit t0).
  { destruct (emits_state_init v0 argv0 args e []) as (d & Hd & Hin).
    rewrite Hinit in Hd. simpl in Hd. by subst t0. }
  pose proof (fun He => main_creates_all v0 argv0 args e s v t0 He Hinit)
    as Hok.
  destruct (main_run _ _ _ _ _ _ _ _ Hinit) as (d & Hd & Hpost).
  destruct (main v0 argv0 args e []) as [o t1]. simpl in Hd, Hpost, Hok |- *.
  subst t1.
  destruct Hpost as (d1 & d2 & d3 & d4 & d5 & -> & H1 & H2 & H3 & H4 & H5
                     & Hpre & Hall & _ & _ & _ & _ & _ & Hret).
  assert (Hb : all_calls (fun c => in_phase PInit c || in_phase PSetup c)
                 (t0 ++ d1)).
  { apply all_calls_app; (eapply all_calls_impl; [|eassumption]);
      intros c ->; by rewrite ?orb_true_r. }
  assert (Ha : all_calls (fun c => in_phase PEpochs c || in_phase PAwait c
                                   || in_phase PClose c) (d3 ++ d4 ++ d5)).
  { repeat apply all_calls_app; (eapply all_calls_impl; [|eassumption]);
      intros c ->; by rewrite ?orb_true_r. }
  assert (Hnb : all_calls (fun c => negb (is_H5Dcreate2 c)) (t0 ++ d1)).
  { apply all_calls_app; [by apply (created_phase PInit)|
                          by apply (created_phase PSetup)]. }
  assert (Hna : all_calls (fun c => negb (is_H5Dcreate2 c)) (d3 ++ d4 ++ d5)).
  { repeat apply all_calls_app;
      [by apply (created_phase PEpochs)|by apply (created_phase PAwait)|
       by apply (created_phase PClose)]. }
  assert (Hcr1 : exists sp ch,
            created ∅ ∅ ((t0 ++ d1) ++ d2) = created sp ch d2).
  { destruct (created_app (t0 ++ d1) d2 ∅ ∅) as (sp & ch & ->).
    rewrite (created_none _ Hnb). by exists sp, ch. }
  assert (Hcr2 : created ∅ ∅ (((t0 ++ d1) ++ d2) ++ d3 ++ d4 ++ d5) =
                 created ∅ ∅ ((t0 ++ d1) ++ d2)).
  { destruct (created_app ((t0 ++ d1) ++ d2) (d3 ++ d4 ++ d5) ∅ ∅)
      as (sp & ch & ->).
    by rewrite (created_none _ Hna), app_nil_r. }
  replace (t0 ++ d1 ++ d2 ++ d3 ++ d4 ++ d5)
    with (((t0 ++ d1) ++ d2) ++ d3 ++ d4 ++ d5) in *
    by (by rewrite <- !app_assoc).
  destruct Hcr1 as (sp & ch & Hcr1).
  exists (t0 ++ d1), d2, (d3 ++ d4 ++ d5).
  split; [by rewrite <- !app_assoc|]. split; [done|]. split; [done|].
  split; [done|]. rewrite Hcr2, Hcr1.
  split; [apply Hpre|].
  intros [He|Hreached].
  { specialize (Hok He). rewrite Hcr2, Hcr1 in Hok. done. }
  assert (Hne : d3 ++ d4 ++ d5 <> []).
  { destruct Hreached as [Hne|Ho]; [done|].
    destruct (Hret Ho) as [_ Hex]. intros Hnil.
    apply app_eq_nil in Hnil as [_ Hnil].
    apply app_eq_nil in Hnil as [_ ->]. by apply Exists_nil in Hex. }
  split; by apply Hall.
Qed.

Lemma main_creates_datasets_witness :
  exists (s : state_t) (v : Z) (t0 : trace),
    state_init 2 "w" ["-d"; "2"; "-n"; "300"] env_succeed []
      = (Ret (s, v), t0) /\
    two_dee s = true /\
    created ∅ ∅ (main 2 "w" ["-d"; "2"; "-n"; "300"] env_succeed []).2 =
      map (fun name =>
             mk_dset_info name
               (Some ([256; 512], Some [H5S_UNLIMITED; H5S_UNLIMITED]))
               (Some [256; 512]))
        ["/dataset-0"; "/dataset-1"; "/dataset-2"; "/dataset-3";
         "/dataset-4"].
Proof.
  eexists _, _, _. split; [vm_compute; reflexivity|]. split; [reflexivity|].
  destruct (main_creates_datasets 2 "w" ["-d"; "2"; "-n"; "300"]
              env_succeed _ _ _ eq_refl)
    as [(d_before & d_create & d_after & _ & _ & _ & _ & _ & Hall) Hexp].
  destruct (Hall (or_introl env_succeed_never_fails)) as [_ Hrun].
  rewrite Hrun. exact Hexp.
Defined.

(** *** The options of the command line *)

(** Whether the [switch] accepts a result of [getopt] does not depend on
    the state it is run in. *)
Lemma state_opt_accepts (sv sv' : state_t * Z) (g : getopt_ret) :
  is_Ret (state_opt sv g) -> is_Ret (state_opt sv' g).
Proof.
  destruct sv as [s v], sv' as [s' v']. destruct g as [ch a|]; [|done].
  simpl. destruct (strtoul (default "" a)) as [[tmp end_] errno].
  repeat match goal with
         | |- context [if ?b then _ else _] => destruct b
         end; done.
Qed.

Lemma state_opts_accepts (gs : list getopt_ret) (sv0 : state_t * Z) :
  forall sv : state_t * Z,
    is_Ret (state_opts gs sv) <->
    Forall (fun g => is_Ret (state_opt sv0 g)) gs.
Proof.
  induction gs as [|g gs IH]; intros sv; cbn [state_opts].
  - split; [intros _; apply Forall_nil_2|done].
  - rewrite Forall_cons. split.
    + intros H. destruct (state_opt sv g) as [sv'| | |] eqn:Hg; try done.
      split; [|by apply (IH sv')].
      apply (state_opt_accepts sv). by rewrite Hg.
    + intros [Hg Hgs]. apply (state_opt_accepts sv0 sv) in Hg.
      destruct (state_opt sv g) as [sv'| | |]; try done. by apply IH.
Qed.

Lemma state_init_rejects (v0 : Z) (argv0 : string) (args : list string)
    (e : env_t) (t : trace) :
  ~ Forall (fun g => is_Ret (state_opt (ALL_HID_INITIALIZER, v0) g))
      (getopt_all optstring args).1 \/
  (getopt_all optstring args).2 <> [] ->
  (state_init v0 argv0 args e t).1 = Exit EXIT_FAILURE.
Proof.
  intros Hbad.
  pose proof (state_init_ends v0 argv0 args e t) as Hends.
  destruct (state_init v0 argv0 args e t) as [[[s v]|c| |] t'] eqn:Hrun;
    cbn [fst ends] in *; [|by subst|done..].
  exfalso. unfold state_init in Hrun.
  apply esnprintf_Ret_inv in Hrun as (r0 & Hrun).
  apply esnprintf_Ret_inv in Hrun as (r1 & Hrun).
  destruct (getopt_all optstring args) as [gs operands]. cbn [fst snd] in *.
  apply bind_Ret_inv in Hrun as ([s0 v1] & t1 & Hopts & Hrun).
  unfold lift in Hopts.
  destruct (state_opts gs _) as [sv1| | |] eqn:Ho; try discriminate.
  destruct Hbad as [Hbad|Hbad].
  - apply Hbad.
    apply (state_opts_accepts gs _
             (set_progname (basename argv0) ALL_HID_INITIALIZER, v0)).
    by rewrite Ho.
  - destruct operands; [done|]. cbn in Hrun. discriminate Hrun.
Qed.

(** C5, as amended.  [getopt] is given the option characters [S], [W], [c],
    [q] (without argument) and [d], [n], [u] (with argument) and no other,
    and the [switch] ends the process with a failure on any other option.
    [-S] clears [use_vfd_swmr], [-W] clears [wait_for_signal], [-c] sets
    [constantrate], [-q] sets [verbosity] to 1; [-d] takes ["1"] or ["one"]
    for one dimension, ["2"], ["two"] or ["both"] for two, and fails on any
    other argument; [-n] takes the number of steps, failing when [strtoul]
    does not read the whole nonempty argument or the number exceeds
    [UINT_MAX]; [-u] takes the interval in milliseconds.  For [state_init]
    this means: when it returns, every option of the command line was
    accepted, no operand was left, and the state holds the configuration of
    the options, the last [-n], [-d] and [-u] counting; when an option is
    not accepted or an operand is left it ends the process with a failure,
    as it does for an unknown option, a bad argument of [-d] or a bad
    argument of [-n] in the first place; and when every option is accepted,
    no operand is left and no call fails, it returns. *)
Theorem state_init_options :
  (forall c : ascii,
      opt_lookup optstring c =
        if existsb (Ascii.eqb c) ["S"; "W"; "c"; "q"]%char then Some false
        else if existsb (Ascii.eqb c) ["d"; "n"; "u"]%char then Some true
        else None) /\
  (forall sv, state_opt sv GErr = Exit EXIT_FAILURE) /\
  (forall s v ch a,
      opt_lookup optstring ch = None ->
      state_opt (s, v) (GOpt ch a) = Exit EXIT_FAILURE) /\
  (forall s v a,
      state_opt (s, v) (GOpt "S" a) = Ret (set_use_vfd_swmr false s, v) /\
      state_opt (s, v) (GOpt "W" a) = Ret (set_wait_for_signal false s, v) /\
      state_opt (s, v) (GOpt "c" a) = Ret (set_constantrate true s, v) /\
      state_opt (s, v) (GOpt "q" a) = Ret (s, 1)) /\
  (forall s v a,
      (a = "1" \/ a = "one" ->
       state_opt (s, v) (GOpt "d" (Some a)) = Ret (set_two_dee false s, v)) /\
      (a = "2" \/ a = "two" \/ a = "both" ->
       state_opt (s, v) (GOpt "d" (Some a)) = Ret (set_two_dee true s, v)) /\
      (a <> "1" -> a <> "one" -> a <> "2" -> a <> "two" -> a <> "both" ->
       state_opt (s, v) (GOpt "d" (Some a)) = Exit EXIT_FAILURE)) /\
  (forall s v a,
      state_opt (s, v) (GOpt "n" (Some a)) =
        if negb ((strtoul a).1.2 =? 0)%nat
           && ((strtoul a).1.2 =? String.length a)%nat
           && ((strtoul a).2 =? 0) && ((strtoul a).1.1 <=? UINT_MAX)
        then Ret (set_nsteps (strtoul a).1.1 s, v)
        else Exit EXIT_FAILURE) /\
  (forall s v cs,
      is_numeral cs = true ->
      state_opt (s, v) (GOpt "n" (Some (string_of_list_ascii cs))) =
        if dec_value cs <=? UINT_MAX
        then Ret (set_nsteps (dec_value cs) s, v)
        else Exit EXIT_FAILURE) /\
  (forall s v cs,
      is_numeral cs = true ->
      state_opt (s, v) (GOpt "u" (Some (string_of_list_ascii cs))) =
        if dec_value cs <=? ULONG_MAX
        then Ret (set_update_interval (interval_of_millis (dec_value cs)) s, v)
        else Exit EXIT_FAILURE) /\
  (forall v0 argv0 args e t,
      let gs := (getopt_all optstring args).1 in
      let operands := (getopt_all optstring args).2 in
      let accepts := fun g => is_Ret (state_opt (ALL_HID_INITIALIZER, v0) g) in
      let run := state_init v0 argv0 args e t in
      (forall s v t',
          run = (Ret (s, v), t') ->
          Forall accepts gs /\ operands = [] /\
          use_vfd_swmr s = negb (has_opt "S" gs) /\
          wait_for_signal s = negb (has_opt "W" gs) /\
          constantrate s = has_opt "c" gs /\
          v = (if has_opt "q" gs then 1 else v0) /\
          nsteps s =
            match last_optarg "n" gs with
            | Some a => (strtoul a).1.1
            | None => 100
            end /\
          two_dee s =
            match last_optarg "d" gs with
            | Some a => two_dee_arg a
            | None => false
            end /\
          update_interval s =
            match last_optarg "u" gs with
            | Some a => interval_of_millis (strtoul a).1.1
            | None => {| tv_sec := 0; tv_nsec := 33333333 |}
            end) /\
      (~ Forall accepts gs \/ operands <> [] ->
       run.1 = Exit EXIT_FAILURE) /\
      (never_fails e -> Forall accepts gs -> operands = [] ->
       is_Ret run.1)) /\
  (forall sv sv' g, is_Ret (state_opt sv g) -> is_Ret (state_opt sv' g)) /\
  (forall v0 argv0 rest e t,
      (forall c : ascii,
          opt_lookup optstring c = None -> c <> "-"%char ->
          (state_init v0 argv0 (String "-" (String c "") :: rest) e t).1
            = Exit EXIT_FAILURE) /\
      (forall a : string,
          a <> "1" -> a <> "one" -> a <> "2" -> a <> "two" -> a <> "both" ->
          (state_init v0 argv0 ("-d" :: a :: rest) e t).1
            = Exit EXIT_FAILURE) /\
      (forall a : string,
          negb ((strtoul a).1.2 =? 0)%nat
          && ((strtoul a).1.2 =? String.length a)%nat
          && ((strtoul a).2 =? 0) && ((strtoul a).1.1 <=? UINT_MAX) = false ->
          (state_init v0 argv0 ("-n" :: a :: rest) e t).1
            = Exit EXIT_FAILURE)).
Proof.
  split.
  { intros c. destruct c as [[] [] [] [] [] [] [] []]; reflexivity. }
  split; [by intros [s v]|].
  assert (Hunknown : forall s v ch a,
            opt_lookup optstring ch = None ->
            state_opt (s, v) (GOpt ch a) = Exit EXIT_FAILURE).
  { intros s v ch a H.
    destruct ch as [[] [] [] [] [] [] [] []]; try reflexivity;
      vm_compute in H; discriminate H. }
  split; [exact Hunknown|].
  split; [intros s v a; by repeat split|].
  assert (Hd : forall s v a,
            a <> "1" -> a <> "one" -> a <> "2" -> a <> "two" -> a <> "both" ->
            state_opt (s, v) (GOpt "d" (Some a)) = Exit EXIT_FAILURE).
  { intros s v a H1 H2 H3 H4 H5. cbn.
    apply String.eqb_neq in H1, H2, H3, H4, H5.
    by rewrite H1, H2, H3, H4, H5. }
  split.
  { intros s v a. split; [|split].
    - by intros [-> | ->].
    - by intros [-> | [-> | ->]].
    - apply Hd. }
  split; [apply state_opt_n|].
  split.
  { intros s v cs Hcs. rewrite state_opt_n, strtoul_numeral by done.
    rewrite length_string_of_list_ascii. cbn [fst snd].
    assert (Hnn : 0 <= dec_value cs).
    { destruct cs as [|c cs]; [done|].
      simpl in Hcs. apply andb_true_iff in Hcs as [Hc Hcs].
      apply andb_true_iff in Hc as [Hc _].
      apply dec_value_from_nonneg; [|done]. simpl. by rewrite Hc, Hcs. }
    assert (Hlen : (length cs =? 0)%nat = false) by (by destruct cs).
    rewrite Hlen, Nat.eqb_refl. cbn [negb andb].
    set (n := dec_value cs) in *.
    unfold ULONG_MAX, UINT_MAX, ERANGE in *.
    destruct (18446744073709551615 <? n) eqn:Hov; cbn [Z.eqb andb].
    - assert (H : (n <=? 4294967295) = false) by lia.
      by rewrite H.
    - by destruct (n <=? 4294967295). }
  split.
  { intros s v cs Hcs. rewrite state_opt_u, strtoul_numeral by done.
    rewrite length_string_of_list_ascii. cbn [fst snd].
    rewrite Nat.eqb_refl. cbn [negb orb]. rewrite orb_false_r.
    set (n := dec_value cs) in *.
    unfold ULONG_MAX, ERANGE.
    destruct (18446744073709551615 <? n) eqn:Hov; cbn [Z.eqb andb].
    - assert (H : (n <=? 18446744073709551615) = false) by lia.
      by rewrite H.
    - assert (H : (n <=? 18446744073709551615) = true) by lia.
      rewrite H. by rewrite andb_false_r. }
  split.
  { intros v0 argv0 args e t gs operands accepts run.
    split; [|split].
    - intros s v t' H. subst run.
      destruct (state_init_Ret _ _ _ _ _ _ _ _ H) as (Hop & HS & HW & Hu & _).
      fold gs in HS, HW, Hu. fold operands in Hop.
      split.
      { unfold state_init in H.
        apply esnprintf_Ret_inv in H as (r0 & H).
        apply esnprintf_Ret_inv in H as (r1 & H).
        subst gs accepts.
        destruct (getopt_all optstring args) as [gs ops]. cbn [fst] in *.
        apply bind_Ret_inv in H as ([s0 v1] & t1 & Hopts & H).
        unfold lift in Hopts.
        apply (state_opts_accepts gs _
                 (set_progname (basename argv0) ALL_HID_INITIALIZER, v0)).
        by destruct (state_opts gs _). }
      split; [done|]. split; [done|]. split; [done|].
      unfold state_init in H.
      apply esnprintf_Ret_inv in H as (r0 & H).
      apply esnprintf_Ret_inv in H as (r1 & H).
      subst gs operands.
      destruct (getopt_all optstring args) as [gs operands].
      cbn [fst snd] in *.
      apply bind_Ret_inv in H as ([s0 v1] & t1 & Hopts & H).
      unfold lift in Hopts.
      destruct (state_opts gs _) as [[s2 v2]| | |] eqn:Ho; try discriminate.
      injection Hopts as -> -> <-.
      pose proof (state_opts_config _ _ _ _ _ Ho) as (Hn & Hd' & Hc & _ & Hv).
      destruct (0 <? length operands)%nat; [ret_fail H|].
      cbv zeta in H. ret_call H ms.
      apply esnprintf_Ret_inv in H as (r2 & H).
      injection H as <- <- <-. cbn in *.
      rewrite Hn, Hd', Hc. done.
    - apply state_init_rejects.
    - intros He Hacc Hops. subst run.
      apply state_init_returns; [done|done|].
      by apply (state_opts_accepts _ (ALL_HID_INITIALIZER, v0)). }
  split; [apply state_opt_accepts|].
  intros v0 argv0 rest e t.
  assert (Hfirst : forall (args : list string) (g : getopt_ret) gs,
            (getopt_all optstring args).1 = g :: gs ->
            state_opt (ALL_HID_INITIALIZER, v0) g = Exit EXIT_FAILURE ->
            (state_init v0 argv0 args e t).1 = Exit EXIT_FAILURE).
  { intros args g gs Hgs Hg. apply state_init_rejects. left.
    rewrite Hgs. intros Hall. apply Forall_inv in Hall. by rewrite Hg in Hall. }
  split; [|split].
  - intros c Hc Hne.
    assert (Hgs : exists gs,
              (getopt_all optstring (String "-" (String c "") :: rest)).1
                = GErr :: gs).
    { cbn [getopt_all list_ascii_of_string].
      assert (Heq : (String "-" (String c "") =? "--")%string = false).
      { apply String.eqb_neq. intros [= ->]. done. }
      rewrite Heq. cbn [getopt_cluster]. rewrite Hc.
      cbn [getopt_cluster].
      destruct rest as [|r rest']; [by eexists|].
      destruct (getopt_all optstring (r :: rest')) as [rs' ops].
      by eexists. }
    destruct Hgs as [gs Hgs]. by apply (Hfirst _ _ _ Hgs).
  - intros a H1 H2 H3 H4 H5.
    assert (Hgs : exists gs,
              (getopt_all optstring ("-d" :: a :: rest)).1
                = GOpt "d" (Some a) :: gs).
    { cbn. destruct (getopt_all _ rest) as [rs' ops]. by eexists. }
    destruct Hgs as [gs Hgs]. apply (Hfirst _ _ _ Hgs). by apply Hd.
  - intros a Ha.
    assert (Hgs : exists gs,
              (getopt_all optstring ("-n" :: a :: rest)).1
                = GOpt "n" (Some a) :: gs).
    { cbn. destruct (getopt_all _ rest) as [rs' ops]. by eexists. }
    destruct Hgs as [gs Hgs]. apply (Hfirst _ _ _ Hgs).
    by rewrite state_opt_n, Ha.
Qed.

(** C5 as stated fails on [-q]: it is an option of the writer too, after
    which [state_init] returns with [verbosity] set to 1, whereas an option
    that is not recognized, such as [-x], ends the process. *)
Lemma state_init_accepts_q :
  opt_lookup optstring "q" = Some false /\
  (state_init 2 "w" ["-q"] (fun _ _ => 7) []).1 =
    Ret (set_output_file "w.h5"
           (set_memspace 7
              (set_dataset [-1; -1; -1; -1; -1]
                 (set_progname "w" ALL_HID_INITIALIZER))), 1) /\
  (state_init 2 "w" [] (fun _ _ => 7) []).1 =
    Ret (set_output_file "w.h5"
           (set_memspace 7
              (set_dataset [-1; -1; -1; -1; -1]
                 (set_progname "w" ALL_HID_INITIALIZER))), 2) /\
  opt_lookup optstring "x" = None /\
  (state_init 2 "w" ["-x"] (fun _ _ => 7) []).1 = Exit EXIT_FAILURE.
Proof. repeat split; vm_compute; reflexivity. Qed.

(** *** The other entry points of [H5G.c] *)

(** Run an entry point on every answer the library can give: [H] is the
    equation of the run, and each step splits on the test that comes
    first. *)
Ltac head_scrut T :=
  lazymatch T with
  | match ?x with _ => _ end =>
      match x with | _ => head_scrut x | _ => constr:(x) end
  | (match ?x with _ => _ end) _ =>
      match x with | _ => head_scrut x | _ => constr:(x) end
  | (match ?x with _ => _ end) _ _ =>
      match x with | _ => head_scrut x | _ => constr:(x) end
  end.

Ltac h5g_unfold H :=
  cbv beta iota zeta delta
    [H5G.H5Gcreate_anon H5G.H5Gcreate_anon_body H5G.H5Gget_create_plist
     H5G.H5Gget_info_by_name H5G.H5Gget_info_by_idx H5G.H5Gclose
     H5G.H5Gflush H5G.H5Grefresh H5G.release_on_failure H5G.free_location
     H5G.H5G__init_package H5G.H5G_top_term_package H5G.H5G_term_package
     H5G.H5G__close_group
     mbind H5G.M_bind mret H5G.M_ret H5G.ask H5G.herror H5G.the_env] in H.

(** Name what the library answered, the earliest call first. *)
Ltac name_answers H :=
  repeat match type of H with
         | context [H5G.answers ?g ?T ?c] =>
             lazymatch T with
             | context [H5G.answers _ _ _] => fail
             | _ =>
                 let a := fresh "a" in
                 set (a := H5G.answers g T c) in *; clearbody a
             end
         end.

Ltac h5g_step H :=
  name_answers H;
  lazymatch type of H with
  | ?T = _ =>
      let x := head_scrut T in
      lazymatch x with
      | FAIL <? 0 => change (FAIL <? 0) with true in H
      | SUCCEED <? 0 => change (SUCCEED <? 0) with false in H
      | _ => let E := fresh "E" in destruct x eqn:E
      end;
      cbv beta iota zeta in H
  end.

Ltac bool_props :=
  repeat match goal with
         | E : (_ <? _) = true |- _ => apply Z.ltb_lt in E
         | E : (_ <? _) = false |- _ => apply Z.ltb_ge in E
         | E : (_ =? _) = true |- _ => apply Z.eqb_eq in E
         | E : (_ =? _) = false |- _ => apply Z.eqb_neq in E
         | E : (_ <=? _) = true |- _ => apply Z.leb_le in E
         | E : (_ <=? _) = false |- _ => apply Z.leb_gt in E
         end.

(** From [(run).2 = t ++ d /\ P (run).1 d] to one goal for each way
    through the entry point, [d] being the calls made on that way. *)
Ltac h5g_paths :=
  lazymatch goal with
  | |- exists d, (?run).2 = _ ++ d /\ _ =>
      let r := fresh "r" in
      let t' := fresh "t'" in
      let H := fresh "Hrun" in
      destruct run as [r t'] eqn:H; cbn [fst snd];
      h5g_unfold H; repeat h5g_step H;
      injection H as <- <-;
      rewrite <- ?app_assoc; cbn [app];
      eexists; (split; [reflexivity|]); bool_props
  end.

Ltac h5g_discipline :=
  h5g_paths;
  unfold H5G.api_discipline, FAIL, SUCCEED in *; cbn;
  (split; [lia|]); (split; [split; [try done; lia|try done; lia]|]);
  eexists _, _; (split; [reflexivity|]); cbn; try done; lia.

(** X9.  Every entry point returns [FAIL] or a value that is not negative, and
    [FAIL] exactly when it has pushed an error on the error stack; it does
    nothing before [FUNC_ENTER_API] and nothing else when that fails. *)
Theorem H5G_api_discipline (g : H5G.env) (t : H5G.trace) :
  (forall loc_id gcpl_id gapl_id,
      exists d,
        (H5G.H5Gcreate_anon loc_id gcpl_id gapl_id g t).2 = t ++ d /\
        H5G.api_discipline
          (H5G.H5Gcreate_anon loc_id gcpl_id gapl_id g t).1 d) /\
  (forall group_id,
      exists d,
        (H5G.H5Gget_create_plist group_id g t).2 = t ++ d /\
        H5G.api_discipline (H5G.H5Gget_create_plist group_id g t).1 d) /\
  (forall loc_id name grp_info lapl_id,
      exists d,
        (H5G.H5Gget_info_by_name loc_id name grp_info lapl_id g t).2
          = t ++ d /\
        H5G.api_discipline
          (H5G.H5Gget_info_by_name loc_id name grp_info lapl_id g t).1.1 d) /\
  (forall loc_id name idx_type order n grp_info lapl_id,
      exists d,
        (H5G.H5Gget_info_by_idx loc_id name idx_type order n grp_info lapl_id
           g t).2 = t ++ d /\
        H5G.api_discipline
          (H5G.H5Gget_info_by_idx loc_id name idx_type order n grp_info
             lapl_id g t).1.1 d) /\
  (forall group_id,
      exists d,
        (H5G.H5Gclose group_id g t).2 = t ++ d /\
        H5G.api_discipline (H5G.H5Gclose group_id g t).1 d) /\
  (forall group_id,
      exists d,
        (H5G.H5Gflush group_id g t).2 = t ++ d /\
        H5G.api_discipline (H5G.H5Gflush group_id g t).1 d) /\
  (forall group_id,
      exists d,
        (H5G.H5Grefresh group_id g t).2 = t ++ d /\
        H5G.api_discipline (H5G.H5Grefresh group_id g t).1 d).
Proof.
  split; [intros; h5g_discipline|].
  split; [intros; h5g_discipline|].
  split; [intros; h5g_discipline|].
  split; [intros; h5g_discipline|].
  split; [intros; h5g_discipline|].
  split; [intros; h5g_discipline|].
  intros; h5g_discipline.
Qed.

Ltac in_cases H :=
  cbn in H;
  repeat match type of H with
         | _ \/ _ => destruct H as [H|H]
         | False => destruct H
         end;
  simplify_eq.

Ltac find_in := first [left; reflexivity | right; find_in].

Ltac find_exists :=
  first [apply Exists_cons_hd; reflexivity
        |apply Exists_cons_tl; find_exists].

Ltac h5g_acts :=
  h5g_paths; unfold H5G.acts_on_group, FAIL, SUCCEED in *; cbn;
  (split;
   [intros c w Hin Hw; in_cases Hin; try discriminate Hw;
    eexists; (split; [cbn; find_in|]); (split; [done|]);
    (split; [reflexivity|lia])
   |split; [lia|intros Hr; first [lia | find_exists]]]).

(** X10.  [H5Gclose], [H5Gflush], [H5Grefresh] and [H5Gget_create_plist] act on
    nothing but a group: each makes at most one call that does its work, only
    after [H5I_object_verify] has answered for the same identifier with a group,
    and on that identifier or the object location of that group; and each
    succeeds exactly when that call is made and succeeds, [H5Gget_create_plist]
    then with the identifier the call returned. *)
Theorem H5G_acts_on_group (g : H5G.env) (t : H5G.trace) (group_id : hid_t) :
  (exists d,
      (H5G.H5Gclose group_id g t).2 = t ++ d /\
      H5G.acts_on_group group_id (fun _ => H5G.H5I_dec_app_ref group_id)
        (H5G.H5Gclose group_id g t).1 d) /\
  (exists d,
      (H5G.H5Gflush group_id g t).2 = t ++ d /\
      H5G.acts_on_group group_id
        (fun v => H5G.H5O_flush_common (H5G.grp_oloc (H5G.out_grp v))
                    group_id (H5G.H5AC_ind_read_dxpl_id g))
        (H5G.H5Gflush group_id g t).1 d) /\
  (exists d,
      (H5G.H5Grefresh group_id g t).2 = t ++ d /\
      H5G.acts_on_group group_id
        (fun v => H5G.H5O_refresh_metadata group_id
                    (H5G.grp_oloc (H5G.out_grp v))
                    (H5G.H5AC_ind_read_dxpl_id g))
        (H5G.H5Grefresh group_id g t).1 d) /\
  (exists d,
      (H5G.H5Gget_create_plist group_id g t).2 = t ++ d /\
      H5G.acts_on_group group_id
        (fun v => H5G.H5G_get_create_plist (H5G.out_grp v))
        (H5G.H5Gget_create_plist group_id g t).1 d /\
      (0 <= (H5G.H5Gget_create_plist group_id g t).1 ->
       exists grp w,
         In (H5G.Call (H5G.H5G_get_create_plist grp) w) d /\
         (H5G.H5Gget_create_plist group_id g t).1 = H5G.status w)).
Proof.
  split; [h5g_acts|]. split; [h5g_acts|]. split; [h5g_acts|].
  h5g_paths;
    (split; [|unfold FAIL in *; intros Hr;
              first [lia
                    |eexists _, _; split; [cbn; find_in|reflexivity]]]).
  all: unfold H5G.acts_on_group, FAIL, SUCCEED in *; cbn;
    (split;
     [intros c w Hin Hw; in_cases Hin; try discriminate Hw;
      eexists; (split; [cbn; find_in|]); (split; [done|]);
      (split; [reflexivity|lia])
     |split; [lia|intros Hr; first [lia | find_exists]]]).
Qed.


Ltac created_cases H :=
  let Hin := fresh "Hin" in
  destruct H as (? & ? & ? & ? & Hin & ? & ?); in_cases Hin.

Ltac show_created :=
  eexists _, _, _, _; split; [cbn; find_in|split; [eassumption|reflexivity]].

(** X11.  [H5Gcreate_anon] creates the group with the creation property list it
    was given, the default one for [H5P_DEFAULT].  Once a group is created the
    reference count of its object header is decremented, once, whether the entry
    point then succeeds or fails; and the group is closed exactly when the entry
    point fails, which it also does when the identifier was registered and the
    decrement failed.  When no group is created nothing is registered,
    decremented or closed. *)
Theorem H5Gcreate_anon_cleanup (g : H5G.env) (t : H5G.trace)
    (loc_id gcpl_id gapl_id : hid_t) :
  let run := H5G.H5Gcreate_anon loc_id gcpl_id gapl_id g t in
  exists d,
    run.2 = t ++ d /\
    (forall f gc dx a,
        In (H5G.Call (H5G.H5G__create f gc dx) a) d ->
        gc = (if H5P_DEFAULT =? gcpl_id then H5G.H5P_GROUP_CREATE_DEFAULT g
              else gcpl_id)) /\
    (forall grp,
        H5G.created d grp ->
        length (List.filter H5G.is_dec_rc (H5G.calls d)) = 1%nat /\
        (run.1 < 0 <-> In (H5G.H5G_close grp) (H5G.calls d))) /\
    ((forall grp, ~ H5G.created d grp) ->
     run.1 = FAIL /\
     forall c,
       In c (H5G.calls d) ->
       match c with
       | H5G.H5I_register _ _ _ | H5G.H5G_oloc _ | H5G.H5O_dec_rc_by_loc _ _
       | H5G.H5G_close _ => False
       | _ => True
       end) /\
    (0 <= run.1 ->
     exists grp a,
       H5G.created d grp /\
       In (H5G.Call (H5G.H5I_register H5I_GROUP grp true) a) d /\
       run.1 = H5G.status a).
Proof.
  intros run. subst run. h5g_paths; unfold FAIL, SUCCEED in *.
  all: split; [intros f gc dx a' Hin; in_cases Hin; done|].
  all: split;
    [intros grp Hc; created_cases Hc; cbn; (split; [reflexivity|]);
     split; intros Hx;
     first [lia | solve [in_cases Hx] | solve [cbn; tauto]]|].
  all: split;
    [intros Hno;
     first [exfalso; eapply Hno; show_created
           |split; [reflexivity|intros c Hc; in_cases Hc; done]]|].
  all: intros Hr; first [lia|eexists _, _; split; [show_created|];
                          split; [cbn; find_in|reflexivity]].
Qed.

(** The identifier stays registered when the decrement fails after the
    registration: the entry point returns [FAIL] and closes the group it
    has registered. *)
Example H5Gcreate_anon_dec_fails :
  (H5G.H5Gcreate_anon 1 0 0 H5G.env_dec_fails []).1 = FAIL /\
  H5G.calls (H5G.H5Gcreate_anon 1 0 0 H5G.env_dec_fails []).2 =
    [H5G.FUNC_ENTER_API; H5G.H5G_loc 1;
     H5G.H5P_verify_apl_and_dxpl 0 H5G.H5P_CLS_GACC 103 1 true;
     H5G.H5G__create 11 102 42;
     H5G.H5I_register H5I_GROUP (H5G.mk_grp 7 (H5G.mk_oloc 31 32)) true;
     H5G.H5G_oloc (H5G.mk_grp 7 (H5G.mk_oloc 31 32));
     H5G.H5O_dec_rc_by_loc (Some (H5G.mk_oloc 21 22)) 42;
     H5G.H5G_close (H5G.mk_grp 7 (H5G.mk_oloc 31 32))] /\
  H5G.errors (H5G.H5Gcreate_anon 1 0 0 H5G.env_dec_fails []).2 =
    ["unable to decrement refcount on newly created object"].
Proof. repeat split; reflexivity. Qed.

Ltac found_cases H :=
  let Hin := fresh "Hin" in
  let Hf := fresh "Hf" in
  destruct H as (? & ? & Hin & Hf & ? & ?); in_cases Hin;
  try discriminate Hf.

Ltac show_found :=
  lazymatch goal with
  | |- H5G.found _ (H5G.out_loc ?a) =>
      eexists _, a; split; [cbn; find_in|];
      split; [reflexivity|split; [eassumption|reflexivity]]
  end.

Ltac h5g_looks_up :=
  h5g_paths; unfold H5G.looks_up, FAIL, SUCCEED in *; cbn [fst snd];
  (split;
   [intros Hbad;
    first [split; [reflexivity|intros c Hc; in_cases Hc; tauto]
          |exfalso;
           repeat match goal with
                  | E : (_ || _) = false |- _ =>
                      apply orb_false_iff in E as [? ?]
                  end;
           repeat match goal with
                  | E : ?b = false |- _ => rewrite E in Hbad
                  end;
           cbn in Hbad; discriminate Hbad]|]);
  (split;
   [intros loc; split; intros Hx;
    first [solve [in_cases Hx]
          |solve [found_cases Hx; lia]
          |solve [in_cases Hx; show_found]
          |solve [found_cases Hx; cbn; tauto]]|]);
  (split; [cbn; lia|]);
  (split;
   [intros Hne; first [congruence
                      |eexists _, _, _; split; [cbn; find_in|reflexivity]]|]);
  intros Hr;
  first [lia|cbn in Hr; lia
        |lazymatch goal with
         | |- context [H5G.Call (H5G.H5G__obj_info (H5G.oloc ?loc) ?dx) ?i] =>
             exists loc, dx, i; split; [show_found|];
             split; [cbn; find_in|split; [eassumption|reflexivity]]
         end].

(** X12.  [H5Gget_info_by_name] and [H5Gget_info_by_idx] fail on a null or empty
    name, on a null structure and, for the second, on an index type or an order
    outside its range, before they look anything up and without touching the
    structure.  They free the location of the group exactly when they have found
    it, whether or not [H5G__obj_info] then succeeds; the structure is written
    by [H5G__obj_info] only. *)
Theorem H5Gget_info_by_looks_up (g : H5G.env) (t : H5G.trace)
    (loc_id : hid_t) (name : option string) (grp_info : option H5G_info_t)
    (lapl_id : hid_t) :
  (exists d,
      (H5G.H5Gget_info_by_name loc_id name grp_info lapl_id g t).2
        = t ++ d /\
      H5G.looks_up loc_id grp_info
        (no_name name || negb (bool_decide (is_Some grp_info)))
        (H5G.H5Gget_info_by_name loc_id name grp_info lapl_id g t).1 d) /\
  (forall idx_type order n,
      exists d,
        (H5G.H5Gget_info_by_idx loc_id name idx_type order n grp_info
           lapl_id g t).2 = t ++ d /\
        H5G.looks_up loc_id grp_info
          (no_name name
           || (idx_type <=? H5G.H5_INDEX_UNKNOWN g)
           || (H5G.H5_INDEX_N g <=? idx_type)
           || (order <=? H5G.H5_ITER_UNKNOWN g)
           || (H5G.H5_ITER_N g <=? order)
           || negb (bool_decide (is_Some grp_info)))
          (H5G.H5Gget_info_by_idx loc_id name idx_type order n grp_info
             lapl_id g t).1 d).
Proof.
  split.
  - h5g_looks_up.
  - intros idx_type order n. h5g_looks_up.
Qed.

(** *** Starting and stopping the package *)



(** *** Closing a group whose identifier is released *)

(** X14.  [H5G__close_group] on a VOL object: the object is freed only after the
    group was closed through the VOL without failure; the result is negative
    exactly when one message was pushed on the error stack, and is then [FAIL];
    otherwise it is the value the VOL's close returned.  A null pointer fails
    the assertion as soon as the function is entered. *)
Theorem H5G__close_group_order (g : H5G.env) (t : H5G.trace)
    (grp : option (Z * Z * Z)) :
  exists d,
    (H5G.H5G__close_group grp g t).2 = t ++ d /\
    match grp, (H5G.H5G__close_group grp g t).1 with
    | None, r =>
        r = None \/
        exists a, d = [H5G.Call H5G.FUNC_ENTER_NOAPI a] /\ H5G.status a < 0
    | Some _, None => False
    | Some (obj, vol_obj, vol_cls), Some r =>
        let close :=
          H5G.H5VL_group_close vol_obj vol_cls (H5G.H5AC_ind_read_dxpl_id g) in
        (r < 0 <-> H5G.errors d <> []) /\
        (r < 0 -> r = FAIL /\ length (H5G.errors d) = 1%nat) /\
        (0 <= r -> In close (H5G.calls d) ->
         exists a, In (H5G.Call close a) d /\ r = H5G.status a) /\
        (In (H5G.H5VL_free_object obj) (H5G.calls d) ->
         exists d1 d2 a,
           d = d1 ++ H5G.Call close a :: d2 /\ 0 <= H5G.status a /\
           ~ In (H5G.H5VL_free_object obj) (H5G.calls d1))
    end.
Proof.
  destruct grp as [[[obj vol_obj] vol_cls]|].
  - h5g_paths; cbn in *; unfold FAIL, SUCCEED in *;
      repeat split; intros; try lia; try congruence;
      try (exfalso;
           repeat match goal with
             | H : _ \/ _ |- _ => destruct H as [H|H]
             | H : False |- _ => destruct H
             end; congruence);
      try (eexists; split; [right; left; reflexivity|reflexivity]);
      try (eexists [_], _, _; split; [reflexivity|];
           split; [lia|]; cbn; intros [?|[]]; congruence).
  - h5g_paths; cbn in *; eauto.
Qed.

(** *** A library in which every call succeeds *)

(** With such a library every entry point succeeds: [H5Gcreate_anon] and
    [H5Gget_create_plist] return the identifier the library registered, the two
    queries fill the structure with what [H5G__obj_info] found. *)
Example H5G_entry_points_succeed :
  (H5G.H5Gcreate_anon 1 0 0 H5G.env_ok []).1 = 1 /\
  (H5G.H5Gget_create_plist 5 H5G.env_ok []).1 = 1 /\
  (H5G.H5Gclose 5 H5G.env_ok []).1 = SUCCEED /\
  (H5G.H5Gflush 5 H5G.env_ok []).1 = SUCCEED /\
  (H5G.H5Grefresh 5 H5G.env_ok []).1 = SUCCEED /\
  (H5G.H5Gget_info_by_name 1 (Some "g"%string)
     (Some (mk_H5G_info 0 0 0 false)) 0 H5G.env_ok []).1 =
    (SUCCEED, Some (mk_H5G_info 0 3 0 false)) /\
  (H5G.H5Gget_info_by_idx 1 (Some "g"%string) 0 1 0
     (Some (mk_H5G_info 0 0 0 false)) 0 H5G.env_ok []).1 =
    (SUCCEED, Some (mk_H5G_info 0 3 0 false)) /\
  (H5G.H5Gget_info_by_idx 1 (Some "g"%string) 2 1 0
     (Some (mk_H5G_info 0 0 0 false)) 0 H5G.env_ok []).1 =
    (FAIL, Some (mk_H5G_info 0 0 0 false)).
Proof. repeat split; reflexivity. Qed.
